(** * The authentication boundary of the fitness backend

    A shallow embedding of the two generations of the authentication
    service found in the repository:

    - [Legacy]  : [src/services/cognito_service.py],
                  [src/database/user_repository.py], [src/api/auth.py],
                  [src/models/auth_models.py];
    - [Backend] : [backend/app/services/cognito_service.py],
                  [backend/app/core/security.py],
                  [backend/app/api/v1/auth.py],
                  [backend/app/api/v1/onboarding.py],
                  [backend/app/schemas/*.py], [backend/app/models/user.py].

    The identity provider (the boto3 [cognito-idp] client) and the
    relational store are external collaborators.  The provider is a record
    of functions from the request the code builds to the answer the
    provider gives; the store is an explicit table state, and a failure of
    the database during a round trip is an input of the operation. *)

From Stdlib Require Import ZArith QArith Ascii String Strings.Byte List Lia.
From stdpp Require Import base option list strings gmap.

Open Scope string_scope.
Open Scope Z_scope.

(** ** The Python fragment the services are written in *)

Module Py.

(** *** [str] methods, on ASCII text *)

Definition isupper_c (c : ascii) : bool :=
  let n := nat_of_ascii c in (65 <=? n)%nat && (n <=? 90)%nat.

Definition islower_c (c : ascii) : bool :=
  let n := nat_of_ascii c in (97 <=? n)%nat && (n <=? 122)%nat.

Definition isdigit_c (c : ascii) : bool :=
  let n := nat_of_ascii c in (48 <=? n)%nat && (n <=? 57)%nat.

Definition isalnum_c (c : ascii) : bool :=
  isupper_c c || islower_c c || isdigit_c c.

Definition lower_c (c : ascii) : ascii :=
  if isupper_c c then ascii_of_nat (nat_of_ascii c + 32) else c.

(** [s.lower()] *)
Fixpoint lower (s : string) : string :=
  match s with
  | EmptyString => EmptyString
  | String c r => String (lower_c c) (lower r)
  end.

(** [all(p(c) for c in s)] and [any(p(c) for c in s)] *)
Fixpoint all_chars (p : ascii -> bool) (s : string) : bool :=
  match s with
  | EmptyString => true
  | String c r => p c && all_chars p r
  end.

Fixpoint any_char (p : ascii -> bool) (s : string) : bool :=
  match s with
  | EmptyString => false
  | String c r => p c || any_char p r
  end.

(** [s.isalnum()]: false on the empty string *)
Definition isalnum (s : string) : bool :=
  match s with
  | EmptyString => false
  | _ => all_chars isalnum_c s
  end.

(** [s.replace(c, '')] for a one-character [c] *)
Fixpoint remove_char (c : ascii) (s : string) : string :=
  match s with
  | EmptyString => EmptyString
  | String d r =>
      if Ascii.eqb c d then remove_char c r else String d (remove_char c r)
  end.

(** [c in s] for a character [c] *)
Definition char_in (s : string) (c : ascii) : bool :=
  any_char (Ascii.eqb c) s.

(** [s.split(c)[0]]: the text before the first [c] (all of [s] when
    [c] does not occur) *)
Fixpoint before_char (c : ascii) (s : string) : string :=
  match s with
  | EmptyString => EmptyString
  | String d r => if Ascii.eqb c d then EmptyString else String d (before_char c r)
  end.

(** [s.partition(c)[2]]: the text after the first [c] (empty when [c]
    does not occur) *)
Fixpoint after_char (c : ascii) (s : string) : string :=
  match s with
  | EmptyString => EmptyString
  | String d r => if Ascii.eqb c d then r else after_char c r
  end.

(** [sub in s] for strings *)
Fixpoint contains (sub s : string) : bool :=
  String.prefix sub s ||
  match s with
  | EmptyString => false
  | String _ r => contains sub r
  end.

(** [len(s)] *)
Definition len (s : string) : Z := Z.of_nat (String.length s).

(** *** Dynamically typed values and dictionaries *)

Inductive value :=
| VNone
| VBool (b : bool)
| VInt (n : Z)
| VStr (s : string)
| VDatetime (t : Z).

Abbreviation dict := (gmap string value).

(** Truth value of an object, as tested by [if x:] and [not x]. *)
Definition truthy (v : value) : bool :=
  match v with
  | VNone => false
  | VBool b => b
  | VInt n => negb (n =? 0)
  | VStr s => negb (String.eqb s "")
  | VDatetime _ => true
  end.

Definition str_truthy (s : string) : bool := negb (String.eqb s "").

(** Truth value of an [Optional[str]] *)
Definition opt_truthy (o : option string) : bool :=
  match o with
  | Some s => str_truthy s
  | None => false
  end.

(** [d.get(k)] is [None] when the key is absent. *)
Definition get (d : dict) (k : string) : value := default VNone (d !! k).

(** [d.get(k, dflt)] *)
Definition get_or (d : dict) (k : string) (dflt : value) : value :=
  default dflt (d !! k).

Definition of_opt_str (o : option string) : value :=
  match o with
  | Some s => VStr s
  | None => VNone
  end.

Definition value_eqb (a b : value) : bool :=
  match a, b with
  | VNone, VNone => true
  | VBool x, VBool y => Bool.eqb x y
  | VInt x, VInt y => x =? y
  | VStr x, VStr y => String.eqb x y
  | VDatetime x, VDatetime y => x =? y
  | _, _ => false
  end.

(** *** Exceptions *)

(** The [detail] of an [HTTPException]: the backend passes a string, the
    legacy service the dictionary of an [ErrorResponse]. *)
Inductive detail :=
| DetailValue (v : value)
| DetailDict (d : dict).

Definition DetailStr (s : string) : detail := DetailValue (VStr s).

(** The exception classes that occur.  [IntegrityError] and
    [OperationalError] are the [SQLAlchemyError]s the store raises. *)
Inductive exn :=
| HTTPException (status_code : Z) (det : detail) (headers : list (string * string))
| ClientError (code message : string)
| IntegrityError (msg : string)
| OperationalError (msg : string)
| KeyError (key : string)
| NameError (name : string)
| ValidationError (field : string)
| OtherError (msg : string).

Definition is_SQLAlchemyError (e : exn) : bool :=
  match e with
  | IntegrityError _ | OperationalError _ => true
  | _ => false
  end.

(** [str(e)] *)
Definition str_of_exn (e : exn) : string :=
  match e with
  | HTTPException _ _ _ => ""
  | ClientError code message =>
      "An error occurred (" ++ code ++ "): " ++ message
  | IntegrityError m | OperationalError m | OtherError m => m
  | KeyError k => "'" ++ k ++ "'"
  | NameError n => "name '" ++ n ++ "' is not defined"
  | ValidationError f => "validation error for " ++ f
  end.

(** A computation returns a value or raises. *)
Inductive result (A : Type) :=
| Ok (a : A)
| Raise (e : exn).
Arguments Ok {A} a.
Arguments Raise {A} e.

#[export] Instance result_ret : MRet result := fun A a => Ok a.
#[export] Instance result_bind : MBind result := fun A B f m =>
  match m with
  | Ok a => f a
  | Raise e => Raise e
  end.

(** [try: body / except: handler] *)
Definition try_except {A} (body : result A) (handler : exn -> result A) : result A :=
  match body with
  | Ok a => Ok a
  | Raise e => handler e
  end.

(** [d[k]] on a response of the provider: [KeyError] when absent. *)
Definition item {A} (k : string) (o : option A) : result A :=
  match o with
  | Some a => Ok a
  | None => Raise (KeyError k)
  end.

(** HTTP status codes used by the handlers ([fastapi.status]). *)
Definition HTTP_200_OK := 200.
Definition HTTP_201_CREATED := 201.
Definition HTTP_202_ACCEPTED := 202.
Definition HTTP_400_BAD_REQUEST := 400.
Definition HTTP_401_UNAUTHORIZED := 401.
Definition HTTP_403_FORBIDDEN := 403.
Definition HTTP_404_NOT_FOUND := 404.
Definition HTTP_409_CONFLICT := 409.
Definition HTTP_500_INTERNAL_SERVER_ERROR := 500.

End Py.
Import Py.

(** ** The library functions behind the secret hash

    [_get_secret_hash] calls [hmac.new(key, message, hashlib.sha256)] and
    [base64.b64encode].  They are modelled as the standards define them
    (FIPS 180-4, RFC 2104, RFC 4648), on byte lists, so that the secret
    hash of a concrete request can be computed. *)

Module Crypto.

Local Open Scope list_scope.

Definition Z_of_byte (b : byte) : Z := Z.of_N (Byte.to_N b).

Definition byte_of_Z (z : Z) : byte :=
  default Byte.x00 (Byte.of_N (Z.to_N (z mod 256))).

(** [bytes(s, 'utf-8')] on ASCII text *)
Definition encode (s : string) : list byte := list_byte_of_string s.

(** *** SHA-256 on 32-bit words held in [Z] *)

Definition wrap (x : Z) : Z := x mod 2 ^ 32.
Definition add32 (x y : Z) : Z := wrap (x + y).
Definition not32 (x : Z) : Z := Z.lxor x 0xffffffff.
Definition rotr (n x : Z) : Z :=
  Z.lor (Z.shiftr x n) (wrap (Z.shiftl x (32 - n))).

Definition Ch (x y z : Z) : Z := Z.lxor (Z.land x y) (Z.land (not32 x) z).
Definition Maj (x y z : Z) : Z :=
  Z.lxor (Z.lxor (Z.land x y) (Z.land x z)) (Z.land y z).
Definition Sigma0 (x : Z) : Z := Z.lxor (Z.lxor (rotr 2 x) (rotr 13 x)) (rotr 22 x).
Definition Sigma1 (x : Z) : Z := Z.lxor (Z.lxor (rotr 6 x) (rotr 11 x)) (rotr 25 x).
Definition sigma0 (x : Z) : Z := Z.lxor (Z.lxor (rotr 7 x) (rotr 18 x)) (Z.shiftr x 3).
Definition sigma1 (x : Z) : Z := Z.lxor (Z.lxor (rotr 17 x) (rotr 19 x)) (Z.shiftr x 10).

(** The constants are derived as the standard defines them: the first 32
    bits of the fractional parts of the cube roots (round constants) and of
    the square roots (initial chaining value) of the first primes. *)
Definition primes : list Z :=
  [ 2; 3; 5; 7; 11; 13; 17; 19; 23; 29; 31; 37; 41; 43; 47; 53; 59; 61; 67; 71; 73; 79;
    83; 89; 97; 101; 103; 107; 109; 113; 127; 131; 137; 139; 149; 151; 157; 163; 167;
    173; 179; 181; 191; 193; 197; 199; 211; 223; 227; 229; 233; 239; 241; 251; 257; 263;
    269; 271; 277; 281; 283; 293; 307; 311 ].

(** The largest [r] below [2 ^ n] with [r ^ 3 <= x], found bit by bit. *)
Fixpoint cube_root (n : nat) (x r : Z) : Z :=
  match n with
  | O => r
  | S n' =>
      let c := r + 2 ^ Z.of_nat n' in
      if c * c * c <=? x then cube_root n' x c else cube_root n' x r
  end.

Definition frac_cube_root (p : Z) : Z := wrap (cube_root 36 (p * 2 ^ 96) 0).

Definition frac_square_root (p : Z) : Z := wrap (Z.sqrt (p * 2 ^ 64)).

Definition K256 : list Z := Eval vm_compute in map frac_cube_root primes.

(** The eight working variables, also the chaining value. *)
Record regs := Regs { ra : Z; rb : Z; rc : Z; rd : Z; re : Z; rf : Z; rg : Z; rh : Z }.

Definition init_words : list Z := Eval vm_compute in map frac_square_root (take 8 primes).

Definition init_regs : regs :=
  Regs (nth 0 init_words 0) (nth 1 init_words 0) (nth 2 init_words 0) (nth 3 init_words 0)
       (nth 4 init_words 0) (nth 5 init_words 0) (nth 6 init_words 0) (nth 7 init_words 0).

Definition round (k w : Z) (s : regs) : regs :=
  let t1 := add32 (add32 (add32 (add32 (rh s) (Sigma1 (re s))) (Ch (re s) (rf s) (rg s))) k) w in
  let t2 := add32 (Sigma0 (ra s)) (Maj (ra s) (rb s) (rc s)) in
  Regs (add32 t1 t2) (ra s) (rb s) (rc s) (add32 (rd s) t1) (re s) (rf s) (rg s).

(** The message schedule is kept as a window of the last sixteen words:
    the head is the word of the current round. *)
Definition next_word (win : list Z) : Z :=
  add32 (add32 (add32 (sigma1 (nth 14 win 0)) (nth 9 win 0)) (sigma0 (nth 1 win 0)))
        (nth 0 win 0).

Fixpoint rounds (ks : list Z) (win : list Z) (s : regs) : regs :=
  match ks, win with
  | k :: ks', w :: rest => rounds ks' (rest ++ [next_word win]) (round k w s)
  | _, _ => s
  end.

Fixpoint be_words (bs : list byte) : list Z :=
  match bs with
  | a :: b :: c :: d :: r =>
      (Z_of_byte a * 2 ^ 24 + Z_of_byte b * 2 ^ 16 + Z_of_byte c * 2 ^ 8 + Z_of_byte d)
        :: be_words r
  | _ => []
  end.

Definition compress (block : list byte) (h : regs) : regs :=
  let s := rounds K256 (be_words block) h in
  Regs (add32 (ra h) (ra s)) (add32 (rb h) (rb s)) (add32 (rc h) (rc s))
       (add32 (rd h) (rd s)) (add32 (re h) (re s)) (add32 (rf h) (rf s))
       (add32 (rg h) (rg s)) (add32 (rh h) (rh s)).

Fixpoint blocks (fuel : nat) (bs : list byte) (h : regs) : regs :=
  match fuel, bs with
  | S fuel', _ :: _ => blocks fuel' (drop 64 bs) (compress (take 64 bs) h)
  | _, _ => h
  end.

(** Big-endian bytes of the low [8 * n] bits of [x]. *)
Fixpoint be_bytes (n : nat) (x : Z) : list byte :=
  match n with
  | O => []
  | S n' => be_bytes n' (Z.shiftr x 8) ++ [byte_of_Z x]
  end.

Definition pad (m : list byte) : list byte :=
  let l := Z.of_nat (length m) in
  m ++ [Byte.x80] ++ repeat Byte.x00 (Z.to_nat ((55 - l) mod 64)) ++ be_bytes 8 (8 * l).

Definition digest_of (h : regs) : list byte :=
  be_bytes 4 (ra h) ++ be_bytes 4 (rb h) ++ be_bytes 4 (rc h) ++ be_bytes 4 (rd h) ++
  be_bytes 4 (re h) ++ be_bytes 4 (rf h) ++ be_bytes 4 (rg h) ++ be_bytes 4 (rh h).

(** [hashlib.sha256(m).digest()] *)
Definition sha256 (m : list byte) : list byte :=
  let p := pad m in digest_of (blocks (length p) p init_regs).

(** *** HMAC (RFC 2104) with SHA-256, block size 64 *)

Definition xor_byte (c : Z) (b : byte) : byte := byte_of_Z (Z.lxor c (Z_of_byte b)).

(** [hmac.new(key, msg, digestmod=hashlib.sha256).digest()] *)
Definition hmac_sha256 (key msg : list byte) : list byte :=
  let k0 := if (64 <? length key)%nat then sha256 key else key in
  let kp := k0 ++ repeat Byte.x00 (64 - length k0) in
  sha256 (map (xor_byte 0x5c) kp ++ sha256 (map (xor_byte 0x36) kp ++ msg)).

(** *** Base 64 (RFC 4648, standard alphabet, padded) *)

Definition alphabet : string :=
  "ABCDEFGHIJKLMNOPQRSTUVWXYZabcdefghijklmnopqrstuvwxyz0123456789+/".

Definition sextet (n : Z) : ascii :=
  default "="%char (String.get (Z.to_nat (n mod 64)) alphabet).

(** [base64.b64encode(bs).decode()] *)
Fixpoint b64encode (bs : list byte) : string :=
  match bs with
  | [] => ""
  | [a] =>
      let n := Z_of_byte a * 2 ^ 16 in
      String (sextet (Z.shiftr n 18)) (String (sextet (Z.shiftr n 12)) "==")
  | [a; b] =>
      let n := Z_of_byte a * 2 ^ 16 + Z_of_byte b * 2 ^ 8 in
      String (sextet (Z.shiftr n 18)) (String (sextet (Z.shiftr n 12))
        (String (sextet (Z.shiftr n 6)) "="))
  | a :: b :: c :: r =>
      let n := Z_of_byte a * 2 ^ 16 + Z_of_byte b * 2 ^ 8 + Z_of_byte c in
      String (sextet (Z.shiftr n 18)) (String (sextet (Z.shiftr n 12))
        (String (sextet (Z.shiftr n 6)) (String (sextet n) (b64encode r))))
  end.

(** Lower-case hexadecimal rendering, for reading digests. *)
Definition hex_digit (n : Z) : ascii :=
  default "0"%char (String.get (Z.to_nat (n mod 16)) "0123456789abcdef").

Fixpoint hexdigest (bs : list byte) : string :=
  match bs with
  | [] => ""
  | b :: r =>
      String (hex_digit (Z.shiftr (Z_of_byte b) 4)) (String (hex_digit (Z_of_byte b)) (hexdigest r))
  end.

End Crypto.


(** ** The identity provider, as the services see it

    The requests are the keyword arguments the services build for the
    boto3 client; the responses are the dictionaries it returns, a key that
    may be absent being an [option].  What the provider answers is not
    decided by this program: a [client] is any such answer function. *)

Module Provider.

Record SignUpParams := {
  ClientId : string;
  Username : string;
  Password : string;
  UserAttributes : list (string * string);
  SecretHash : option string
}.

Record SignUpResponse := {
  UserSub : option string;
  UserConfirmed : option bool;
  CodeDeliveryDetails : option string
}.

Record InitiateAuthParams := {
  ia_ClientId : string;
  AuthFlow : string;
  AuthParameters : gmap string string
}.

Record AuthenticationResultType := {
  AccessToken : option string;
  IdToken : option string;
  RefreshToken : option string;
  ExpiresIn : option Z;
  TokenType : option string
}.

Record InitiateAuthResponse := {
  ChallengeName : option string;
  Session : option string;
  AuthenticationResult : option AuthenticationResultType
}.

Record GetUserResponse := {
  gu_Username : option string;
  gu_UserAttributes : option (list (string * string))
}.

Record client := {
  sign_up : SignUpParams -> result SignUpResponse;
  initiate_auth : InitiateAuthParams -> result InitiateAuthResponse;
  get_user : string -> result GetUserResponse
}.

(** The claims of a Google id token, as [verify_oauth2_token] returns them. *)
Record IdInfo := {
  g_email : option string;
  g_given_name : option string;
  g_family_name : option string;
  g_sub : option string
}.

(** The configuration a [CognitoService] is constructed from. *)
Record Config := {
  client_id : string;
  client_secret : option string
}.

End Provider.
Import Provider.

(** ** First generation: [src/] *)

Module Legacy.

(** *** [src/models/auth_models.py] *)

Module AuthModels.

Record UserRegistrationRequest := {
  reg_email : string;
  reg_password : string;
  reg_username : string;
  reg_first_name : option string;
  reg_last_name : option string
}.

Record UserLoginRequest := { login_email : string; login_password : string }.

Record TokenRefreshRequest := { req_refresh_token : string }.

Record AuthTokenResponse := {
  access_token : string;
  id_token : string;
  refresh_token : string;
  expires_in : Z;
  token_type : string
}.

Record UserRegistrationResponse := {
  user_id : string;
  resp_email : string;
  resp_username : string;
  created_at : Z;
  message : string
}.

Definition special_characters : string := "!@#$%^&*()_+-=[]{}|;:,.<>?".

(** [UserRegistrationRequest.validate_password] *)
Definition validate_password (v : string) : result string :=
  if negb (any_char isupper_c v) then Raise (ValidationError "password")
  else if negb (any_char islower_c v) then Raise (ValidationError "password")
  else if negb (any_char isdigit_c v) then Raise (ValidationError "password")
  else if negb (any_char (char_in special_characters) v) then Raise (ValidationError "password")
  else Ok v.

(** [UserRegistrationRequest.validate_username] *)
Definition validate_username (v : string) : result string :=
  if negb (isalnum (remove_char "-" (remove_char "_" v)))
  then Raise (ValidationError "username")
  else Ok (lower v).

Definition check_length (field : string) (lo hi : Z) (v : string) : result string :=
  if (lo <=? len v) && (len v <=? hi) then Ok v else Raise (ValidationError field).

Definition check_max_length (field : string) (hi : Z) (v : option string)
  : result (option string) :=
  match v with
  | Some s => if len s <=? hi then Ok v else Raise (ValidationError field)
  | None => Ok v
  end.

(** The field [password] of a registration body: its [Field] bounds,
    then its validator. *)
Definition password_field (v : string) : result string :=
  p ← check_length "password" 8 128 v;
  validate_password p.

(** The field [username] of a registration body: its [Field] bounds,
    then its validator. *)
Definition username_field (v : string) : result string :=
  u ← check_length "username" 3 50 v;
  validate_username u.

(** Construction of a [UserRegistrationRequest] from the fields of the
    body: the [Field] bounds, then the validators.  (The syntax check of
    [EmailStr] belongs to the [email-validator] package and is not
    modelled.) *)
Definition parse_registration
    (email password username : string) (first_name last_name : option string)
  : result UserRegistrationRequest :=
  p ← check_length "password" 8 128 password;
  p ← validate_password p;
  u ← check_length "username" 3 50 username;
  u ← validate_username u;
  f ← check_max_length "first_name" 100 first_name;
  l ← check_max_length "last_name" 100 last_name;
  mret {| reg_email := email; reg_password := p; reg_username := u;
          reg_first_name := f; reg_last_name := l |}.

(** [ErrorResponse(error=.., message=.., status_code=..).dict()]: both
    texts must be strings. *)
Definition ErrorResponse (now : Z) (error message : value) (status_code : Z) : result dict :=
  match error, message with
  | VStr e, VStr m =>
      Ok ({[ "error" := VStr e; "message" := VStr m;
             "status_code" := VInt status_code; "timestamp" := VDatetime now ]} : dict)
  | VStr _, _ => Raise (ValidationError "message")
  | _, _ => Raise (ValidationError "error")
  end.

End AuthModels.

(** *** [src/services/cognito_service.py] *)

Module CognitoService.

Section CognitoService.

Variable self : Config.
Variable client : Provider.client.

Definition _get_secret_hash (username : string) : option string :=
  match client_secret self with
  | Some secret =>
      if negb (str_truthy secret) then None
      else
        let message := Crypto.encode (username ++ client_id self) in
        let key := Crypto.encode secret in
        Some (Crypto.b64encode (Crypto.hmac_sha256 key message))
  | None => None
  end.

(** The keyword arguments [register_user] passes to [sign_up]. *)
Definition sign_up_params
    (email password username : string) (first_name last_name : option string)
  : SignUpParams :=
  let user_attributes := [("email", email); ("preferred_username", username)] in
  let user_attributes :=
    match first_name with
    | Some f => if str_truthy f then (user_attributes ++ [("given_name", f)])%list
                else user_attributes
    | None => user_attributes
    end in
  let user_attributes :=
    match last_name with
    | Some l => if str_truthy l then (user_attributes ++ [("family_name", l)])%list
                else user_attributes
    | None => user_attributes
    end in
  let secret_hash := _get_secret_hash email in
  {| ClientId := client_id self;
     Username := email;
     Password := password;
     UserAttributes := user_attributes;
     SecretHash := if opt_truthy secret_hash then secret_hash else None |}.

Definition error_dict (error message : string) : dict :=
  {[ "error" := VStr error; "message" := VStr message ]}.

Definition register_user
    (email password username : string) (first_name last_name : option string)
  : bool * dict :=
  match
    response ← sign_up client (sign_up_params email password username first_name last_name);
    user_sub ← item "UserSub" (UserSub response);
    mret ({[ "user_sub" := VStr user_sub;
             "user_confirmed" := VBool (default false (UserConfirmed response));
             "code_delivery_details" := of_opt_str (CodeDeliveryDetails response) ]} : dict)
  with
  | Ok d => (true, d)
  | Raise (ClientError error_code error_message) =>
      if String.eqb error_code "UsernameExistsException" then
        (false, error_dict "USER_EXISTS" "User with this email already exists")
      else if String.eqb error_code "InvalidPasswordException" then
        (false, error_dict "INVALID_PASSWORD" error_message)
      else if String.eqb error_code "InvalidParameterException" then
        (false, error_dict "INVALID_PARAMETER" error_message)
      else
        (false, error_dict "REGISTRATION_FAILED" "Failed to register user")
  | Raise _ =>
      (false, error_dict "INTERNAL_ERROR" "An unexpected error occurred")
  end.

(** The keyword arguments [authenticate_user] passes to [initiate_auth]. *)
Definition authenticate_params (email password : string) : InitiateAuthParams :=
  let auth_parameters : gmap string string :=
    {[ "USERNAME" := email; "PASSWORD" := password ]} in
  let secret_hash := _get_secret_hash email in
  {| ia_ClientId := client_id self;
     AuthFlow := "USER_PASSWORD_AUTH";
     AuthParameters :=
       match secret_hash with
       | Some h => if str_truthy h then <["SECRET_HASH" := h]> auth_parameters
                   else auth_parameters
       | None => auth_parameters
       end |}.

(** The token fields read from [response['AuthenticationResult']]. *)
Definition token_dict (auth_result : AuthenticationResultType) : result dict :=
  access ← item "AccessToken" (AccessToken auth_result);
  idt ← item "IdToken" (IdToken auth_result);
  refresh ← item "RefreshToken" (RefreshToken auth_result);
  expires ← item "ExpiresIn" (ExpiresIn auth_result);
  ttype ← item "TokenType" (TokenType auth_result);
  mret ({[ "access_token" := VStr access; "id_token" := VStr idt;
           "refresh_token" := VStr refresh; "expires_in" := VInt expires;
           "token_type" := VStr ttype ]} : dict).

Definition authenticate_user (email password : string) : bool * dict :=
  match
    response ← initiate_auth client (authenticate_params email password);
    if opt_truthy (ChallengeName response) then
      challenge ← item "ChallengeName" (ChallengeName response);
      mret (false,
            ({[ "error" := VStr "AUTH_CHALLENGE";
                "challenge" := VStr challenge;
                "session" := of_opt_str (Session response);
                "message" := VStr "Authentication challenge required" ]} : dict))
    else
      auth_result ← item "AuthenticationResult" (AuthenticationResult response);
      d ← token_dict auth_result;
      mret (true, d)
  with
  | Ok r => r
  | Raise (ClientError error_code error_message) =>
      if String.eqb error_code "NotAuthorizedException" then
        (false, error_dict "INVALID_CREDENTIALS" "Invalid email or password")
      else if String.eqb error_code "UserNotFoundException" then
        (false, error_dict "USER_NOT_FOUND" "User not found")
      else if String.eqb error_code "UserNotConfirmedException" then
        (false, error_dict "USER_NOT_CONFIRMED" "User account not confirmed")
      else if String.eqb error_code "PasswordResetRequiredException" then
        (false, error_dict "PASSWORD_RESET_REQUIRED" "Password reset required")
      else
        (false, error_dict "AUTH_FAILED" "Authentication failed")
  | Raise _ =>
      (false, error_dict "INTERNAL_ERROR" "An unexpected error occurred")
  end.

(** The keyword arguments [refresh_tokens] passes to [initiate_auth].  The
    hash is asked for under the guard [if self.client_secret], where
    [_get_secret_hash] always returns one; it is given the refresh token. *)
Definition refresh_params (refresh_token : string) : InitiateAuthParams :=
  let auth_parameters : gmap string string :=
    {[ "REFRESH_TOKEN" := refresh_token ]} in
  {| ia_ClientId := client_id self;
     AuthFlow := "REFRESH_TOKEN_AUTH";
     AuthParameters :=
       if opt_truthy (client_secret self) then
         match _get_secret_hash refresh_token with
         | Some h => <["SECRET_HASH" := h]> auth_parameters
         | None => auth_parameters
         end
       else auth_parameters |}.

Definition refresh_tokens (refresh_token : string) : bool * dict :=
  match
    response ← initiate_auth client (refresh_params refresh_token);
    auth_result ← item "AuthenticationResult" (AuthenticationResult response);
    access ← item "AccessToken" (AccessToken auth_result);
    idt ← item "IdToken" (IdToken auth_result);
    expires ← item "ExpiresIn" (ExpiresIn auth_result);
    ttype ← item "TokenType" (TokenType auth_result);
    mret ({[ "access_token" := VStr access; "id_token" := VStr idt;
             "expires_in" := VInt expires; "token_type" := VStr ttype ]} : dict)
  with
  | Ok d => (true, d)
  | Raise (ClientError error_code error_message) =>
      if String.eqb error_code "NotAuthorizedException" then
        (false, error_dict "INVALID_REFRESH_TOKEN" "Invalid or expired refresh token")
      else
        (false, error_dict "REFRESH_FAILED" "Failed to refresh tokens")
  | Raise _ =>
      (false, error_dict "INTERNAL_ERROR" "An unexpected error occurred")
  end.

End CognitoService.


Section UserInfo.

Variable client : Provider.client.
(** [response.get('UserCreateDate')] and [response.get('UserLastModifiedDate')]:
    two keys of the answer of [get_user] that only this function reads. *)
Variable dates : GetUserResponse -> option Z * option Z.


End UserInfo.

End CognitoService.

(** *** [src/database/user_repository.py] *)

Module UserRepository.

Import CognitoService.

Record User := {
  id : string;
  cognito_id : string;
  email : string;
  username : string;
  first_name : option string;
  last_name : option string;
  u_created_at : Z;
  u_updated_at : Z;
  last_login : option Z;
  metadata : option string
}.

(** The [users] table. *)
Definition Db := list User.

(** The statement SQLAlchemy appends to the text of a database error
    ([str(e)] ends with the SQL and its parameters): the columns of the
    table are named in it. *)
Definition insert_statement : string :=
  " [SQL: INSERT INTO users (id, cognito_id, email, username, first_name, last_name, "
  ++ "created_at, updated_at, last_login, metadata) VALUES (?, ?, ?, ?, ?, ?, ?, ?, ?, ?)]".

(** [session.commit()] of one added row.  [fault] is the failure of the
    database during this call, if any; otherwise the primary key and the
    three [unique=True] columns are checked, and the text of the
    [IntegrityError] names the column, as SQLite words it, and then the
    statement. *)
Definition commit_insert (fault : option string) (db : Db) (user : User) : result Db :=
  match fault with
  | Some msg => Raise (OperationalError msg)
  | None =>
      if existsb (fun u => String.eqb (email u) (email user)) db then
        Raise (IntegrityError ("UNIQUE constraint failed: users.email" ++ insert_statement))
      else if existsb (fun u => String.eqb (username u) (username user)) db then
        Raise (IntegrityError ("UNIQUE constraint failed: users.username" ++ insert_statement))
      else if existsb (fun u => String.eqb (cognito_id u) (cognito_id user)) db then
        Raise (IntegrityError ("UNIQUE constraint failed: users.cognito_id" ++ insert_statement))
      else if existsb (fun u => String.eqb (id u) (id user)) db then
        Raise (IntegrityError ("UNIQUE constraint failed: users.id" ++ insert_statement))
      else Ok (db ++ [user])%list
  end.

(** [str(metadata)] for the one dictionary [register] passes. *)
Definition str_of_metadata (confirmed : bool) : string :=
  "{'confirmed': " ++ (if confirmed then "True" else "False") ++ "}".

(** [UserRepository.create_user].  [new_id] is the [uuid4] drawn and [now]
    the clock; the result is the returned dictionary and the table after
    the call. *)
Definition create_user
    (fault : option string) (new_id : string) (now : Z) (db : Db)
    (cognito_id_ email_ username_ : string) (first_name_ last_name_ : option string)
    (metadata_ : option bool)
  : dict * Db :=
  let user :=
    {| id := new_id;
       cognito_id := cognito_id_;
       email := lower email_;
       username := lower username_;
       first_name := first_name_;
       last_name := last_name_;
       u_created_at := now;
       u_updated_at := now;
       last_login := None;
       metadata := str_of_metadata <$> metadata_ |} in
  match commit_insert fault db user with
  | Ok db' =>
      (({[ "id" := VStr (id user);
           "cognito_id" := VStr (cognito_id user);
           "email" := VStr (email user);
           "username" := VStr (username user);
           "first_name" := of_opt_str (first_name user);
           "last_name" := of_opt_str (last_name user);
           "created_at" := VDatetime (u_created_at user);
           "updated_at" := VDatetime (u_updated_at user) ]} : dict), db')
  | Raise (IntegrityError e) =>
      if contains "email" e then
        (error_dict "EMAIL_EXISTS" "Email already exists", db)
      else if contains "username" e then
        (error_dict "USERNAME_EXISTS" "Username already exists", db)
      else if contains "cognito_id" e then
        (error_dict "COGNITO_ID_EXISTS" "Cognito ID already exists", db)
      else
        (error_dict "DUPLICATE_USER" "User already exists", db)
  | Raise (OperationalError _) =>
      (error_dict "DATABASE_ERROR" "Failed to create user in database", db)
  | Raise _ =>
      (error_dict "INTERNAL_ERROR" "An unexpected error occurred", db)
  end.

(** [session.query(User).filter(User.email == e).first()] *)
Definition first_by_email (e : string) (db : Db) : option User :=
  List.find (fun u => String.eqb (email u) e) db.

(** [UserRepository.get_user_by_email]: the row, when there is one and
    the database answers. *)
Definition get_user_by_email (fault : option string) (db : Db) (email_ : string)
  : option User :=
  match fault with
  | Some _ => None
  | None => first_by_email (lower email_) db
  end.

Definition set_last_login (now : Z) (u : User) : User :=
  {| id := id u; cognito_id := cognito_id u; email := email u;
     username := username u; first_name := first_name u;
     last_name := last_name u; u_created_at := u_created_at u;
     u_updated_at := now; last_login := Some now; metadata := metadata u |}.

(** [UserRepository.update_last_login] *)
Definition update_last_login (fault : option string) (now : Z) (db : Db) (email_ : string)
  : bool * Db :=
  match fault with
  | Some _ => (false, db)
  | None =>
      match first_by_email (lower email_) db with
      | None => (false, db)
      | Some user =>
          (true,
           map (fun u => if String.eqb (id u) (id user) then set_last_login now u else u) db)
      end
  end.

(** The dictionary the two lookups build from a row. *)
Definition user_dict (user : User) : dict :=
  {[ "id" := VStr (id user);
     "cognito_id" := VStr (cognito_id user);
     "email" := VStr (email user);
     "username" := VStr (username user);
     "first_name" := of_opt_str (first_name user);
     "last_name" := of_opt_str (last_name user);
     "created_at" := VDatetime (u_created_at user);
     "updated_at" := VDatetime (u_updated_at user);
     "last_login" := match last_login user with
                     | Some t => VDatetime t
                     | None => VNone
                     end ]}.

(** [UserRepository.get_user_by_cognito_id] *)
Definition get_user_by_cognito_id (fault : option string) (db : Db) (cognito_id_ : string)
  : option dict :=
  match fault with
  | Some _ => None
  | None => user_dict <$> List.find (fun u => String.eqb (cognito_id u) cognito_id_) db
  end.

(** [UserRepository.delete_user]: [session.delete(user)] removes the row
    with the primary key of the row found. *)
Definition delete_user (fault : option string) (db : Db) (email_ : string) : bool * Db :=
  match fault with
  | Some _ => (false, db)
  | None =>
      match first_by_email (lower email_) db with
      | None => (false, db)
      | Some user => (true, List.filter (fun u => negb (String.eqb (id u) (id user))) db)
      end
  end.

End UserRepository.

(** *** [src/api/auth.py] *)

Module AuthApi.

Import AuthModels CognitoService UserRepository.

(** What a handler hands back to the framework: the response model (sent
    with the status code of the route) or an explicit [JSONResponse]. *)
Inductive returned (A : Type) :=
| Model (a : A)
| JSONResponse (status_code : Z) (content : dict).
Arguments Model {A} a.
Arguments JSONResponse {A} status_code content.

(** [error_mapping.get(result.get('error'), dflt)] *)
Fixpoint mapping_get (m : list (string * Z)) (k : value) (dflt : Z) : Z :=
  match m with
  | [] => dflt
  | (k', v) :: r => if value_eqb k (VStr k') then v else mapping_get r k dflt
  end.

Definition internal_error (now : Z) (message : string) : exn :=
  HTTPException HTTP_500_INTERNAL_SERVER_ERROR
    (DetailDict {[ "error" := VStr "INTERNAL_ERROR"; "message" := VStr message;
                   "status_code" := VInt HTTP_500_INTERNAL_SERVER_ERROR;
                   "timestamp" := VDatetime now ]}) [].

(** [try: ... except HTTPException: raise / except Exception: raise 500] *)
Definition guard {A} (now : Z) (message : string) (body : result A) : result A :=
  try_except body (fun e =>
    match e with
    | HTTPException _ _ _ => Raise e
    | _ => Raise (internal_error now message)
    end).

(** [raise HTTPException(status_code, detail=ErrorResponse(..).dict())] *)
Definition raise_error {A} (now : Z) (result : dict) (status_code : Z) (dflt : string)
  : Py.result A :=
  d ← ErrorResponse now (get_or result "error" (VStr "UNKNOWN_ERROR"))
                        (get_or result "message" (VStr dflt)) status_code;
  Raise (HTTPException status_code (DetailDict d) []).

(** Keyword construction of a response model: the field must hold a value
    of the declared type. *)
Definition str_field (field : string) (v : option value) : result string :=
  match v with
  | Some (VStr s) => Ok s
  | Some _ => Raise (ValidationError field)
  | None => Raise (KeyError field)
  end.

Definition int_field (field : string) (v : option value) : result Z :=
  match v with
  | Some (VInt n) => Ok n
  | Some _ => Raise (ValidationError field)
  | None => Raise (KeyError field)
  end.

Section Api.

Variable cognito_service : Config.
Variable client : Provider.client.

(** [register].  [fault], [new_id] and [now] are the inputs of the one
    repository call. *)
Definition register
    (fault : option string) (new_id : string) (now : Z) (db : Db)
    (request : UserRegistrationRequest)
  : result UserRegistrationResponse * Db :=
  let '(success, result) :=
    register_user cognito_service client (reg_email request) (reg_password request)
      (reg_username request) (reg_first_name request) (reg_last_name request) in
  if negb success then
    let error_mapping :=
      [ ("USER_EXISTS", HTTP_409_CONFLICT);
        ("INVALID_PASSWORD", HTTP_400_BAD_REQUEST);
        ("INVALID_PARAMETER", HTTP_400_BAD_REQUEST);
        ("REGISTRATION_FAILED", HTTP_500_INTERNAL_SERVER_ERROR);
        ("INTERNAL_ERROR", HTTP_500_INTERNAL_SERVER_ERROR) ] in
    let status_code := mapping_get error_mapping (get result "error") HTTP_400_BAD_REQUEST in
    (guard now "An unexpected error occurred during registration"
       (raise_error now result status_code "Registration failed"), db)
  else
    let cognito_user_id := get result "user_sub" in
    let confirmed :=
      match get_or result "user_confirmed" (VBool false) with
      | VBool b => b
      | _ => false
      end in
    match cognito_user_id with
    | VStr sub =>
        (* the returned dictionary is only inspected for logging *)
        let '(db_result, db') :=
          create_user fault new_id now db sub (reg_email request) (reg_username request)
            (reg_first_name request) (reg_last_name request) (Some confirmed) in
        (Ok {| user_id := sub; resp_email := reg_email request;
               resp_username := reg_username request; created_at := now;
               message := "User registered successfully" |}, db')
    | _ =>
        (* [cognito_id=None]: the row cannot be built nor the response *)
        (Raise (internal_error now "An unexpected error occurred during registration"), db)
    end.

(** [login] *)
Definition login
    (fault : option string) (now : Z) (db : Db) (request : UserLoginRequest)
  : result (returned AuthTokenResponse) * Db :=
  let '(success, result) :=
    authenticate_user cognito_service client (login_email request) (login_password request) in
  if negb success then
    let error_mapping :=
      [ ("INVALID_CREDENTIALS", HTTP_401_UNAUTHORIZED);
        ("USER_NOT_FOUND", HTTP_404_NOT_FOUND);
        ("USER_NOT_CONFIRMED", HTTP_403_FORBIDDEN);
        ("PASSWORD_RESET_REQUIRED", HTTP_403_FORBIDDEN);
        ("AUTH_CHALLENGE", HTTP_202_ACCEPTED);
        ("AUTH_FAILED", HTTP_401_UNAUTHORIZED);
        ("INTERNAL_ERROR", HTTP_500_INTERNAL_SERVER_ERROR) ] in
    let status_code := mapping_get error_mapping (get result "error") HTTP_401_UNAUTHORIZED in
    if value_eqb (get result "error") (VStr "AUTH_CHALLENGE") then
      (Ok (JSONResponse HTTP_202_ACCEPTED
             {[ "challenge" := get result "challenge";
                "session" := get result "session";
                "message" := get result "message" ]}), db)
    else
      (guard now "An unexpected error occurred during login"
         (raise_error now result status_code "Authentication failed"), db)
  else
    let '(_, db') := update_last_login fault now db (login_email request) in
    (guard now "An unexpected error occurred during login"
       (access ← str_field "access_token" (result !! "access_token");
        idt ← str_field "id_token" (result !! "id_token");
        refresh ← str_field "refresh_token" (result !! "refresh_token");
        expires ← int_field "expires_in" (result !! "expires_in");
        ttype ← str_field "token_type" (Some (get_or result "token_type" (VStr "Bearer")));
        mret (Model {| access_token := access; id_token := idt; refresh_token := refresh;
                       expires_in := expires; token_type := ttype |})), db').

(** [refresh_token] *)
Definition refresh_token (now : Z) (request : TokenRefreshRequest)
  : result AuthTokenResponse :=
  let '(success, result) :=
    refresh_tokens cognito_service client (req_refresh_token request) in
  if negb success then
    let error_mapping :=
      [ ("INVALID_REFRESH_TOKEN", HTTP_401_UNAUTHORIZED);
        ("REFRESH_FAILED", HTTP_400_BAD_REQUEST);
        ("INTERNAL_ERROR", HTTP_500_INTERNAL_SERVER_ERROR) ] in
    let status_code := mapping_get error_mapping (get result "error") HTTP_400_BAD_REQUEST in
    guard now "An unexpected error occurred during token refresh"
      (raise_error now result status_code "Token refresh failed")
  else
    guard now "An unexpected error occurred during token refresh"
      (access ← str_field "access_token" (result !! "access_token");
       idt ← str_field "id_token" (result !! "id_token");
       expires ← int_field "expires_in" (result !! "expires_in");
       ttype ← str_field "token_type" (Some (get_or result "token_type" (VStr "Bearer")));
       mret {| access_token := access; id_token := idt;
               refresh_token := req_refresh_token request;
               expires_in := expires; token_type := ttype |}).

(** The status code the client receives: that of the route for a
    returned model, the explicit one of a [JSONResponse], that of a
    raised [HTTPException]. *)
Definition status_of {A} (route_status : Z) (r : result (returned A)) : Z :=
  match r with
  | Ok (Model _) => route_status
  | Ok (JSONResponse s _) => s
  | Raise (HTTPException s _ _) => s
  | Raise _ => HTTP_500_INTERNAL_SERVER_ERROR
  end.

End Api.

End AuthApi.

End Legacy.

(** ** Second generation: [backend/app/] *)

Module Backend.

(** *** [backend/app/schemas/auth.py] *)

Module AuthSchemas.

Record UserRegistrationRequest := {
  reg_email : string;
  reg_password : string;
  reg_username : string;
  reg_first_name : option string;
  reg_last_name : option string
}.

Record GoogleAuthRequest := { google_id_token : string }.

Record UserLoginRequest := { login_email : string; login_password : string }.

Record TokenRefreshRequest := { req_refresh_token : string }.

Record AuthTokenResponse := {
  access_token : string;
  id_token : string;
  refresh_token : string;
  expires_in : Z;
  token_type : string
}.

Record UserRegistrationResponse := {
  user_id : string;
  resp_email : string;
  resp_username : string;
  created_at : Z;
  message : string
}.

Definition special_characters : string := "!@#$%^&*()_+-=[]{}|;:,.<>?".

(** [UserRegistrationRequest.validate_password] *)
Definition validate_password (v : string) : result string :=
  if negb (any_char isupper_c v) then Raise (ValidationError "password")
  else if negb (any_char islower_c v) then Raise (ValidationError "password")
  else if negb (any_char isdigit_c v) then Raise (ValidationError "password")
  else if negb (any_char (char_in special_characters) v) then Raise (ValidationError "password")
  else Ok v.

(** [UserRegistrationRequest.validate_username] *)
Definition validate_username (v : string) : result string :=
  if negb (isalnum (remove_char "-" (remove_char "_" v)))
  then Raise (ValidationError "username")
  else Ok (lower v).

(** The field [password] of a registration body: its [Field] bounds,
    then its validator. *)
Definition password_field (v : string) : result string :=
  p ← Legacy.AuthModels.check_length "password" 8 128 v;
  validate_password p.

(** The field [username] of a registration body: its [Field] bounds,
    then its validator. *)
Definition username_field (v : string) : result string :=
  u ← Legacy.AuthModels.check_length "username" 3 50 v;
  validate_username u.

(** Construction of a [UserRegistrationRequest] from the fields of the
    body: the [Field] bounds, then the validators.  (The check and the
    normalisation [EmailStr] applies belong to the [email-validator]
    package and are not modelled: the email is taken as it arrives.) *)
Definition parse_registration
    (email password username : string) (first_name last_name : option string)
  : result UserRegistrationRequest :=
  p ← Legacy.AuthModels.check_length "password" 8 128 password;
  p ← validate_password p;
  u ← Legacy.AuthModels.check_length "username" 3 50 username;
  u ← validate_username u;
  f ← Legacy.AuthModels.check_max_length "first_name" 100 first_name;
  l ← Legacy.AuthModels.check_max_length "last_name" 100 last_name;
  mret {| reg_email := email; reg_password := p; reg_username := u;
          reg_first_name := f; reg_last_name := l |}.

(** [AuthTokenResponse] built from the keys of a dictionary [d] (the
    double-star call): the four required fields must be present
    with the declared type, [token_type] defaults to ["Bearer"], other
    keys are ignored. *)
Definition AuthTokenResponse_of_dict (d : dict) : result AuthTokenResponse :=
  match d !! "access_token", d !! "id_token", d !! "refresh_token", d !! "expires_in",
        get_or d "token_type" (VStr "Bearer") with
  | Some (VStr a), Some (VStr i), Some (VStr r), Some (VInt e), VStr t =>
      Ok {| access_token := a; id_token := i; refresh_token := r;
            expires_in := e; token_type := t |}
  | _, _, _, _, _ => Raise (ValidationError "AuthTokenResponse")
  end.

End AuthSchemas.

(** *** [backend/app/services/cognito_service.py] *)

Module CognitoService.

Section CognitoService.

Variable self : Config.
Variable client : Provider.client.
(** [id_token.verify_oauth2_token(token, requests.Request(), GOOGLE_CLIENT_ID)] *)
Variable verify_oauth2_token : string -> result IdInfo.

Definition _get_secret_hash (username : string) : option string :=
  match client_secret self with
  | Some secret =>
      if negb (str_truthy secret) then None
      else
        let message := Crypto.encode (username ++ client_id self) in
        let key := Crypto.encode secret in
        Some (Crypto.b64encode (Crypto.hmac_sha256 key message))
  | None => None
  end.

(** The keyword arguments [register_user] passes to [sign_up]. *)
Definition sign_up_params
    (email password username : string) (first_name last_name : option string)
  : SignUpParams :=
  let user_attributes := [("email", email); ("preferred_username", username)] in
  let user_attributes :=
    match first_name with
    | Some f => if str_truthy f then (user_attributes ++ [("given_name", f)])%list
                else user_attributes
    | None => user_attributes
    end in
  let user_attributes :=
    match last_name with
    | Some l => if str_truthy l then (user_attributes ++ [("family_name", l)])%list
                else user_attributes
    | None => user_attributes
    end in
  let secret_hash := _get_secret_hash email in
  {| ClientId := client_id self;
     Username := email;
     Password := password;
     UserAttributes := user_attributes;
     SecretHash := if opt_truthy secret_hash then secret_hash else None |}.

(** [{'error': error_code, 'message': error_message}] *)
Definition error_dict (error message : string) : dict :=
  {[ "error" := VStr error; "message" := VStr message ]}.

(** The two [except] clauses every operation ends with. *)
Definition on_exception (e : exn) : bool * dict :=
  match e with
  | ClientError error_code error_message => (false, error_dict error_code error_message)
  | _ => (false, error_dict "INTERNAL_ERROR" (str_of_exn e))
  end.

Definition register_user
    (email password username : string) (first_name last_name : option string)
  : bool * dict :=
  match
    response ← sign_up client (sign_up_params email password username first_name last_name);
    user_sub ← item "UserSub" (UserSub response);
    mret ({[ "user_sub" := VStr user_sub;
             "user_confirmed" := VBool (default false (UserConfirmed response)) ]} : dict)
  with
  | Ok d => (true, d)
  | Raise e => on_exception e
  end.

(** The keyword arguments [authenticate_user] passes to [initiate_auth]. *)
Definition authenticate_params (email password : string) : InitiateAuthParams :=
  let auth_parameters : gmap string string :=
    {[ "USERNAME" := email; "PASSWORD" := password ]} in
  let secret_hash := _get_secret_hash email in
  {| ia_ClientId := client_id self;
     AuthFlow := "USER_PASSWORD_AUTH";
     AuthParameters :=
       match secret_hash with
       | Some h => if str_truthy h then <["SECRET_HASH" := h]> auth_parameters
                   else auth_parameters
       | None => auth_parameters
       end |}.

(** The token fields read from [response['AuthenticationResult']]. *)
Definition token_dict (auth_result : AuthenticationResultType) : result dict :=
  access ← item "AccessToken" (AccessToken auth_result);
  idt ← item "IdToken" (IdToken auth_result);
  refresh ← item "RefreshToken" (RefreshToken auth_result);
  expires ← item "ExpiresIn" (ExpiresIn auth_result);
  ttype ← item "TokenType" (TokenType auth_result);
  mret ({[ "access_token" := VStr access; "id_token" := VStr idt;
           "refresh_token" := VStr refresh; "expires_in" := VInt expires;
           "token_type" := VStr ttype ]} : dict).

Definition authenticate_user (email password : string) : bool * dict :=
  match
    response ← initiate_auth client (authenticate_params email password);
    if opt_truthy (ChallengeName response) then
      challenge ← item "ChallengeName" (ChallengeName response);
      mret (false,
            ({[ "error" := VStr "AUTH_CHALLENGE";
                "challenge" := VStr challenge;
                "session" := of_opt_str (Session response) ]} : dict))
    else
      auth_result ← item "AuthenticationResult" (AuthenticationResult response);
      d ← token_dict auth_result;
      mret (true, d)
  with
  | Ok r => r
  | Raise e => on_exception e
  end.

(** What a successful [authenticate_with_google] returns. *)
Record GoogleResult := {
  gr_email : string;
  gr_given_name : string;
  gr_family_name : string;
  gr_user_sub : string;
  gr_tokens : dict
}.

Definition google_params (email google_id_token : string) : InitiateAuthParams :=
  {| ia_ClientId := client_id self;
     AuthFlow := "CUSTOM_AUTH";
     AuthParameters :=
       {[ "USERNAME" := email; "CHALLENGE_NAME" := "GOOGLE_AUTH";
          "GOOGLE_TOKEN" := google_id_token ]} |}.

Definition authenticate_with_google (google_id_token : string) : GoogleResult + dict :=
  match
    idinfo ← verify_oauth2_token google_id_token;
    email ← item "email" (g_email idinfo);
    let given_name := default "" (g_given_name idinfo) in
    let family_name := default "" (g_family_name idinfo) in
    response ← initiate_auth client (google_params email google_id_token);
    auth_result ← item "AuthenticationResult" (AuthenticationResult response);
    sub ← item "sub" (g_sub idinfo);
    tokens ← token_dict auth_result;
    mret {| gr_email := email; gr_given_name := given_name;
            gr_family_name := family_name; gr_user_sub := sub; gr_tokens := tokens |}
  with
  | Ok r => inl r
  | Raise e => inr (error_dict "GOOGLE_AUTH_FAILED" (str_of_exn e))
  end.

(** The keyword arguments [refresh_tokens] passes to [initiate_auth].  The
    hash is asked for under the guard [if self.client_secret], where
    [_get_secret_hash] always returns one; it is given the refresh token. *)
Definition refresh_params (refresh_token : string) : InitiateAuthParams :=
  let auth_parameters : gmap string string :=
    {[ "REFRESH_TOKEN" := refresh_token ]} in
  {| ia_ClientId := client_id self;
     AuthFlow := "REFRESH_TOKEN_AUTH";
     AuthParameters :=
       if opt_truthy (client_secret self) then
         match _get_secret_hash refresh_token with
         | Some h => <["SECRET_HASH" := h]> auth_parameters
         | None => auth_parameters
         end
       else auth_parameters |}.

Definition refresh_tokens (refresh_token : string) : bool * dict :=
  match
    response ← initiate_auth client (refresh_params refresh_token);
    auth_result ← item "AuthenticationResult" (AuthenticationResult response);
    access ← item "AccessToken" (AccessToken auth_result);
    idt ← item "IdToken" (IdToken auth_result);
    expires ← item "ExpiresIn" (ExpiresIn auth_result);
    ttype ← item "TokenType" (TokenType auth_result);
    mret ({[ "access_token" := VStr access; "id_token" := VStr idt;
             "refresh_token" := VStr refresh_token;
             "expires_in" := VInt expires; "token_type" := VStr ttype ]} : dict)
  with
  | Ok d => (true, d)
  | Raise e => on_exception e
  end.

End CognitoService.

End CognitoService.

(** *** [backend/app/models/user.py] *)

Module Models.

Inductive FitnessLevel := BEGINNER | INTERMEDIATE | ADVANCED.

Record User := {
  id : string;
  cognito_id : string;
  email : string;
  username : string;
  first_name : option string;
  last_name : option string;
  created_at : Z;
  updated_at : Z;
  last_login : option Z;
  is_active : bool
}.

(** The two [float] columns are only stored and read back; they are
    held as rationals.  The two timestamp columns of a profile are
    maintained by the ORM and read by no handler; they are left out. *)
Record UserProfile := {
  p_id : string;
  user_id : string;
  fitness_level : option FitnessLevel;
  goals : option (list string);
  equipment : option (list string);
  has_completed_onboarding : bool;
  age : option Z;
  height_cm : option Q;
  weight_kg : option Q;
  preferred_workout_time : option string;
  injury_notes : option string
}.

(** [User(cognito_id=.., email=.., username=.., first_name=.., last_name=..)]
    with the column defaults; [new_id] is the [uuid4] drawn. *)
Definition new_User (new_id : string) (now : Z)
    (cognito_id_ email_ username_ : string) (first_name_ last_name_ : option string)
  : User :=
  {| id := new_id; cognito_id := cognito_id_; email := email_; username := username_;
     first_name := first_name_; last_name := last_name_;
     created_at := now; updated_at := now; last_login := None; is_active := true |}.

(** [UserProfile(user_id=..)] with the column defaults. *)
Definition new_UserProfile (new_id : string) (user_id_ : string) : UserProfile :=
  {| p_id := new_id; user_id := user_id_; fitness_level := None; goals := None;
     equipment := None; has_completed_onboarding := false; age := None;
     height_cm := None; weight_kg := None; preferred_workout_time := None;
     injury_notes := None |}.

End Models.

(** *** [backend/app/database/session.py]: the store behind a session *)

Module Session.

Import Models.

(** The committed rows of the two tables. *)
Record Db := { users : list User; profiles : list UserProfile }.

(** What a request draws from its environment: the failure of the
    [n]-th database round trip of the handler (if any), the identifiers
    [uuid4] hands out, and the clock. *)
Record Env := {
  fault : nat -> option string;
  user_uuid : string;
  profile_uuid : string;
  now : Z
}.

(** A handler step: reads and writes the committed store, may raise. *)
Definition DbM (A : Type) : Type := Db -> result A * Db.

#[export] Instance DbM_ret : MRet DbM := fun A a db => (Ok a, db).
#[export] Instance DbM_bind : MBind DbM := fun A B f m db =>
  match m db with
  | (Ok a, db') => f a db'
  | (Raise e, db') => (Raise e, db')
  end.

Definition raise {A} (e : exn) : DbM A := fun db => (Raise e, db).

Definition lift {A} (r : result A) : DbM A := fun db => (r, db).

Definition get_db : DbM Db := fun db => (Ok db, db).

Definition put_db (db' : Db) : DbM unit := fun _ => (Ok (), db').

(** [try: body / except: handler] *)
Definition catch {A} (body : DbM A) (handler : exn -> DbM A) : DbM A := fun db =>
  match body db with
  | (Ok a, db') => (Ok a, db')
  | (Raise e, db') => handler e db'
  end.

(** The [n]-th round trip reaches the database, or fails. *)
Definition roundtrip (env : Env) (n : nat) : DbM unit :=
  match fault env n with
  | Some msg => raise (OperationalError msg)
  | None => mret ()
  end.

(** [scalar_one_or_none()] on the rows a statement selects. *)
Definition scalar_one_or_none {A} (rows : list A) : result (option A) :=
  match rows with
  | [] => Ok None
  | [r] => Ok (Some r)
  | _ => Raise (OtherError "Multiple rows were found when one or none was required")
  end.

(** [session.execute(select(User).where(User.email == e))] *)
Definition select_user_by_email (env : Env) (n : nat) (e : string) : DbM (option User) :=
  _ ← roundtrip env n;
  db ← get_db;
  lift (scalar_one_or_none (List.filter (fun u => String.eqb (email u) e) (users db))).

(** [select(User).where(User.cognito_id == c)]; comparing the column
    with [None] selects the rows where it is null, and there are none. *)
Definition select_user_by_cognito_id (env : Env) (n : nat) (c : option string)
  : DbM (option User) :=
  _ ← roundtrip env n;
  db ← get_db;
  lift (scalar_one_or_none
          (List.filter (fun u => match c with
                                 | Some c' => String.eqb (cognito_id u) c'
                                 | None => false
                                 end) (users db))).

(** The profile [selectinload(User.profile)] attaches to a user. *)
Definition profile_of (db : Db) (u : User) : option UserProfile :=
  List.find (fun p => String.eqb (user_id p) (id u)) (profiles db).

(** [session.add(user); await session.commit()] *)
Definition commit_user (env : Env) (n : nat) (user : User) : DbM unit :=
  _ ← roundtrip env n;
  db ← get_db;
  if existsb (fun u => String.eqb (id u) (id user) || String.eqb (cognito_id u) (cognito_id user)
                       || String.eqb (email u) (email user)
                       || String.eqb (username u) (username user)) (users db)
  then raise (IntegrityError "duplicate key value violates unique constraint")
  else put_db {| users := (users db ++ [user])%list; profiles := profiles db |}.

(** [session.add(profile); await session.commit()] *)
Definition commit_profile (env : Env) (n : nat) (profile : UserProfile) : DbM unit :=
  _ ← roundtrip env n;
  db ← get_db;
  if existsb (fun p => String.eqb (p_id p) (p_id profile)
                       || String.eqb (user_id p) (user_id profile)) (profiles db)
  then raise (IntegrityError "duplicate key value violates unique constraint")
  else if negb (existsb (fun u => String.eqb (id u) (user_id profile)) (users db))
  then raise (IntegrityError "violates foreign key constraint")
  else put_db {| users := users db; profiles := (profiles db ++ [profile])%list |}.

(** [await session.commit()] after attributes of a loaded profile were
    set: the row with its primary key is rewritten. *)
Definition commit_profile_update (env : Env) (n : nat) (profile : UserProfile) : DbM unit :=
  _ ← roundtrip env n;
  db ← get_db;
  put_db {| users := users db;
            profiles := map (fun p => if String.eqb (p_id p) (p_id profile)
                                      then profile else p) (profiles db) |}.

(** [await session.commit()] after [last_login] of a loaded user was set. *)
Definition commit_user_update (env : Env) (n : nat) (user : User) : DbM unit :=
  _ ← roundtrip env n;
  db ← get_db;
  put_db {| users := map (fun u => if String.eqb (id u) (id user) then user else u)
                         (users db);
            profiles := profiles db |}.

End Session.

(** *** [backend/app/core/security.py] *)

Module Security.

(** The dictionary [verify_token] returns. *)
Record CurrentUser := {
  cu_username : string;
  cu_attributes : gmap string string;
  cu_sub : option string
}.

Section CognitoAuth.

Variable client : Provider.client.

(** [CognitoAuth.verify_token] *)
Definition verify_token (token : string) : result CurrentUser :=
  try_except
    (response ← get_user client token;
     attrs ← item "UserAttributes" (gu_UserAttributes response);
     let user_attributes : gmap string string :=
       fold_left (fun m attr => <[attr.1 := attr.2]> m) attrs ∅ in
     username ← item "Username" (gu_Username response);
     mret {| cu_username := username; cu_attributes := user_attributes;
             cu_sub := user_attributes !! "sub" |})
    (fun e =>
       match e with
       | ClientError _ _ =>
           Raise (HTTPException HTTP_401_UNAUTHORIZED
                    (DetailStr "Invalid authentication credentials") [])
       | _ => Raise e
       end).

(** [get_current_user]; [token] is [credentials.credentials]. *)
Definition get_current_user (token : string) : result CurrentUser :=
  try_except (verify_token token)
    (fun e =>
       Raise (HTTPException HTTP_401_UNAUTHORIZED
                (DetailStr "Could not validate credentials")
                [("WWW-Authenticate", "Bearer")])).

End CognitoAuth.

(** [get_authorization_scheme_param] of [fastapi.security.utils] *)
Definition get_authorization_scheme_param (authorization : option string) : string * string :=
  match authorization with
  | Some v => if str_truthy v then (before_char " " v, after_char " " v) else ("", "")
  | None => ("", "")
  end.

(** How the bearer scheme refuses a request.  The releases of the
    framework differ in the status code, the headers and the text for a
    foreign scheme (403, no header, "Invalid authentication credentials";
    later 401 with a challenge header); the text for a missing credential
    is "Not authenticated" in all of them. *)
Record Refusal := {
  refusal_status : Z;
  refusal_headers : list (string * string);
  foreign_scheme_detail : string
}.

(** [security = HTTPBearer()], resolved by [Depends(security)] before
    [get_current_user] runs: the credential of the [Authorization] header
    of the request. *)
Definition HTTPBearer (refusal : Refusal) (authorization : option string) : result string :=
  let (scheme, credentials) := get_authorization_scheme_param authorization in
  if negb (opt_truthy authorization && str_truthy scheme && str_truthy credentials) then
    Raise (HTTPException (refusal_status refusal) (DetailStr "Not authenticated")
             (refusal_headers refusal))
  else if negb (String.eqb (lower scheme) "bearer") then
    Raise (HTTPException (refusal_status refusal) (DetailStr (foreign_scheme_detail refusal))
             (refusal_headers refusal))
  else Ok credentials.

End Security.

(** *** [backend/app/api/v1/auth.py] *)

Module AuthApi.

Import AuthSchemas CognitoService Models Session.

(** The names bound at module level: the imports of lines 1-18, the
    three assignments and the four handlers.  A name outside this list
    that is no builtin raises [NameError] when it is evaluated. *)
Definition module_names : list string :=
  [ "APIRouter"; "HTTPException"; "status"; "Depends"; "AsyncSession"; "select";
    "Optional"; "logging"; "UserRegistrationRequest"; "UserLoginRequest";
    "TokenRefreshRequest"; "AuthTokenResponse"; "UserRegistrationResponse";
    "GoogleAuthRequest"; "User"; "UserProfile"; "get_async_session";
    "CognitoService"; "get_current_user"; "logger"; "router"; "cognito_service";
    "register"; "login"; "google_auth"; "refresh_token" ].

Definition global (name : string) : result unit :=
  if existsb (String.eqb name) module_names then Ok () else Raise (NameError name).

(** [datetime.utcnow()], as this module evaluates it *)
Definition datetime_utcnow (env : Env) : DbM Z :=
  _ ← lift (global "datetime");
  mret (now env).

Definition http_error (status_code : Z) (det : value) : exn :=
  HTTPException status_code (DetailValue det) [].

(** [try: ... except HTTPException: raise / except Exception: raise 500] *)
Definition guard {A} (det : string) (body : DbM A) : DbM A :=
  catch body (fun e =>
    match e with
    | HTTPException _ _ _ => raise e
    | _ => raise (http_error HTTP_500_INTERNAL_SERVER_ERROR (VStr det))
    end).

(** [d[k]] where a [str] is needed *)
Definition str_item (d : dict) (k : string) : result string :=
  match d !! k with
  | Some (VStr s) => Ok s
  | Some _ => Raise (ValidationError k)
  | None => Raise (KeyError k)
  end.

Section Api.

Variable cognito_service : Config.
Variable client : Provider.client.
Variable verify_oauth2_token : string -> result IdInfo.

(** [register] *)
Definition register (env : Env) (request : UserRegistrationRequest)
  : DbM UserRegistrationResponse :=
  guard "An error occurred during registration"
    (let '(success, result) :=
       register_user cognito_service client (reg_email request) (reg_password request)
         (reg_username request) (reg_first_name request) (reg_last_name request) in
     if negb success then
       raise (http_error HTTP_400_BAD_REQUEST
                (get_or result "message" (VStr "Registration failed")))
     else
       user_sub ← lift (str_item result "user_sub");
       let user :=
         new_User (user_uuid env) (now env) user_sub (reg_email request)
           (reg_username request) (reg_first_name request) (reg_last_name request) in
       _ ← commit_user env 0 user;
       _ ← roundtrip env 1;
       let profile := new_UserProfile (profile_uuid env) (id user) in
       _ ← commit_profile env 2 profile;
       mret {| AuthSchemas.user_id := id user;
               AuthSchemas.resp_email := email user;
               AuthSchemas.resp_username := username user;
               AuthSchemas.created_at := Models.created_at user;
               AuthSchemas.message := "User registered successfully" |}).

Definition set_last_login (t : Z) (u : User) : User :=
  {| id := id u; cognito_id := cognito_id u; email := email u; username := username u;
     first_name := first_name u; last_name := last_name u;
     created_at := Models.created_at u; updated_at := t; last_login := Some t;
     is_active := is_active u |}.

(** [login] *)
Definition login (env : Env) (request : UserLoginRequest) : DbM AuthTokenResponse :=
  guard "An error occurred during login"
    (let '(success, result) :=
       authenticate_user cognito_service client (login_email request)
         (login_password request) in
     if negb success then
       raise (http_error HTTP_401_UNAUTHORIZED
                (get_or result "message" (VStr "Authentication failed")))
     else
       user ← select_user_by_email env 0 (login_email request);
       _ ← match user with
           | Some user =>
               t ← datetime_utcnow env;
               commit_user_update env 1 (set_last_login t user)
           | None => mret ()
           end;
       lift (AuthTokenResponse_of_dict result)).

(** [google_auth] *)
Definition google_auth (env : Env) (request : GoogleAuthRequest) : DbM AuthTokenResponse :=
  guard "An error occurred during Google authentication"
    (match authenticate_with_google cognito_service client verify_oauth2_token
             (google_id_token request) with
     | inr result =>
         raise (http_error HTTP_401_UNAUTHORIZED
                  (get_or result "message" (VStr "Google authentication failed")))
     | inl result =>
         let email_ := gr_email result in
         user ← select_user_by_email env 0 email_;
         _ ← match user with
             | Some _ => mret ()
             | None =>
                 let user :=
                   new_User (user_uuid env) (now env) (gr_user_sub result) email_
                     (before_char "@" email_)
                     (Some (gr_given_name result)) (Some (gr_family_name result)) in
                 _ ← commit_user env 1 user;
                 _ ← roundtrip env 2;
                 commit_profile env 3 (new_UserProfile (profile_uuid env) (id user))
             end;
         lift (AuthTokenResponse_of_dict (gr_tokens result))
     end).

(** [refresh_token] *)
Definition refresh_token (request : TokenRefreshRequest) : result AuthTokenResponse :=
  try_except
    (let '(success, result) :=
       refresh_tokens cognito_service client (req_refresh_token request) in
     if negb success then
       Raise (http_error HTTP_401_UNAUTHORIZED
                (get_or result "message" (VStr "Token refresh failed")))
     else AuthTokenResponse_of_dict result)
    (fun e =>
       match e with
       | HTTPException _ _ _ => Raise e
       | _ => Raise (http_error HTTP_500_INTERNAL_SERVER_ERROR
                       (VStr "An error occurred during token refresh"))
       end).

End Api.

(** The status code the client receives: 200 for a returned model, that
    of a raised [HTTPException], 500 for any other exception. *)
Definition status_of {A} (r : result A) : Z :=
  match r with
  | Ok _ => HTTP_200_OK
  | Raise (HTTPException s _ _) => s
  | Raise _ => HTTP_500_INTERNAL_SERVER_ERROR
  end.

End AuthApi.

(** *** [backend/app/schemas/profile.py] *)

Module ProfileSchemas.

Import Models.

(** A field of a request body: left out, or given ([null] included).
    This is what [model_fields_set] records. *)
Inductive field (T : Type) :=
| Unset
| Provided (v : option T).
Arguments Unset {T}.
Arguments Provided {T} v.

Record UserProfileUpdateRequest := {
  fitness_level : field FitnessLevel;
  goals : field (list string);
  equipment : field (list string);
  age : field Z;
  height_cm : field Q;
  weight_kg : field Q;
  preferred_workout_time : field string;
  injury_notes : field string
}.

Record UserProfileResponse := {
  r_id : string;
  r_email : string;
  r_username : string;
  r_first_name : option string;
  r_last_name : option string;
  r_fitness_level : option FitnessLevel;
  r_goals : option (list string);
  r_equipment : option (list string);
  r_has_completed_onboarding : bool;
  r_age : option Z;
  r_height_cm : option Q;
  r_weight_kg : option Q;
  r_preferred_workout_time : option string;
  r_injury_notes : option string;
  r_created_at : Z;
  r_updated_at : Z
}.

(** One entry of [request.model_dump(exclude_unset=True)]. *)
Inductive entry :=
| E_fitness_level (v : option FitnessLevel)
| E_goals (v : option (list string))
| E_equipment (v : option (list string))
| E_age (v : option Z)
| E_height_cm (v : option Q)
| E_weight_kg (v : option Q)
| E_preferred_workout_time (v : option string)
| E_injury_notes (v : option string).

Definition dump_field {T} (mk : option T -> entry) (f : field T) : list entry :=
  match f with
  | Unset => []
  | Provided v => [mk v]
  end.

(** [request.model_dump(exclude_unset=True).items()], in field order *)
Definition model_dump_exclude_unset (request : UserProfileUpdateRequest) : list entry :=
  (dump_field E_fitness_level (fitness_level request) ++
   dump_field E_goals (goals request) ++
   dump_field E_equipment (equipment request) ++
   dump_field E_age (age request) ++
   dump_field E_height_cm (height_cm request) ++
   dump_field E_weight_kg (weight_kg request) ++
   dump_field E_preferred_workout_time (preferred_workout_time request) ++
   dump_field E_injury_notes (injury_notes request))%list.

(** The [Field] bounds checked when the body is parsed. *)
Definition within {T} (ok : T -> bool) (f : field T) : bool :=
  match f with
  | Provided (Some v) => ok v
  | _ => true
  end.

Definition validate (request : UserProfileUpdateRequest) : result UserProfileUpdateRequest :=
  if within (fun a => (13 <=? a) && (a <=? 120)) (age request)
     && within (fun h => Qle_bool 50 h && Qle_bool h 300) (height_cm request)
     && within (fun w => Qle_bool 20 w && Qle_bool w 500) (weight_kg request)
     && within (fun t => len t <=? 50) (preferred_workout_time request)
  then Ok request
  else Raise (ValidationError "UserProfileUpdateRequest").

End ProfileSchemas.

(** *** [backend/app/api/v1/onboarding.py] *)

Module Onboarding.

Import Models Session Security.
Import ProfileSchemas (field, Unset, Provided, entry, UserProfileUpdateRequest,
                       UserProfileResponse, model_dump_exclude_unset).

(** [setattr(user.profile, field, value)] *)
Definition setattr (p : UserProfile) (e : entry) : UserProfile :=
  let mk fl g eq ag h w t n :=
    {| p_id := p_id p; user_id := user_id p; fitness_level := fl; goals := g;
       equipment := eq; has_completed_onboarding := has_completed_onboarding p;
       age := ag; height_cm := h; weight_kg := w; preferred_workout_time := t;
       injury_notes := n |} in
  match e with
  | ProfileSchemas.E_fitness_level v =>
      mk v (goals p) (equipment p) (age p) (height_cm p) (weight_kg p)
         (preferred_workout_time p) (injury_notes p)
  | ProfileSchemas.E_goals v =>
      mk (fitness_level p) v (equipment p) (age p) (height_cm p) (weight_kg p)
         (preferred_workout_time p) (injury_notes p)
  | ProfileSchemas.E_equipment v =>
      mk (fitness_level p) (goals p) v (age p) (height_cm p) (weight_kg p)
         (preferred_workout_time p) (injury_notes p)
  | ProfileSchemas.E_age v =>
      mk (fitness_level p) (goals p) (equipment p) v (height_cm p) (weight_kg p)
         (preferred_workout_time p) (injury_notes p)
  | ProfileSchemas.E_height_cm v =>
      mk (fitness_level p) (goals p) (equipment p) (age p) v (weight_kg p)
         (preferred_workout_time p) (injury_notes p)
  | ProfileSchemas.E_weight_kg v =>
      mk (fitness_level p) (goals p) (equipment p) (age p) (height_cm p) v
         (preferred_workout_time p) (injury_notes p)
  | ProfileSchemas.E_preferred_workout_time v =>
      mk (fitness_level p) (goals p) (equipment p) (age p) (height_cm p) (weight_kg p)
         v (injury_notes p)
  | ProfileSchemas.E_injury_notes v =>
      mk (fitness_level p) (goals p) (equipment p) (age p) (height_cm p) (weight_kg p)
         (preferred_workout_time p) v
  end.

(** [user.profile.has_completed_onboarding = True] *)
Definition set_completed (p : UserProfile) : UserProfile :=
  {| p_id := p_id p; user_id := user_id p; fitness_level := fitness_level p;
     goals := goals p; equipment := equipment p; has_completed_onboarding := true;
     age := age p; height_cm := height_cm p; weight_kg := weight_kg p;
     preferred_workout_time := preferred_workout_time p;
     injury_notes := injury_notes p |}.

Definition response_of (user : User) (profile : UserProfile) : UserProfileResponse :=
  {| ProfileSchemas.r_id := id user;
     ProfileSchemas.r_email := email user;
     ProfileSchemas.r_username := username user;
     ProfileSchemas.r_first_name := first_name user;
     ProfileSchemas.r_last_name := last_name user;
     ProfileSchemas.r_fitness_level := fitness_level profile;
     ProfileSchemas.r_goals := goals profile;
     ProfileSchemas.r_equipment := equipment profile;
     ProfileSchemas.r_has_completed_onboarding := has_completed_onboarding profile;
     ProfileSchemas.r_age := age profile;
     ProfileSchemas.r_height_cm := height_cm profile;
     ProfileSchemas.r_weight_kg := weight_kg profile;
     ProfileSchemas.r_preferred_workout_time := preferred_workout_time profile;
     ProfileSchemas.r_injury_notes := injury_notes profile;
     ProfileSchemas.r_created_at := created_at user;
     ProfileSchemas.r_updated_at := updated_at user |}.

(** [complete_onboarding].  No exception is handled here: one that is
    raised reaches the framework. *)
Definition complete_onboarding
    (env : Env) (request : UserProfileUpdateRequest) (current_user : CurrentUser)
  : DbM UserProfileResponse :=
  let cognito_id_ := cu_sub current_user in
  user ← select_user_by_cognito_id env 0 cognito_id_;
  match user with
  | None => raise (HTTPException HTTP_404_NOT_FOUND (DetailStr "User not found") [])
  | Some user =>
      db ← get_db;
      profile ← match profile_of db user with
                | Some profile => mret profile
                | None =>
                    let profile := new_UserProfile (profile_uuid env) (id user) in
                    _ ← commit_profile env 1 profile;
                    _ ← roundtrip env 2;
                    mret profile
                end;
      let update_data := model_dump_exclude_unset request in
      let profile := fold_left setattr update_data profile in
      let profile := set_completed profile in
      _ ← commit_profile_update env 3 profile;
      _ ← roundtrip env 4;
      mret (response_of user profile)
  end.

(** The route [PUT /onboarding]: the dependency [get_current_user] is
    resolved on the bearer token before the handler runs. *)
Definition put_onboarding
    (client : Provider.client) (env : Env) (token : string)
    (request : UserProfileUpdateRequest)
  : DbM UserProfileResponse :=
  match get_current_user client token with
  | Raise e => raise e
  | Ok current_user => complete_onboarding env request current_user
  end.

(** The route as the framework runs it on a request: [Depends(security)]
    reads the [Authorization] header, then [get_current_user] verifies the
    credential and the handler runs. *)
Definition onboarding_route
    (refusal : Refusal) (client : Provider.client) (env : Env)
    (authorization : option string) (request : UserProfileUpdateRequest)
  : DbM UserProfileResponse :=
  match HTTPBearer refusal authorization with
  | Raise e => raise e
  | Ok token => put_onboarding client env token request
  end.

End Onboarding.

End Backend.

(** ** What the specification names

    The domain codes the specification enumerates for [register],
    [authenticate] and [refresh], in the spelling the first generation
    gives them, and the secret hash as it describes it. *)

Module Spec.

Definition codes : list string :=
  [ "USER_EXISTS"; "INVALID_PASSWORD"; "INVALID_PARAMETER"; "REGISTRATION_FAILED";
    "INVALID_CREDENTIALS"; "USER_NOT_FOUND"; "USER_NOT_CONFIRMED";
    "PASSWORD_RESET_REQUIRED"; "AUTH_FAILED";
    "INVALID_REFRESH_TOKEN"; "REFRESH_FAILED"; "INTERNAL_ERROR" ].

Definition is_code (c : string) : bool := existsb (String.eqb c) codes.

(** The provider codes each operation of the first generation names. *)
Definition recognised_register : list string :=
  [ "UsernameExistsException"; "InvalidPasswordException"; "InvalidParameterException" ].

Definition recognised_authenticate : list string :=
  [ "NotAuthorizedException"; "UserNotFoundException"; "UserNotConfirmedException";
    "PasswordResetRequiredException" ].

Definition recognised_refresh : list string := [ "NotAuthorizedException" ].

(** The secret hash as the specification words it: the base 64 of the
    HMAC-SHA256, keyed by the client secret, of the user name followed by
    the client id. *)
Definition keyed_hash (secret client_id_ username : string) : string :=
  Crypto.b64encode
    (Crypto.hmac_sha256 (Crypto.encode secret) (Crypto.encode (username ++ client_id_))).

(** Partial update of one profile field: a field the request leaves out
    keeps the stored value, a field it gives takes the given one. *)
Definition merge {T} (f : Backend.ProfileSchemas.field T) (stored : option T) : option T :=
  match f with
  | Backend.ProfileSchemas.Unset => stored
  | Backend.ProfileSchemas.Provided v => v
  end.

(** The profile an onboarding call starts from: the stored one, or the
    blank one created on the spot for a user who has none. *)
Definition profile_before
    (env : Backend.Session.Env) (db : Backend.Session.Db) (user : Backend.Models.User)
  : Backend.Models.UserProfile :=
  default (Backend.Models.new_UserProfile (Backend.Session.profile_uuid env)
             (Backend.Models.id user))
          (Backend.Session.profile_of db user).

(** Partial update of a profile by a request: every field is merged. *)
Definition partial_update
    (request : Backend.ProfileSchemas.UserProfileUpdateRequest)
    (before after : Backend.Models.UserProfile) : Prop :=
  Backend.Models.fitness_level after
    = merge (Backend.ProfileSchemas.fitness_level request) (Backend.Models.fitness_level before)
  /\ Backend.Models.goals after
     = merge (Backend.ProfileSchemas.goals request) (Backend.Models.goals before)
  /\ Backend.Models.equipment after
     = merge (Backend.ProfileSchemas.equipment request) (Backend.Models.equipment before)
  /\ Backend.Models.age after
     = merge (Backend.ProfileSchemas.age request) (Backend.Models.age before)
  /\ Backend.Models.height_cm after
     = merge (Backend.ProfileSchemas.height_cm request) (Backend.Models.height_cm before)
  /\ Backend.Models.weight_kg after
     = merge (Backend.ProfileSchemas.weight_kg request) (Backend.Models.weight_kg before)
  /\ Backend.Models.preferred_workout_time after
     = merge (Backend.ProfileSchemas.preferred_workout_time request)
         (Backend.Models.preferred_workout_time before)
  /\ Backend.Models.injury_notes after
     = merge (Backend.ProfileSchemas.injury_notes request) (Backend.Models.injury_notes before).

(** The provider answers a refresh request with these token fields.
    (Its refresh flow issues no new refresh token, and none is read.) *)
Definition provider_refreshed
    (client : Provider.client) (params : InitiateAuthParams)
    (access idt : string) (expires : Z) (ttype : string) : Prop :=
  exists response a,
    initiate_auth client params = Ok response
    /\ AuthenticationResult response = Some a
    /\ AccessToken a = Some access /\ IdToken a = Some idt
    /\ ExpiresIn a = Some expires /\ TokenType a = Some ttype.

(** The provider authenticates the credentials: it demands no
    challenge and answers with a full token bundle. *)
Definition provider_authenticated
    (client : Provider.client) (params : InitiateAuthParams)
    (access idt refresh : string) (expires : Z) (ttype : string) : Prop :=
  exists response,
    initiate_auth client params = Ok response
    /\ opt_truthy (ChallengeName response) = false
    /\ AuthenticationResult response
       = Some {| AccessToken := Some access; IdToken := Some idt;
                 RefreshToken := Some refresh; ExpiresIn := Some expires;
                 TokenType := Some ttype |}.

(** The one outcome of a request whose bearer token does not verify. *)
Definition unauthenticated : exn :=
  HTTPException HTTP_401_UNAUTHORIZED (DetailStr "Could not validate credentials")
    [("WWW-Authenticate", "Bearer")].

End Spec.

(** ** Conditions on the stores

    The constraints the table definitions declare, and the normal forms the
    code writes, as predicates on a store. *)

Module Invariants.

(** The primary key and the three [unique=True] columns of the first
    generation's [users] table hold no value twice. *)
Definition unique_keys (db : Legacy.UserRepository.Db) : Prop :=
  NoDup (map Legacy.UserRepository.id db)
  /\ NoDup (map Legacy.UserRepository.email db)
  /\ NoDup (map Legacy.UserRepository.username db)
  /\ NoDup (map Legacy.UserRepository.cognito_id db).

(** Every stored email and user name is its own lower-casing. *)
Definition lowercase_stored (db : Legacy.UserRepository.Db) : Prop :=
  Forall (fun u => lower (Legacy.UserRepository.email u) = Legacy.UserRepository.email u
                   /\ lower (Legacy.UserRepository.username u)
                      = Legacy.UserRepository.username u) db.

(** The [ge]/[le] bounds of the three numeric columns of a profile. *)
Definition within_bounds (p : Backend.Models.UserProfile) : Prop :=
  (forall a, Backend.Models.age p = Some a -> 13 <= a <= 120)
  /\ (forall h, Backend.Models.height_cm p = Some h -> (50 <= h /\ h <= 300)%Q)
  /\ (forall w, Backend.Models.weight_kg p = Some w -> (20 <= w /\ w <= 500)%Q).

(** A profile's primary key belongs to one owner only. *)
Definition profile_keys (db : Backend.Session.Db) : Prop :=
  forall p q, In p (Backend.Session.profiles db) -> In q (Backend.Session.profiles db) ->
    Backend.Models.p_id p = Backend.Models.p_id q ->
    Backend.Models.user_id p = Backend.Models.user_id q.

(** The value a list of provider attributes gives a name: that of its last
    entry with the name. *)
Definition last_value (name : string) (attrs : list (string * string)) : option string :=
  snd <$> List.find (fun a => String.eqb a.1 name) (rev attrs).

(** The first key the login path reads that an answer of [initiate_auth]
    lacks, if any. *)
Definition first_missing_key (response : InitiateAuthResponse) : option string :=
  match AuthenticationResult response with
  | None => Some "AuthenticationResult"
  | Some a =>
      match AccessToken a, IdToken a, RefreshToken a, ExpiresIn a, TokenType a with
      | None, _, _, _, _ => Some "AccessToken"
      | _, None, _, _, _ => Some "IdToken"
      | _, _, None, _, _ => Some "RefreshToken"
      | _, _, _, None, _ => Some "ExpiresIn"
      | _, _, _, _, None => Some "TokenType"
      | _, _, _, _, _ => None
      end
  end.

(** The provider exchanges a request for a full token bundle. *)
Definition provider_issues
    (client : Provider.client) (params : InitiateAuthParams)
    (access idt refresh : string) (expires : Z) (ttype : string) : Prop :=
  exists response,
    initiate_auth client params = Ok response
    /\ AuthenticationResult response
       = Some {| AccessToken := Some access; IdToken := Some idt;
                 RefreshToken := Some refresh; ExpiresIn := Some expires;
                 TokenType := Some ttype |}.

(** The keys of a new user row are free in the store. *)
Definition user_keys_free (db : Backend.Session.Db) (user : Backend.Models.User) : Prop :=
  forall u, In u (Backend.Session.users db) ->
    Backend.Models.id u <> Backend.Models.id user
    /\ Backend.Models.cognito_id u <> Backend.Models.cognito_id user
    /\ Backend.Models.email u <> Backend.Models.email user
    /\ Backend.Models.username u <> Backend.Models.username user.

(** The keys of a new profile row are free in the store. *)
Definition profile_keys_free (db : Backend.Session.Db) (profile : Backend.Models.UserProfile)
  : Prop :=
  forall p, In p (Backend.Session.profiles db) ->
    Backend.Models.p_id p <> Backend.Models.p_id profile
    /\ Backend.Models.user_id p <> Backend.Models.user_id profile.

(** Text of ASCII characters only.  On such text the byte-wise [lower],
    [isalnum] and [len] of this development are those of Python. *)
Definition ascii_text (s : string) : bool :=
  all_chars (fun c => (nat_of_ascii c <? 128)%nat) s.

(** A character a user name may hold. *)
Definition username_char (c : ascii) : bool :=
  isalnum_c c || Ascii.eqb c "_" || Ascii.eqb c "-".

End Invariants.

(** ** Concrete configurations, providers and stores used in the examples *)

Module Fixtures.

Definition confidential : Config := {| client_id := "client-1"; client_secret := Some "s3cret" |}.

Definition public : Config := {| client_id := "client-1"; client_secret := None |}.

Definition unused {A} : result A := Raise (OtherError "not called").

(** A provider that answers every [initiate_auth] with [r]. *)
Definition answering (r : result InitiateAuthResponse) : Provider.client :=
  {| sign_up := fun _ => unused; initiate_auth := fun _ => r; get_user := fun _ => unused |}.

(** A provider that answers every [sign_up] with [r]. *)
Definition signing_up (r : result SignUpResponse) : Provider.client :=
  {| sign_up := fun _ => r; initiate_auth := fun _ => unused; get_user := fun _ => unused |}.

(** A provider that answers every [get_user] with [r]. *)
Definition introspecting (r : result GetUserResponse) : Provider.client :=
  {| sign_up := fun _ => unused; initiate_auth := fun _ => unused; get_user := fun _ => r |}.

Definition sms_challenge : InitiateAuthResponse :=
  {| ChallengeName := Some "SMS_MFA"; Session := Some "session-1";
     AuthenticationResult := None |}.

Definition tokens : AuthenticationResultType :=
  {| AccessToken := Some "access-1"; IdToken := Some "id-1"; RefreshToken := Some "refresh-1";
     ExpiresIn := Some 3600; TokenType := Some "Bearer" |}.

(** The result of a refresh carries no refresh token. *)
Definition refreshed : AuthenticationResultType :=
  {| AccessToken := Some "access-2"; IdToken := Some "id-2"; RefreshToken := None;
     ExpiresIn := Some 3600; TokenType := Some "Bearer" |}.

Definition authenticated (a : AuthenticationResultType) : InitiateAuthResponse :=
  {| ChallengeName := None; Session := None; AuthenticationResult := Some a |}.

Definition signed_up : SignUpResponse :=
  {| UserSub := Some "sub-1"; UserConfirmed := Some false; CodeDeliveryDetails := None |}.

Definition no_fault : nat -> option string := fun _ => None.

Definition env0 : Backend.Session.Env :=
  {| Backend.Session.fault := no_fault; Backend.Session.user_uuid := "uuid-u";
     Backend.Session.profile_uuid := "uuid-p"; Backend.Session.now := 1000 |}.

Definition empty_db : Backend.Session.Db :=
  {| Backend.Session.users := []; Backend.Session.profiles := [] |}.

Definition bob : Backend.Models.User :=
  Backend.Models.new_User "uuid-bob" 10 "sub-bob" "bob@example.com" "bob" None None.

Definition bob_db : Backend.Session.Db :=
  {| Backend.Session.users := [bob]; Backend.Session.profiles := [] |}.

Definition legacy_bob : Legacy.UserRepository.User :=
  {| Legacy.UserRepository.id := "uuid-bob";
     Legacy.UserRepository.cognito_id := "sub-bob";
     Legacy.UserRepository.email := "bob@example.com";
     Legacy.UserRepository.username := "bob";
     Legacy.UserRepository.first_name := None;
     Legacy.UserRepository.last_name := None;
     Legacy.UserRepository.u_created_at := 10;
     Legacy.UserRepository.u_updated_at := 10;
     Legacy.UserRepository.last_login := None;
     Legacy.UserRepository.metadata := None |}.

(** The request body [{"age": 25}]. *)
Definition age_25 : Backend.ProfileSchemas.UserProfileUpdateRequest :=
  {| Backend.ProfileSchemas.fitness_level := Backend.ProfileSchemas.Unset;
     Backend.ProfileSchemas.goals := Backend.ProfileSchemas.Unset;
     Backend.ProfileSchemas.equipment := Backend.ProfileSchemas.Unset;
     Backend.ProfileSchemas.age := Backend.ProfileSchemas.Provided (Some 25);
     Backend.ProfileSchemas.height_cm := Backend.ProfileSchemas.Unset;
     Backend.ProfileSchemas.weight_kg := Backend.ProfileSchemas.Unset;
     Backend.ProfileSchemas.preferred_workout_time := Backend.ProfileSchemas.Unset;
     Backend.ProfileSchemas.injury_notes := Backend.ProfileSchemas.Unset |}.

(** Bob's profile with goals and equipment already set. *)
Definition bob_profile : Backend.Models.UserProfile :=
  {| Backend.Models.p_id := "uuid-bob-profile";
     Backend.Models.user_id := "uuid-bob";
     Backend.Models.fitness_level := Some Backend.Models.BEGINNER;
     Backend.Models.goals := Some ["strength"; "mobility"];
     Backend.Models.equipment := Some ["kettlebell"];
     Backend.Models.has_completed_onboarding := false;
     Backend.Models.age := None;
     Backend.Models.height_cm := None;
     Backend.Models.weight_kg := None;
     Backend.Models.preferred_workout_time := None;
     Backend.Models.injury_notes := None |}.

Definition bob_with_profile_db : Backend.Session.Db :=
  {| Backend.Session.users := [bob]; Backend.Session.profiles := [bob_profile] |}.

(** The provider's answer on Bob's access token. *)
Definition bob_provider : Provider.client :=
  introspecting (Ok {| gu_Username := Some "bob";
                       gu_UserAttributes := Some [("sub", "sub-bob")] |}).

Definition bob_token : Backend.Security.CurrentUser :=
  {| Backend.Security.cu_username := "bob";
     Backend.Security.cu_attributes := {[ "sub" := "sub-bob" ]};
     Backend.Security.cu_sub := Some "sub-bob" |}.

(** The claims of Carol's Google token. *)
Definition carol_idinfo : IdInfo :=
  {| g_email := Some "carol@example.com"; g_given_name := Some "Carol";
     g_family_name := None; g_sub := Some "google-sub-carol" |}.

(** An environment whose third database round trip fails. *)
Definition env_profile_commit_fails : Backend.Session.Env :=
  {| Backend.Session.fault := fun n => if Nat.eqb n 2 then Some "connection lost" else None;
     Backend.Session.user_uuid := "uuid-u";
     Backend.Session.profile_uuid := "uuid-p"; Backend.Session.now := 1000 |}.

Definition carol_registration : Backend.AuthSchemas.UserRegistrationRequest :=
  {| Backend.AuthSchemas.reg_email := "carol@example.com";
     Backend.AuthSchemas.reg_password := "Valid123!";
     Backend.AuthSchemas.reg_username := "carol";
     Backend.AuthSchemas.reg_first_name := None;
     Backend.AuthSchemas.reg_last_name := None |}.

(** An environment whose fourth database round trip fails. *)
Definition env_final_commit_fails : Backend.Session.Env :=
  {| Backend.Session.fault := fun n => if Nat.eqb n 3 then Some "connection lost" else None;
     Backend.Session.user_uuid := "uuid-u";
     Backend.Session.profile_uuid := "uuid-p"; Backend.Session.now := 1000 |}.

(** The request body [{"age": 31, "height_cm": 180.5, "weight_kg": null}]. *)
Definition measurements : Backend.ProfileSchemas.UserProfileUpdateRequest :=
  {| Backend.ProfileSchemas.fitness_level := Backend.ProfileSchemas.Unset;
     Backend.ProfileSchemas.goals := Backend.ProfileSchemas.Unset;
     Backend.ProfileSchemas.equipment := Backend.ProfileSchemas.Unset;
     Backend.ProfileSchemas.age := Backend.ProfileSchemas.Provided (Some 31);
     Backend.ProfileSchemas.height_cm := Backend.ProfileSchemas.Provided (Some (361 # 2)%Q);
     Backend.ProfileSchemas.weight_kg := Backend.ProfileSchemas.Provided None;
     Backend.ProfileSchemas.preferred_workout_time := Backend.ProfileSchemas.Unset;
     Backend.ProfileSchemas.injury_notes := Backend.ProfileSchemas.Unset |}.

(** Dana and her profile, beside Bob's. *)
Definition dana : Backend.Models.User :=
  Backend.Models.new_User "uuid-dana" 20 "sub-dana" "dana@example.com" "dana" None None.

Definition dana_profile : Backend.Models.UserProfile :=
  Backend.Models.new_UserProfile "uuid-dana-profile" "uuid-dana".

Definition bob_and_dana_db : Backend.Session.Db :=
  {| Backend.Session.users := [bob; dana]; Backend.Session.profiles := [dana_profile] |}.

(** The two ways releases of the framework refuse a request without a
    bearer credential. *)
Definition forbidding : Backend.Security.Refusal :=
  {| Backend.Security.refusal_status := 403; Backend.Security.refusal_headers := [];
     Backend.Security.foreign_scheme_detail := "Invalid authentication credentials" |}.

Definition challenging : Backend.Security.Refusal :=
  {| Backend.Security.refusal_status := 401;
     Backend.Security.refusal_headers := [("WWW-Authenticate", "Bearer")];
     Backend.Security.foreign_scheme_detail := "Not authenticated" |}.

(** A provider on which the access token has expired. *)
Definition expired : Provider.client :=
  introspecting (Raise (ClientError "NotAuthorizedException" "Access Token has expired")).

(** A provider that refuses a token it cannot parse. *)
Definition malformed : Provider.client :=
  introspecting (Raise (OtherError "Parameter validation failed: Invalid length")).

End Fixtures.
(** * Properties *)

(** ** The library model agrees with the published test vectors *)

Example sha256_of_abc : Crypto.hexdigest (Crypto.sha256 (Crypto.encode "abc")) = "ba7816bf8f01cfea414140de5dae2223b00361a396177a9cb410ff61f20015ad".
Proof. vm_compute. reflexivity. Qed.
Example sha256_of_empty : Crypto.hexdigest (Crypto.sha256 (Crypto.encode "")) = "e3b0c44298fc1c149afbf4c8996fb92427ae41e4649b934ca495991b7852b855".
Proof. vm_compute. reflexivity. Qed.
Example sha256_of_two_blocks : Crypto.hexdigest (Crypto.sha256 (repeat Byte.x61 70)) = "6bd5e5034855a11241f0dee8fc72850ffd9955b28347a86428b5fa19119f6ad0".
Proof. vm_compute. reflexivity. Qed.
Example hmac_secret_hash : Crypto.b64encode (Crypto.hmac_sha256 (Crypto.encode "s3cret") (Crypto.encode ("alice@example.com" ++ "client-1"))) = "p7ZSovmPSoa0uirqhXxhxd+Fc/hQvbyJ8aL9qNvCcpg=".
Proof. vm_compute. reflexivity. Qed.
Example hmac_with_long_key : Crypto.b64encode (Crypto.hmac_sha256 (repeat Byte.x6b 70) (Crypto.encode ("alice@example.com" ++ "client-1"))) = "2IERCQCXijbVABRHR9dOjgLCvuLfJ/eqSJuaB3MjmD4=".
Proof. vm_compute. reflexivity. Qed.
Example b64encode_padding : Crypto.b64encode (Crypto.encode "abcd") = "YWJjZA==" /\ Crypto.b64encode (Crypto.encode "ab") = "YWI=".
Proof. vm_compute. split; reflexivity. Qed.

(** ** The request validators on the examples of the specification *)

Example password_policy_examples :
  Legacy.AuthModels.parse_registration "a@example.com" "short1!" "alice" None None
    = Raise (ValidationError "password")
  /\ Backend.AuthSchemas.parse_registration "a@example.com" "short1!" "alice" None None
     = Raise (ValidationError "password")
  /\ Legacy.AuthModels.validate_password "Valid123!" = Ok "Valid123!"
  /\ Backend.AuthSchemas.validate_password "Valid123!" = Ok "Valid123!".
Proof. vm_compute. repeat split. Qed.

(** ** Shared facts *)

Lemma opt_truthy_Some (s : string) : s <> "" -> opt_truthy (Some s) = true.
Proof.
  intros Hs. unfold opt_truthy, str_truthy.
  destruct (String.eqb_spec s ""); [contradiction | reflexivity].
Qed.

Lemma opt_truthy_inv (o : option string) :
  opt_truthy o = true -> exists s, o = Some s /\ s <> "".
Proof.
  destruct o as [s|]; simpl; [|discriminate].
  unfold str_truthy. destruct (String.eqb_spec s ""); [discriminate|].
  intros _. exists s. split; [reflexivity | assumption].
Qed.

(** Unfolding of the store monad of the second generation. *)
Create HintDb dbm discriminated.
#[local] Hint Unfold Backend.Session.DbM_bind Backend.Session.DbM_ret Backend.Session.lift
  Backend.Session.raise Backend.Session.catch Backend.Session.get_db Backend.Session.put_db
  Backend.Session.roundtrip Backend.AuthApi.guard : dbm.

Ltac run_dbm := unfold mbind, mret; autounfold with dbm; cbn.

(** ** Login when the provider demands a challenge *)

Section LoginChallenge.

Variable cfg : Config.
Variable client : Provider.client.
Variable response : InitiateAuthResponse.
Variable name : string.
Hypothesis challenge_named : ChallengeName response = Some name.
Hypothesis name_not_empty : name <> "".

(** First generation: the gateway reports the challenge and the handler
    answers 202 with the challenge name and the session; the store is
    not touched. *)
Lemma legacy_login_challenge_accepted fault now db request :
  initiate_auth client
    (Legacy.CognitoService.authenticate_params cfg
       (Legacy.AuthModels.login_email request) (Legacy.AuthModels.login_password request))
    = Ok response ->
  Legacy.AuthApi.login cfg client fault now db request =
    (Ok (Legacy.AuthApi.JSONResponse HTTP_202_ACCEPTED
           {[ "challenge" := VStr name;
              "session" := of_opt_str (Session response);
              "message" := VStr "Authentication challenge required" ]}), db).
Proof.
  intros Hcall.
  unfold Legacy.AuthApi.login, Legacy.CognitoService.authenticate_user.
  rewrite Hcall. cbn [mbind Py.result_bind].
  rewrite challenge_named, (opt_truthy_Some name name_not_empty).
  reflexivity.
Qed.

(** Second generation: the gateway builds the same report, the handler
    turns it into 401. *)
Lemma backend_login_challenge_unauthorized env db request :
  initiate_auth client
    (Backend.CognitoService.authenticate_params cfg
       (Backend.AuthSchemas.login_email request) (Backend.AuthSchemas.login_password request))
    = Ok response ->
  Backend.AuthApi.login cfg client env request db =
    (Raise (HTTPException HTTP_401_UNAUTHORIZED (DetailStr "Authentication failed") []), db).
Proof.
  intros Hcall.
  unfold Backend.AuthApi.login, Backend.CognitoService.authenticate_user.
  rewrite Hcall. cbn [mbind Py.result_bind].
  rewrite challenge_named, (opt_truthy_Some name name_not_empty).
  reflexivity.
Qed.

End LoginChallenge.

(** C1 (second generation, at a concrete request).  The provider answers
    the login of bob@example.com with the challenge SMS_MFA and a session:
    the handler of [backend/app/api/v1/auth.py] answers 401 "Authentication
    failed", where the handler of [src/api/auth.py] answers 202 with the
    challenge and the session. *)
Theorem backend_login_challenge_is_401 :
  let request := {| Backend.AuthSchemas.login_email := "bob@example.com";
                    Backend.AuthSchemas.login_password := "Valid123!" |} in
  let legacy_request := {| Legacy.AuthModels.login_email := "bob@example.com";
                           Legacy.AuthModels.login_password := "Valid123!" |} in
  let client := Fixtures.answering (Ok Fixtures.sms_challenge) in
  Backend.AuthApi.status_of
    (Backend.AuthApi.login Fixtures.confidential client Fixtures.env0 request Fixtures.bob_db).1
    = 401
  /\ Legacy.AuthApi.status_of 200
       (Legacy.AuthApi.login Fixtures.confidential client None 1000 [] legacy_request).1
     = 202.
Proof.
  intros request legacy_request client. split.
  - rewrite (backend_login_challenge_unauthorized Fixtures.confidential client
               Fixtures.sms_challenge "SMS_MFA"); [reflexivity | reflexivity | discriminate | reflexivity].
  - rewrite (legacy_login_challenge_accepted Fixtures.confidential client
               Fixtures.sms_challenge "SMS_MFA"); [reflexivity | reflexivity | discriminate | reflexivity].
Qed.

(** ** Registration when the local write fails *)

Section RegistrationDualWrite.

Variable cfg : Config.
Variable client : Provider.client.
Variable response : SignUpResponse.
Variable sub : string.
Hypothesis provider_registered : UserSub response = Some sub.

(** First generation: once the provider has registered the identity the
    handler returns the success response, whatever the repository call
    did. *)
Lemma legacy_register_success_after_provider fault new_id now db request :
  sign_up client
    (Legacy.CognitoService.sign_up_params cfg
       (Legacy.AuthModels.reg_email request) (Legacy.AuthModels.reg_password request)
       (Legacy.AuthModels.reg_username request) (Legacy.AuthModels.reg_first_name request)
       (Legacy.AuthModels.reg_last_name request))
    = Ok response ->
  (Legacy.AuthApi.register cfg client fault new_id now db request).1 =
    Ok {| Legacy.AuthModels.user_id := sub;
          Legacy.AuthModels.resp_email := Legacy.AuthModels.reg_email request;
          Legacy.AuthModels.resp_username := Legacy.AuthModels.reg_username request;
          Legacy.AuthModels.created_at := now;
          Legacy.AuthModels.message := "User registered successfully" |}.
Proof.
  intros Hcall.
  unfold Legacy.AuthApi.register, Legacy.CognitoService.register_user.
  rewrite Hcall. cbn [mbind Py.result_bind].
  rewrite provider_registered. cbn [item mbind Py.result_bind mret Py.result_ret negb].
  change (get _ "user_sub") with (VStr sub).
  cbv beta iota.
  destruct (Legacy.UserRepository.create_user _ _ _ _ _ _ _ _ _ _) as [db_result db'].
  reflexivity.
Qed.

(** The repository call never raises, and a failed one leaves the table
    as it was. *)
Lemma legacy_create_user_failure_keeps_table
    fault new_id now db cognito_id email username first_name last_name meta :
  let r := Legacy.UserRepository.create_user fault new_id now db cognito_id email username
             first_name last_name meta in
  is_Some (r.1 !! "error") -> r.2 = db.
Proof.
  unfold Legacy.UserRepository.create_user.
  destruct (Legacy.UserRepository.commit_insert _ _ _) as [db'|e]; cbn.
  - intros [v Hv]. vm_compute in Hv. discriminate.
  - intros _.
    destruct e; try reflexivity.
    repeat match goal with |- context [if ?b then _ else _] => destruct b end; reflexivity.
Qed.

(** Second generation: a failure of the first commit is answered 500 and
    nothing is stored. *)
Lemma backend_register_commit_failure env db request msg :
  sign_up client
    (Backend.CognitoService.sign_up_params cfg
       (Backend.AuthSchemas.reg_email request) (Backend.AuthSchemas.reg_password request)
       (Backend.AuthSchemas.reg_username request) (Backend.AuthSchemas.reg_first_name request)
       (Backend.AuthSchemas.reg_last_name request))
    = Ok response ->
  Backend.Session.fault env 0%nat = Some msg ->
  Backend.AuthApi.register cfg client env request db =
    (Raise (HTTPException HTTP_500_INTERNAL_SERVER_ERROR
              (DetailStr "An error occurred during registration") []), db).
Proof.
  intros Hcall Hfault.
  unfold Backend.AuthApi.register, Backend.CognitoService.register_user.
  rewrite Hcall. cbn [mbind Py.result_bind].
  rewrite provider_registered.
  unfold Backend.Session.commit_user. run_dbm.
  rewrite Hfault. reflexivity.
Qed.

End RegistrationDualWrite.

(** C2 (second generation, at a concrete request).  The provider registers
    robert@example.com with the user name bob; the local table already
    holds a row with that user name, so the insertion violates the unique
    constraint.  The handler of [backend/app/api/v1/auth.py] answers 500
    "An error occurred during registration"; the handler of
    [src/api/auth.py], on the same registration, returns the success
    response.  In both the table is left as it was. *)
Theorem backend_register_local_failure_is_500 :
  let request :=
    {| Backend.AuthSchemas.reg_email := "robert@example.com";
       Backend.AuthSchemas.reg_password := "Valid123!";
       Backend.AuthSchemas.reg_username := "bob";
       Backend.AuthSchemas.reg_first_name := None;
       Backend.AuthSchemas.reg_last_name := None |} in
  let legacy_request :=
    {| Legacy.AuthModels.reg_email := "robert@example.com";
       Legacy.AuthModels.reg_password := "Valid123!";
       Legacy.AuthModels.reg_username := "bob";
       Legacy.AuthModels.reg_first_name := None;
       Legacy.AuthModels.reg_last_name := None |} in
  let client := Fixtures.signing_up (Ok Fixtures.signed_up) in
  Backend.AuthApi.register Fixtures.public client Fixtures.env0 request Fixtures.bob_db =
    (Raise (HTTPException 500 (DetailStr "An error occurred during registration") []),
     Fixtures.bob_db)
  /\ Legacy.AuthApi.register Fixtures.public client None "uuid-r" 1000 [Fixtures.legacy_bob]
       legacy_request =
     (Ok {| Legacy.AuthModels.user_id := "sub-1";
            Legacy.AuthModels.resp_email := "robert@example.com";
            Legacy.AuthModels.resp_username := "bob";
            Legacy.AuthModels.created_at := 1000;
            Legacy.AuthModels.message := "User registered successfully" |},
      [Fixtures.legacy_bob]).
Proof. split; vm_compute; reflexivity. Qed.

(** ** The error code the gateway surfaces *)

Section ErrorSpec.

Variable cfg : Config.
Variable client : Provider.client.

Ltac by_cases_on_code :=
  repeat match goal with
         | |- context [String.eqb ?a ?b] => destruct (String.eqb_spec a b); subst
         end.

(** First generation, [register_user]: a provider error surfaces as a
    taxonomy member, an unrecognised code as REGISTRATION_FAILED. *)
Lemma legacy_register_error_in_taxonomy email password username first_name last_name e :
  sign_up client
    (Legacy.CognitoService.sign_up_params cfg email password username first_name last_name)
    = Raise e ->
  exists c m,
    Legacy.CognitoService.register_user cfg client email password username first_name last_name
      = (false, Legacy.CognitoService.error_dict c m)
    /\ Spec.is_code c = true
    /\ (forall code msg, e = ClientError code msg ->
          ~ In code Spec.recognised_register -> c = "REGISTRATION_FAILED").
Proof.
  intros Hcall. unfold Legacy.CognitoService.register_user. rewrite Hcall.
  cbn [mbind Py.result_bind].
  destruct e; try (eexists _, _; split; [reflexivity | split; [reflexivity | discriminate]]).
  by_cases_on_code;
    (eexists _, _; split; [reflexivity | split; [reflexivity |]]);
    intros code' msg' [= <- <-] Hnot; try reflexivity;
    exfalso; apply Hnot; simpl; tauto.
Qed.

(** First generation, [authenticate_user]: the catch-all is AUTH_FAILED. *)
Lemma legacy_authenticate_error_in_taxonomy email password e :
  initiate_auth client (Legacy.CognitoService.authenticate_params cfg email password)
    = Raise e ->
  exists c m,
    Legacy.CognitoService.authenticate_user cfg client email password
      = (false, Legacy.CognitoService.error_dict c m)
    /\ Spec.is_code c = true
    /\ (forall code msg, e = ClientError code msg ->
          ~ In code Spec.recognised_authenticate -> c = "AUTH_FAILED").
Proof.
  intros Hcall. unfold Legacy.CognitoService.authenticate_user. rewrite Hcall.
  cbn [mbind Py.result_bind].
  destruct e; try (eexists _, _; split; [reflexivity | split; [reflexivity | discriminate]]).
  by_cases_on_code;
    (eexists _, _; split; [reflexivity | split; [reflexivity |]]);
    intros code' msg' [= <- <-] Hnot; try reflexivity;
    exfalso; apply Hnot; simpl; tauto.
Qed.

(** First generation, [refresh_tokens]: the catch-all is REFRESH_FAILED. *)
Lemma legacy_refresh_error_in_taxonomy refresh_token e :
  initiate_auth client (Legacy.CognitoService.refresh_params cfg refresh_token) = Raise e ->
  exists c m,
    Legacy.CognitoService.refresh_tokens cfg client refresh_token
      = (false, Legacy.CognitoService.error_dict c m)
    /\ Spec.is_code c = true
    /\ (forall code msg, e = ClientError code msg ->
          ~ In code Spec.recognised_refresh -> c = "REFRESH_FAILED").
Proof.
  intros Hcall. unfold Legacy.CognitoService.refresh_tokens. rewrite Hcall.
  cbn [mbind Py.result_bind].
  destruct e; try (eexists _, _; split; [reflexivity | split; [reflexivity | discriminate]]).
  by_cases_on_code;
    (eexists _, _; split; [reflexivity | split; [reflexivity |]]);
    intros code' msg' [= <- <-] Hnot; try reflexivity;
    exfalso; apply Hnot; simpl; tauto.
Qed.

(** Second generation: the three operations share their [except]
    clauses, which put the provider's code and message in the result as
    they are. *)
Lemma backend_error_code_is_verbatim code msg :
  Backend.CognitoService.on_exception (ClientError code msg) =
    (false, {[ "error" := VStr code; "message" := VStr msg ]}).
Proof. reflexivity. Qed.

Lemma backend_register_error_verbatim email password username first_name last_name code msg :
  sign_up client
    (Backend.CognitoService.sign_up_params cfg email password username first_name last_name)
    = Raise (ClientError code msg) ->
  get (Backend.CognitoService.register_user cfg client email password username
         first_name last_name).2 "error" = VStr code.
Proof.
  intros Hcall. unfold Backend.CognitoService.register_user. rewrite Hcall. reflexivity.
Qed.

Lemma backend_authenticate_error_verbatim email password code msg :
  initiate_auth client (Backend.CognitoService.authenticate_params cfg email password)
    = Raise (ClientError code msg) ->
  get (Backend.CognitoService.authenticate_user cfg client email password).2 "error"
    = VStr code.
Proof.
  intros Hcall. unfold Backend.CognitoService.authenticate_user. rewrite Hcall. reflexivity.
Qed.

Lemma backend_refresh_error_verbatim refresh_token code msg :
  initiate_auth client (Backend.CognitoService.refresh_params cfg refresh_token)
    = Raise (ClientError code msg) ->
  get (Backend.CognitoService.refresh_tokens cfg client refresh_token).2 "error" = VStr code.
Proof.
  intros Hcall. unfold Backend.CognitoService.refresh_tokens. rewrite Hcall. reflexivity.
Qed.

End ErrorSpec.

(** C3 (second generation, at concrete provider errors).  The gateway of
    [backend/app/services/cognito_service.py] surfaces the provider's own
    code: UsernameExistsException from [register_user], the unrecognised
    LimitExceededException from [authenticate_user], NotAuthorizedException
    from [refresh_tokens]; none is a member of the taxonomy.  The gateway of
    [src/services/cognito_service.py] maps the same three errors to
    USER_EXISTS, AUTH_FAILED and INVALID_REFRESH_TOKEN. *)
Theorem backend_gateway_surfaces_provider_code :
  let exists_ := Fixtures.signing_up (Raise (ClientError "UsernameExistsException" "An account with the given email already exists.")) in
  let limit := Fixtures.answering (Raise (ClientError "LimitExceededException" "Attempt limit exceeded")) in
  let denied := Fixtures.answering (Raise (ClientError "NotAuthorizedException" "Refresh Token has expired")) in
  let code_of (r : bool * dict) := get r.2 "error" in
  (code_of (Backend.CognitoService.register_user Fixtures.public exists_
              "bob@example.com" "Valid123!" "bob" None None) = VStr "UsernameExistsException"
   /\ code_of (Backend.CognitoService.authenticate_user Fixtures.public limit
                 "bob@example.com" "Valid123!") = VStr "LimitExceededException"
   /\ code_of (Backend.CognitoService.refresh_tokens Fixtures.public denied "refresh-1")
      = VStr "NotAuthorizedException")
  /\ (Spec.is_code "UsernameExistsException" = false
      /\ Spec.is_code "LimitExceededException" = false
      /\ Spec.is_code "NotAuthorizedException" = false)
  /\ (code_of (Legacy.CognitoService.register_user Fixtures.public exists_
                 "bob@example.com" "Valid123!" "bob" None None) = VStr "USER_EXISTS"
      /\ code_of (Legacy.CognitoService.authenticate_user Fixtures.public limit
                    "bob@example.com" "Valid123!") = VStr "AUTH_FAILED"
      /\ code_of (Legacy.CognitoService.refresh_tokens Fixtures.public denied "refresh-1")
         = VStr "INVALID_REFRESH_TOKEN").
Proof. vm_compute. repeat split. Qed.

(** ** The secret hash *)

Lemma digest_length (h : Crypto.regs) : length (Crypto.digest_of h) = 32%nat.
Proof. reflexivity. Qed.

Lemma sha256_length (m : list byte) : length (Crypto.sha256 m) = 32%nat.
Proof. unfold Crypto.sha256. apply digest_length. Qed.

Lemma hmac_sha256_length (key msg : list byte) : length (Crypto.hmac_sha256 key msg) = 32%nat.
Proof. unfold Crypto.hmac_sha256. apply sha256_length. Qed.

Lemma b64encode_not_empty (bs : list byte) : bs <> [] -> Crypto.b64encode bs <> "".
Proof.
  destruct bs as [|a [|b [|c r]]]; [congruence | | |]; intros _; simpl; discriminate.
Qed.

Lemma secret_hash_not_empty (key msg : list byte) :
  str_truthy (Crypto.b64encode (Crypto.hmac_sha256 key msg)) = true.
Proof.
  unfold str_truthy.
  destruct (String.eqb_spec (Crypto.b64encode (Crypto.hmac_sha256 key msg)) "") as [E|E];
    [|reflexivity].
  exfalso. revert E. apply b64encode_not_empty.
  intros E. pose proof (hmac_sha256_length key msg) as L. rewrite E in L. discriminate.
Qed.

Section SecretHash.

Variable cfg : Config.

Section Configured.

Variable secret : string.
Hypothesis secret_configured : client_secret cfg = Some secret.
Hypothesis secret_not_empty : secret <> "".

Lemma legacy_secret_hash username :
  Legacy.CognitoService._get_secret_hash cfg username
    = Some (Spec.keyed_hash secret (client_id cfg) username).
Proof.
  unfold Legacy.CognitoService._get_secret_hash. rewrite secret_configured.
  unfold str_truthy. destruct (String.eqb_spec secret ""); [contradiction | reflexivity].
Qed.

Lemma backend_secret_hash username :
  Backend.CognitoService._get_secret_hash cfg username
    = Some (Spec.keyed_hash secret (client_id cfg) username).
Proof.
  unfold Backend.CognitoService._get_secret_hash. rewrite secret_configured.
  unfold str_truthy. destruct (String.eqb_spec secret ""); [contradiction | reflexivity].
Qed.

(** [register_user] and [authenticate_user] send the email as the user
    name of the request and attach the hash keyed over that email. *)
Lemma sign_up_attaches_hash email password username first_name last_name :
  let p := Legacy.CognitoService.sign_up_params cfg email password username
             first_name last_name in
  let q := Backend.CognitoService.sign_up_params cfg email password username
             first_name last_name in
  SecretHash p = Some (Spec.keyed_hash secret (client_id cfg) (Username p))
  /\ SecretHash q = Some (Spec.keyed_hash secret (client_id cfg) (Username q)).
Proof.
  split.
  - unfold Legacy.CognitoService.sign_up_params. cbn [SecretHash Username].
    rewrite legacy_secret_hash.
    unfold opt_truthy, Spec.keyed_hash. rewrite secret_hash_not_empty. reflexivity.
  - unfold Backend.CognitoService.sign_up_params. cbn [SecretHash Username].
    rewrite backend_secret_hash.
    unfold opt_truthy, Spec.keyed_hash. rewrite secret_hash_not_empty. reflexivity.
Qed.

Lemma authenticate_attaches_hash email password :
  let p := Legacy.CognitoService.authenticate_params cfg email password in
  let q := Backend.CognitoService.authenticate_params cfg email password in
  AuthParameters p !! "USERNAME" = Some email
  /\ AuthParameters p !! "SECRET_HASH" = Some (Spec.keyed_hash secret (client_id cfg) email)
  /\ AuthParameters q !! "USERNAME" = Some email
  /\ AuthParameters q !! "SECRET_HASH" = Some (Spec.keyed_hash secret (client_id cfg) email).
Proof.
  unfold Legacy.CognitoService.authenticate_params, Backend.CognitoService.authenticate_params.
  cbn [AuthParameters].
  rewrite ?legacy_secret_hash, ?backend_secret_hash.
  unfold Spec.keyed_hash. rewrite !secret_hash_not_empty. repeat split; reflexivity.
Qed.

(** [refresh_tokens] sends no user name; the hash it attaches is keyed
    over the refresh token followed by the client id. *)
Lemma refresh_attaches_hash_of_token refresh_token :
  let p := Legacy.CognitoService.refresh_params cfg refresh_token in
  let q := Backend.CognitoService.refresh_params cfg refresh_token in
  AuthParameters p !! "USERNAME" = None
  /\ AuthParameters p !! "SECRET_HASH" = Some (Spec.keyed_hash secret (client_id cfg) refresh_token)
  /\ AuthParameters q !! "USERNAME" = None
  /\ AuthParameters q !! "SECRET_HASH" = Some (Spec.keyed_hash secret (client_id cfg) refresh_token).
Proof.
  unfold Legacy.CognitoService.refresh_params, Backend.CognitoService.refresh_params.
  cbn [AuthParameters].
  rewrite ?legacy_secret_hash, ?backend_secret_hash, secret_configured.
  rewrite (opt_truthy_Some secret secret_not_empty). repeat split; reflexivity.
Qed.

End Configured.

(** Without a client secret (absent or empty) no request carries a hash. *)
Lemma no_secret_no_hash email password username first_name last_name refresh_token :
  opt_truthy (client_secret cfg) = false ->
  SecretHash (Legacy.CognitoService.sign_up_params cfg email password username
                first_name last_name) = None
  /\ SecretHash (Backend.CognitoService.sign_up_params cfg email password username
                   first_name last_name) = None
  /\ AuthParameters (Legacy.CognitoService.authenticate_params cfg email password)
       !! "SECRET_HASH" = None
  /\ AuthParameters (Backend.CognitoService.authenticate_params cfg email password)
       !! "SECRET_HASH" = None
  /\ AuthParameters (Legacy.CognitoService.refresh_params cfg refresh_token)
       !! "SECRET_HASH" = None
  /\ AuthParameters (Backend.CognitoService.refresh_params cfg refresh_token)
       !! "SECRET_HASH" = None.
Proof.
  intros Hno.
  assert (HL : forall u, Legacy.CognitoService._get_secret_hash cfg u = None).
  { intros u. unfold Legacy.CognitoService._get_secret_hash.
    destruct (client_secret cfg) as [s|]; [|reflexivity].
    simpl in Hno. rewrite Hno. reflexivity. }
  assert (HB : forall u, Backend.CognitoService._get_secret_hash cfg u = None).
  { intros u. unfold Backend.CognitoService._get_secret_hash.
    destruct (client_secret cfg) as [s|]; [|reflexivity].
    simpl in Hno. rewrite Hno. reflexivity. }
  unfold Legacy.CognitoService.sign_up_params, Backend.CognitoService.sign_up_params,
    Legacy.CognitoService.authenticate_params, Backend.CognitoService.authenticate_params,
    Legacy.CognitoService.refresh_params, Backend.CognitoService.refresh_params.
  cbn [SecretHash AuthParameters].
  rewrite ?HL, ?HB, Hno. repeat split; reflexivity.
Qed.

End SecretHash.

(** C4 (refresh, at a concrete request).  With the client secret s3cret
    and the client id client-1, [refresh_tokens] called on the refresh
    token rt-123 sends no user name and attaches the hash keyed over
    "rt-123client-1"; the hash of the user the token belongs to, say
    alice@example.com, which [authenticate_user] attached when she logged
    in, is another value.  Both generations do so. *)
Theorem refresh_secret_hash_is_over_the_refresh_token :
  let legacy := Legacy.CognitoService.refresh_params Fixtures.confidential "rt-123" in
  let backend := Backend.CognitoService.refresh_params Fixtures.confidential "rt-123" in
  let login := Backend.CognitoService.authenticate_params Fixtures.confidential
                 "alice@example.com" "Valid123!" in
  AuthParameters backend !! "SECRET_HASH" = Some "5K/4Nf9fb9ImxucFtdQh4UXvzZE9keJ2sWppmZJR780="
  /\ AuthParameters legacy !! "SECRET_HASH" = Some "5K/4Nf9fb9ImxucFtdQh4UXvzZE9keJ2sWppmZJR780="
  /\ Spec.keyed_hash "s3cret" "client-1" "rt-123" = "5K/4Nf9fb9ImxucFtdQh4UXvzZE9keJ2sWppmZJR780="
  /\ AuthParameters backend !! "USERNAME" = None
  /\ AuthParameters legacy !! "USERNAME" = None
  /\ AuthParameters login !! "SECRET_HASH" = Some "p7ZSovmPSoa0uirqhXxhxd+Fc/hQvbyJ8aL9qNvCcpg="
  /\ Spec.keyed_hash "s3cret" "client-1" "alice@example.com"
     = "p7ZSovmPSoa0uirqhXxhxd+Fc/hQvbyJ8aL9qNvCcpg=".
Proof. vm_compute. repeat split. Qed.

(** ** Lower-casing of emails and user names *)

Lemma lower_c_idempotent (c : ascii) : lower_c (lower_c c) = lower_c c.
Proof. destruct c as [[] [] [] [] [] [] [] []]; reflexivity. Qed.

Lemma lower_idempotent (s : string) : lower (lower s) = lower s.
Proof.
  induction s as [|c r IH]; simpl; [reflexivity|].
  rewrite lower_c_idempotent, IH. reflexivity.
Qed.

Section LegacyDirectory.

Import Legacy.UserRepository.

(** A row [create_user] stores carries the lower-cased email and user
    name. *)
Lemma legacy_create_user_stores_lowercase
    fault new_id now db cognito_id_ email_ username_ first_name_ last_name_ meta :
  let r := create_user fault new_id now db cognito_id_ email_ username_
             first_name_ last_name_ meta in
  r.1 !! "error" = None ->
  exists user,
    r.2 = (db ++ [user])%list
    /\ email user = lower email_ /\ username user = lower username_
    /\ cognito_id user = cognito_id_.
Proof.
  unfold create_user.
  destruct (commit_insert _ _ _) as [db'|e] eqn:Hcommit; cbn.
  - intros _. unfold commit_insert in Hcommit.
    destruct fault; [discriminate|].
    repeat match type of Hcommit with
           | (if ?b then _ else _) = _ => destruct b; [discriminate|]
           end.
    injection Hcommit as <-. eexists. split; [reflexivity|]. repeat split.
  - intros Hnone. exfalso.
    destruct e;
      repeat match type of Hnone with
             | context [if ?b then _ else _] => destruct b
             end;
      vm_compute in Hnone; discriminate.
Qed.

(** Every lookup by email compares the stored email with the lower-cased
    argument. *)
Lemma legacy_lookup_compares_lowercase fault db email_ user :
  get_user_by_email fault db email_ = Some user -> email user = lower email_.
Proof.
  unfold get_user_by_email, first_by_email. destruct fault; [discriminate|].
  intros Hfind. apply find_some in Hfind as [_ Heq].
  apply String.eqb_eq in Heq. exact Heq.
Qed.

Lemma legacy_lookup_ignores_case fault db email_ :
  get_user_by_email fault db (lower email_) = get_user_by_email fault db email_.
Proof. unfold get_user_by_email. rewrite lower_idempotent. reflexivity. Qed.

Lemma legacy_update_last_login_ignores_case fault now db email_ :
  update_last_login fault now db (lower email_) = update_last_login fault now db email_.
Proof. unfold update_last_login. rewrite lower_idempotent. reflexivity. Qed.

(** The login bookkeeping reports success exactly when a row holds the
    lower-cased email. *)
Lemma legacy_update_last_login_found now db email_ :
  (update_last_login None now db email_).1 = true
  <-> exists user, In user db /\ email user = lower email_.
Proof.
  unfold update_last_login, first_by_email.
  destruct (find _ db) as [u|] eqn:Hfind; cbn.
  - split; [intros _ | reflexivity].
    apply find_some in Hfind as [Hin Heq]. apply String.eqb_eq in Heq. eauto.
  - split; [discriminate|]. intros (u & Hin & Heq). exfalso.
    apply (find_none _ _ Hfind) in Hin. rewrite Heq, String.eqb_refl in Hin. discriminate.
Qed.

End LegacyDirectory.

(** The user name of the specification's example passes both validators
    and comes out lower-cased; "bad username!" is refused. *)
Lemma validate_username_examples :
  Legacy.AuthModels.validate_username "Valid_User-1" = Ok "valid_user-1"
  /\ Backend.AuthSchemas.validate_username "Valid_User-1" = Ok "valid_user-1"
  /\ Legacy.AuthModels.validate_username "bad username!" = Raise (ValidationError "username")
  /\ Backend.AuthSchemas.validate_username "bad username!" = Raise (ValidationError "username").
Proof. repeat split. Qed.

(** Registration of "Valid_User-1" stores "valid_user-1", in both
    generations. *)
Lemma registration_stores_lowercase_username :
  let client := Fixtures.signing_up (Ok Fixtures.signed_up) in
  (exists request db,
     Legacy.AuthModels.parse_registration "Val@Example.com" "Valid123!" "Valid_User-1" None None
       = Ok request
     /\ (Legacy.AuthApi.register Fixtures.public client None "uuid-v" 1000 [] request).2 = db
     /\ map Legacy.UserRepository.username db = ["valid_user-1"]
     /\ map Legacy.UserRepository.email db = ["val@example.com"])
  /\ (exists request db,
        Backend.AuthSchemas.parse_registration "Val@Example.com" "Valid123!" "Valid_User-1"
          None None = Ok request
        /\ (Backend.AuthApi.register Fixtures.public client Fixtures.env0 request
              Fixtures.empty_db).2 = db
        /\ map Backend.Models.username (Backend.Session.users db) = ["valid_user-1"]
        /\ map Backend.Models.email (Backend.Session.users db) = ["Val@Example.com"]).
Proof.
  split; eexists _, _; (split; [vm_compute; reflexivity|]); (split; [reflexivity|]);
    vm_compute; split; reflexivity.
Qed.

(** C5 (second generation, at a concrete federated login).  The local
    table holds bob@example.com.  A Google token for Bob@Example.com is
    exchanged: [google_auth] compares the stored email with the email as
    the token spells it, finds no row, and stores a second user with the
    email Bob@Example.com and the user name Bob.  On the same table the
    repository of the first generation finds the row under either
    spelling. *)
Theorem backend_google_auth_compares_email_verbatim :
  let idinfo := {| g_email := Some "Bob@Example.com"; g_given_name := Some "Bob";
                   g_family_name := None; g_sub := Some "google-sub-9" |} in
  let client := Fixtures.answering (Ok (Fixtures.authenticated Fixtures.tokens)) in
  let after :=
    (Backend.AuthApi.google_auth Fixtures.public client (fun _ => Ok idinfo) Fixtures.env0
       {| Backend.AuthSchemas.google_id_token := "google-token" |} Fixtures.bob_db).2 in
  map Backend.Models.email (Backend.Session.users after) = ["bob@example.com"; "Bob@Example.com"]
  /\ map Backend.Models.username (Backend.Session.users after) = ["bob"; "Bob"]
  /\ (Legacy.UserRepository.update_last_login None 1000 [Fixtures.legacy_bob]
        "Bob@Example.com").1 = true.
Proof. vm_compute. repeat split. Qed.

(** ** Onboarding completion *)

Section Onboarding.

Import Backend.Models Backend.Session Backend.Security Backend.Onboarding.
Import Backend.ProfileSchemas (UserProfileUpdateRequest, model_dump_exclude_unset).

(** The attributes of a profile after the loop over the request's
    entries: each one is the merge of the request field into the stored
    value; identity, owner and completion flag are not touched. *)
Lemma setattr_loop request p :
  let p' := fold_left setattr (model_dump_exclude_unset request) p in
  p_id p' = p_id p /\ user_id p' = user_id p
  /\ has_completed_onboarding p' = has_completed_onboarding p
  /\ fitness_level p' = Spec.merge (Backend.ProfileSchemas.fitness_level request) (fitness_level p)
  /\ goals p' = Spec.merge (Backend.ProfileSchemas.goals request) (goals p)
  /\ equipment p' = Spec.merge (Backend.ProfileSchemas.equipment request) (equipment p)
  /\ age p' = Spec.merge (Backend.ProfileSchemas.age request) (age p)
  /\ height_cm p' = Spec.merge (Backend.ProfileSchemas.height_cm request) (height_cm p)
  /\ weight_kg p' = Spec.merge (Backend.ProfileSchemas.weight_kg request) (weight_kg p)
  /\ preferred_workout_time p'
     = Spec.merge (Backend.ProfileSchemas.preferred_workout_time request)
         (preferred_workout_time p)
  /\ injury_notes p' = Spec.merge (Backend.ProfileSchemas.injury_notes request) (injury_notes p).
Proof.
  destruct request as [f1 f2 f3 f4 f5 f6 f7 f8].
  destruct f1, f2, f3, f4, f5, f6, f7, f8; cbn; repeat split.
Qed.

Lemma dbm_bind_ok {A B} (m : DbM A) (f : A -> DbM B) db a db' :
  m db = (Ok a, db') -> (m ≫= f) db = f a db'.
Proof. intros H. unfold mbind, DbM_bind. rewrite H. reflexivity. Qed.

Lemma roundtrip_ok env n db : fault env n = None -> roundtrip env n db = (Ok (), db).
Proof. intros H. unfold roundtrip. rewrite H. reflexivity. Qed.

Lemma scalar_one_inv {A} (rows : list A) (r : A) :
  scalar_one_or_none rows = Ok (Some r) -> rows = [r].
Proof.
  destruct rows as [|x [|y rest]]; cbn; [discriminate | | discriminate].
  intros [= ->]. reflexivity.
Qed.

(** Rewriting the row of a profile: afterwards the owner's profile is the
    rewritten one. *)
Lemma profile_of_after_update (ps : list UserProfile) (u : User) (p0 p : UserProfile) :
  find (fun q => String.eqb (user_id q) (id u)) ps = Some p0 ->
  p_id p = p_id p0 -> user_id p = id u ->
  find (fun q => String.eqb (user_id q) (id u))
       (map (fun q => if String.eqb (p_id q) (p_id p) then p else q) ps) = Some p.
Proof.
  intros Hfind Hid Howner.
  induction ps as [|q ps IH]; cbn in *; [discriminate|].
  destruct (String.eqb (p_id q) (p_id p)) eqn:Hq.
  - rewrite Howner, String.eqb_refl. reflexivity.
  - destruct (String.eqb (user_id q) (id u)) eqn:Hu.
    + injection Hfind as ->. rewrite Hid, String.eqb_refl in Hq. discriminate.
    + apply IH. exact Hfind.
Qed.

Lemma find_app_none {A} (f : A -> bool) (l1 l2 : list A) :
  find f l1 = None -> find f (l1 ++ l2) = find f l2.
Proof.
  induction l1 as [|x l1 IH]; cbn; [reflexivity|].
  destruct (f x); [discriminate | exact IH].
Qed.

Lemma commit_profile_update_ok env n p db :
  fault env n = None ->
  commit_profile_update env n p db =
    (Ok (), {| users := users db;
               profiles := map (fun q => if String.eqb (p_id q) (p_id p) then p else q)
                               (profiles db) |}).
Proof.
  intros H. unfold commit_profile_update.
  rewrite (dbm_bind_ok _ _ db () db (roundtrip_ok env n db H)). reflexivity.
Qed.

Lemma commit_profile_ok env n p db :
  fault env n = None ->
  (forall q, In q (profiles db) -> p_id q <> p_id p /\ user_id q <> user_id p) ->
  (exists u, In u (users db) /\ id u = user_id p) ->
  commit_profile env n p db =
    (Ok (), {| users := users db; profiles := (profiles db ++ [p])%list |}).
Proof.
  intros H Hfresh (u & Hu & Hid). unfold commit_profile.
  rewrite (dbm_bind_ok _ _ db () db (roundtrip_ok env n db H)).
  unfold mbind, DbM_bind, get_db.
  destruct (existsb _ (profiles db)) eqn:E1.
  - exfalso. apply existsb_exists in E1 as (q & Hq & Hor).
    destruct (Hfresh q Hq) as [N1 N2].
    apply orb_prop in Hor as [Heq|Heq]; apply String.eqb_eq in Heq; contradiction.
  - destruct (existsb _ (users db)) eqn:E2; [reflexivity|].
    exfalso. assert (E : existsb (fun u0 => String.eqb (id u0) (user_id p)) (users db) = true).
    { apply existsb_exists. exists u. split; [exact Hu|]. apply String.eqb_eq. exact Hid. }
    rewrite E in E2. discriminate.
Qed.

Lemma set_completed_loop request p :
  let p' := set_completed (fold_left setattr (model_dump_exclude_unset request) p) in
  p_id p' = p_id p /\ user_id p' = user_id p.
Proof.
  destruct (setattr_loop request p) as (H1 & H2 & _). cbn. split; assumption.
Qed.

Section Run.

Variable env : Env.
Variable db : Db.
Variable current_user : CurrentUser.
Variable user : User.
Variable request : UserProfileUpdateRequest.

Hypothesis database_answers : forall n, fault env n = None.
Hypothesis subject_matches :
  select_user_by_cognito_id env 0 (cu_sub current_user) db = (Ok (Some user), db).
Hypothesis fresh_uuid :
  profile_of db user = None ->
  forall p, In p (profiles db) -> p_id p <> profile_uuid env.

Lemma user_in_table : In user (users db).
Proof.
  pose proof subject_matches as H.
  unfold select_user_by_cognito_id in H.
  rewrite (dbm_bind_ok _ _ db () db (roundtrip_ok env 0 db (database_answers 0%nat))) in H.
  unfold mbind, DbM_bind, get_db, lift in H. injection H as H.
  apply scalar_one_inv in H.
  assert (Hin : In user (List.filter (fun u => match cu_sub current_user with
                                           | Some c' => String.eqb (cognito_id u) c'
                                           | None => false
                                           end) (users db))).
  { rewrite H. left. reflexivity. }
  apply filter_In in Hin. tauto.
Qed.

Lemma complete_onboarding_runs :
  exists db',
    complete_onboarding env request current_user db
      = (Ok (response_of user
               (set_completed
                  (fold_left setattr (model_dump_exclude_unset request)
                     (Spec.profile_before env db user)))), db')
    /\ users db' = users db
    /\ profile_of db' user
       = Some (set_completed
                 (fold_left setattr (model_dump_exclude_unset request)
                    (Spec.profile_before env db user))).
Proof.
  set (stored_profile := Spec.profile_before env db user).
  set (final_profile :=
         set_completed (fold_left setattr (model_dump_exclude_unset request) stored_profile)).
  unfold complete_onboarding.
  rewrite (dbm_bind_ok _ _ db (Some user) db subject_matches).
  rewrite (dbm_bind_ok get_db _ db db db eq_refl).
  pose proof (set_completed_loop request stored_profile) as [Hid Howner].
  fold final_profile in Hid, Howner.
  destruct (profile_of db user) as [p0|] eqn:Hp.
  - assert (Hstored : stored_profile = p0) by (unfold stored_profile, Spec.profile_before; rewrite Hp; reflexivity).
    rewrite (dbm_bind_ok (mret p0) _ db p0 db eq_refl).
    rewrite <- Hstored. fold final_profile.
    rewrite (dbm_bind_ok _ _ _ _ _ (commit_profile_update_ok env 3 final_profile db
                                      (database_answers 3%nat))).
    rewrite (dbm_bind_ok _ _ _ _ _ (roundtrip_ok env 4 _ (database_answers 4%nat))).
    eexists. split; [reflexivity|]. split; [reflexivity|].
    unfold profile_of in *. cbn [profiles].
    apply (profile_of_after_update _ _ p0); [exact Hp | rewrite Hid, Hstored; reflexivity |].
    rewrite Howner, Hstored. apply find_some in Hp as [_ Hp].
    apply String.eqb_eq in Hp. exact Hp.
  - assert (Hstored : stored_profile = new_UserProfile (profile_uuid env) (id user))
      by (unfold stored_profile, Spec.profile_before; rewrite Hp; reflexivity).
    set (created := new_UserProfile (profile_uuid env) (id user)) in *.
    assert (Hcommit : commit_profile env 1 created db =
              (Ok (), {| users := users db; profiles := (profiles db ++ [created])%list |})).
    { apply commit_profile_ok; [apply database_answers | | ].
      - intros q Hq. split; [exact (fresh_uuid eq_refl q Hq)|].
        unfold profile_of in Hp. apply (find_none _ _ Hp) in Hq.
        intros E. cbn in E. rewrite E, String.eqb_refl in Hq. discriminate.
      - exists user. split; [apply user_in_table | reflexivity]. }
    rewrite (dbm_bind_ok _ _ db created _
               (eq_trans (dbm_bind_ok _ _ _ _ _ Hcommit)
                  (eq_trans (dbm_bind_ok _ _ _ _ _
                               (roundtrip_ok env 2 _ (database_answers 2%nat))) eq_refl))).
    rewrite <- Hstored. fold final_profile.
    rewrite (dbm_bind_ok _ _ _ _ _ (commit_profile_update_ok env 3 final_profile _
                                      (database_answers 3%nat))).
    rewrite (dbm_bind_ok _ _ _ _ _ (roundtrip_ok env 4 _ (database_answers 4%nat))).
    eexists. split; [reflexivity|]. split; [reflexivity|].
    unfold profile_of in *. cbn [profiles].
    apply (profile_of_after_update _ _ created).
    + rewrite (find_app_none _ _ _ Hp), ?Hstored. unfold created. cbn.
      rewrite String.eqb_refl. reflexivity.
    + rewrite Hid, Hstored. reflexivity.
    + rewrite Howner, Hstored. reflexivity.
Qed.

End Run.

Lemma select_user_reads_users env n c db1 db2 r :
  users db1 = users db2 ->
  select_user_by_cognito_id env n c db1 = (r, db1) ->
  select_user_by_cognito_id env n c db2 = (r, db2).
Proof.
  intros Husers. unfold select_user_by_cognito_id, roundtrip.
  destruct (fault env n); unfold mbind, mret, DbM_bind, DbM_ret, raise, get_db, lift.
  - intros [= <-]. reflexivity.
  - rewrite Husers. intros [= <-]. reflexivity.
Qed.

(** C6.  A call of the onboarding route whose bearer token verifies and
    whose subject selects a local user, with the database answering and a
    fresh identifier at hand, succeeds; the profile it leaves is the
    partial update of the profile it started from (the stored one, or a
    blank one created for a user who had none): a field of the request
    that is present is written, an absent one keeps its value; the
    completion flag is true; the profile is stored.  Hence two calls with
    only the age 25 leave goals and equipment as they were, the age 25 and
    the flag true. *)
Theorem onboarding_partial_update client token env db current_user user request :
  get_current_user client token = Ok current_user ->
  (forall n, fault env n = None) ->
  select_user_by_cognito_id env 0 (cu_sub current_user) db = (Ok (Some user), db) ->
  (profile_of db user = None ->
   forall p, In p (profiles db) -> p_id p <> profile_uuid env) ->
  (exists after db',
     put_onboarding client env token request db = (Ok (response_of user after), db')
     /\ users db' = users db
     /\ profile_of db' user = Some after
     /\ Spec.partial_update request (Spec.profile_before env db user) after
     /\ has_completed_onboarding after = true)
  /\ (forall env2, (forall n, fault env2 n = None) ->
      exists first db1 second db2,
        put_onboarding client env token Fixtures.age_25 db
          = (Ok (response_of user first), db1)
        /\ put_onboarding client env2 token Fixtures.age_25 db1
           = (Ok (response_of user second), db2)
        /\ profile_of db2 user = Some second
        /\ goals second = goals (Spec.profile_before env db user)
        /\ equipment second = equipment (Spec.profile_before env db user)
        /\ age second = Some 25
        /\ has_completed_onboarding second = true).
Proof.
  intros Hverified Hdb Huser Hfresh. unfold put_onboarding. rewrite Hverified. split.
  - destruct (complete_onboarding_runs env db current_user user request Hdb Huser Hfresh)
      as (db' & Hrun & Husers & Hstored).
    eexists _, db'. split; [exact Hrun|]. split; [exact Husers|]. split; [exact Hstored|].
    destruct (setattr_loop request (Spec.profile_before env db user))
      as (_ & _ & _ & H1 & H2 & H3 & H4 & H5 & H6 & H7 & H8).
    split; [|reflexivity].
    unfold Spec.partial_update. cbn. repeat split; assumption.
  - intros env2 Hdb2.
    destruct (complete_onboarding_runs env db current_user user Fixtures.age_25
                Hdb Huser Hfresh) as (db1 & Hrun1 & Husers1 & Hstored1).
    assert (Huser1 : select_user_by_cognito_id env2 0 (cu_sub current_user) db1
                     = (Ok (Some user), db1)).
    { apply (select_user_reads_users env2 0%nat _ db db1); [symmetry; exact Husers1|].
      unfold select_user_by_cognito_id, roundtrip in *.
      rewrite Hdb in Huser. rewrite Hdb2. exact Huser. }
    assert (Hfresh1 : profile_of db1 user = None ->
                      forall p, In p (profiles db1) -> p_id p <> profile_uuid env2).
    { rewrite Hstored1. discriminate. }
    destruct (complete_onboarding_runs env2 db1 current_user user Fixtures.age_25
                Hdb2 Huser1 Hfresh1) as (db2 & Hrun2 & Husers2 & Hstored2).
    eexists _, db1, _, db2. split; [exact Hrun1|]. split; [exact Hrun2|].
    split; [exact Hstored2|].
    unfold Spec.profile_before at 1 2 3 4. rewrite Hstored1. cbn. repeat split.
Qed.

End Onboarding.

Lemma onboarding_partial_update_witness :
  exists after db',
    Backend.Onboarding.put_onboarding Fixtures.bob_provider Fixtures.env0 "bob-token"
      Fixtures.age_25 Fixtures.bob_with_profile_db
      = (Ok (Backend.Onboarding.response_of Fixtures.bob after), db')
    /\ Backend.Models.goals after = Some ["strength"; "mobility"]
    /\ Backend.Models.equipment after = Some ["kettlebell"]
    /\ Backend.Models.age after = Some 25
    /\ Backend.Models.has_completed_onboarding after = true.
Proof.
  destruct (onboarding_partial_update Fixtures.bob_provider "bob-token" Fixtures.env0
              Fixtures.bob_with_profile_db Fixtures.bob_token Fixtures.bob Fixtures.age_25)
    as [(after & db' & Hrun & _ & _ & Hupd & Hflag) _].
  - vm_compute. reflexivity.
  - reflexivity.
  - reflexivity.
  - discriminate.
  - exists after, db'. split; [exact Hrun|].
    destruct Hupd as (_ & Hg & He & Ha & _).
    repeat split; assumption.
Defined.

(** ** Token refresh *)

Section Refresh.

Variable cfg : Config.
Variable client : Provider.client.
Variable refresh_token : string.

Lemma legacy_refresh_inv now bundle :
  Legacy.AuthApi.refresh_token cfg client now
    {| Legacy.AuthModels.req_refresh_token := refresh_token |} = Ok bundle ->
  Legacy.AuthModels.refresh_token bundle = refresh_token
  /\ Spec.provider_refreshed client (Legacy.CognitoService.refresh_params cfg refresh_token)
       (Legacy.AuthModels.access_token bundle) (Legacy.AuthModels.id_token bundle)
       (Legacy.AuthModels.expires_in bundle) (Legacy.AuthModels.token_type bundle).
Proof.
  unfold Legacy.AuthApi.refresh_token, Legacy.CognitoService.refresh_tokens,
    Spec.provider_refreshed.
  cbn [Legacy.AuthModels.req_refresh_token].
  destruct (initiate_auth client _) as [response|e]; cbn [mbind Py.result_bind].
  - destruct (AuthenticationResult response) as [[[access|] [idt|] rt [expires|] [ttype|]]|] eqn:Hres;
      cbn [item mbind Py.result_bind mret Py.result_ret
           AccessToken IdToken ExpiresIn TokenType];
      try (intros H; vm_compute in H; discriminate).
    intros H. vm_compute in H. injection H as <-.
    split; [reflexivity|]. eexists _, _. split; [reflexivity|]. split; [exact Hres|].
    repeat split.
  - destruct e; try (intros H; vm_compute in H; discriminate).
    destruct (String.eqb code "NotAuthorizedException");
      intros H; vm_compute in H; discriminate.
Qed.

Lemma legacy_refresh_succeeds now access idt expires ttype :
  Spec.provider_refreshed client (Legacy.CognitoService.refresh_params cfg refresh_token)
    access idt expires ttype ->
  Legacy.AuthApi.refresh_token cfg client now
    {| Legacy.AuthModels.req_refresh_token := refresh_token |}
  = Ok {| Legacy.AuthModels.access_token := access; Legacy.AuthModels.id_token := idt;
          Legacy.AuthModels.refresh_token := refresh_token;
          Legacy.AuthModels.expires_in := expires; Legacy.AuthModels.token_type := ttype |}.
Proof.
  intros (response & a & Hcall & Hres & Ha & Hi & He & Ht).
  unfold Legacy.AuthApi.refresh_token, Legacy.CognitoService.refresh_tokens.
  cbn [Legacy.AuthModels.req_refresh_token].
  rewrite Hcall. cbn [mbind Py.result_bind]. rewrite Hres. cbn [item mbind Py.result_bind].
  rewrite Ha, Hi, He, Ht. reflexivity.
Qed.

Lemma backend_refresh_inv bundle :
  Backend.AuthApi.refresh_token cfg client
    {| Backend.AuthSchemas.req_refresh_token := refresh_token |} = Ok bundle ->
  Backend.AuthSchemas.refresh_token bundle = refresh_token
  /\ Spec.provider_refreshed client (Backend.CognitoService.refresh_params cfg refresh_token)
       (Backend.AuthSchemas.access_token bundle) (Backend.AuthSchemas.id_token bundle)
       (Backend.AuthSchemas.expires_in bundle) (Backend.AuthSchemas.token_type bundle).
Proof.
  unfold Backend.AuthApi.refresh_token, Backend.CognitoService.refresh_tokens,
    Spec.provider_refreshed.
  cbn [Backend.AuthSchemas.req_refresh_token].
  destruct (initiate_auth client _) as [response|e]; cbn [mbind Py.result_bind].
  - destruct (AuthenticationResult response)
      as [[[access|] [idt|] rt [expires|] [ttype|]]|] eqn:Hres;
      cbn [item mbind Py.result_bind mret Py.result_ret
           AccessToken IdToken ExpiresIn TokenType];
      try (intros H; vm_compute in H; discriminate).
    intros H. vm_compute in H. injection H as <-.
    split; [reflexivity|]. eexists _, _. split; [reflexivity|]. split; [exact Hres|].
    repeat split.
  - destruct e; intros H; vm_compute in H; discriminate.
Qed.

Lemma backend_refresh_succeeds access idt expires ttype :
  Spec.provider_refreshed client (Backend.CognitoService.refresh_params cfg refresh_token)
    access idt expires ttype ->
  Backend.AuthApi.refresh_token cfg client
    {| Backend.AuthSchemas.req_refresh_token := refresh_token |}
  = Ok {| Backend.AuthSchemas.access_token := access; Backend.AuthSchemas.id_token := idt;
          Backend.AuthSchemas.refresh_token := refresh_token;
          Backend.AuthSchemas.expires_in := expires; Backend.AuthSchemas.token_type := ttype |}.
Proof.
  intros (response & a & Hcall & Hres & Ha & Hi & He & Ht).
  unfold Backend.AuthApi.refresh_token, Backend.CognitoService.refresh_tokens.
  cbn [Backend.AuthSchemas.req_refresh_token].
  rewrite Hcall. cbn [mbind Py.result_bind]. rewrite Hres. cbn [item mbind Py.result_bind].
  rewrite Ha, Hi, He, Ht. reflexivity.
Qed.

(** C7.  Whenever the refresh handler returns a token bundle, the
    refresh token in it is the one the request carried, and the access
    token, the id token, the expiry and the token type are those of the
    provider's answer; and the handler does return the bundle whenever
    the provider answers with these four fields.  In both generations. *)
Theorem refresh_returns_the_input_refresh_token now :
  (forall bundle,
     Legacy.AuthApi.refresh_token cfg client now
       {| Legacy.AuthModels.req_refresh_token := refresh_token |} = Ok bundle
     <-> Legacy.AuthModels.refresh_token bundle = refresh_token
         /\ Spec.provider_refreshed client
              (Legacy.CognitoService.refresh_params cfg refresh_token)
              (Legacy.AuthModels.access_token bundle) (Legacy.AuthModels.id_token bundle)
              (Legacy.AuthModels.expires_in bundle) (Legacy.AuthModels.token_type bundle))
  /\ (forall bundle,
        Backend.AuthApi.refresh_token cfg client
          {| Backend.AuthSchemas.req_refresh_token := refresh_token |} = Ok bundle
        <-> Backend.AuthSchemas.refresh_token bundle = refresh_token
            /\ Spec.provider_refreshed client
                 (Backend.CognitoService.refresh_params cfg refresh_token)
                 (Backend.AuthSchemas.access_token bundle)
                 (Backend.AuthSchemas.id_token bundle)
                 (Backend.AuthSchemas.expires_in bundle)
                 (Backend.AuthSchemas.token_type bundle)).
Proof.
  split; intros bundle; split.
  - apply legacy_refresh_inv.
  - intros [Hrt Hprov]. rewrite (legacy_refresh_succeeds now _ _ _ _ Hprov).
    destruct bundle; cbn in *. subst. reflexivity.
  - apply backend_refresh_inv.
  - intros [Hrt Hprov]. rewrite (backend_refresh_succeeds _ _ _ _ Hprov).
    destruct bundle; cbn in *. subst. reflexivity.
Qed.

End Refresh.

Lemma refresh_returns_the_input_refresh_token_witness :
  let client := Fixtures.answering (Ok (Fixtures.authenticated Fixtures.refreshed)) in
  exists bundle,
    Backend.AuthApi.refresh_token Fixtures.confidential client
      {| Backend.AuthSchemas.req_refresh_token := "refresh-1" |} = Ok bundle
    /\ Backend.AuthSchemas.refresh_token bundle = "refresh-1"
    /\ Backend.AuthSchemas.access_token bundle = "access-2".
Proof.
  intros client.
  exists {| Backend.AuthSchemas.access_token := "access-2";
            Backend.AuthSchemas.id_token := "id-2";
            Backend.AuthSchemas.refresh_token := "refresh-1";
            Backend.AuthSchemas.expires_in := 3600;
            Backend.AuthSchemas.token_type := "Bearer" |}.
  split; [|split; reflexivity].
  apply (proj2 (refresh_returns_the_input_refresh_token Fixtures.confidential client
                  "refresh-1" 0)).
  split; [reflexivity|].
  exists (Fixtures.authenticated Fixtures.refreshed), Fixtures.refreshed.
  repeat split.
Defined.

(** ** Login and the last-login bookkeeping *)

Section LoginBookkeeping.

Variable cfg : Config.
Variable client : Provider.client.
Variables access idt refresh ttype : string.
Variable expires : Z.

(** First generation: once the provider has authenticated the
    credentials the handler returns the token bundle; a database failure
    during [update_last_login], or the absence of a row for the email,
    changes neither the response nor the table. *)
Lemma legacy_login_returns_tokens fault now db request :
  Spec.provider_authenticated client
    (Legacy.CognitoService.authenticate_params cfg
       (Legacy.AuthModels.login_email request) (Legacy.AuthModels.login_password request))
    access idt refresh expires ttype ->
  (Legacy.AuthApi.login cfg client fault now db request).1 =
    Ok (Legacy.AuthApi.Model
          {| Legacy.AuthModels.access_token := access; Legacy.AuthModels.id_token := idt;
             Legacy.AuthModels.refresh_token := refresh;
             Legacy.AuthModels.expires_in := expires;
             Legacy.AuthModels.token_type := ttype |}).
Proof.
  intros (response & Hcall & Hno & Hres).
  unfold Legacy.AuthApi.login, Legacy.CognitoService.authenticate_user.
  rewrite Hcall. cbn [mbind Py.result_bind]. rewrite Hno, Hres.
  cbn [item mbind Py.result_bind mret Py.result_ret negb
       Legacy.CognitoService.token_dict AccessToken IdToken RefreshToken ExpiresIn TokenType].
  destruct (Legacy.UserRepository.update_last_login _ _ _ _) as [updated db'].
  reflexivity.
Qed.

Lemma legacy_update_last_login_failure_keeps_table fault now db email_ :
  (Legacy.UserRepository.update_last_login fault now db email_).1 = false ->
  (Legacy.UserRepository.update_last_login fault now db email_).2 = db.
Proof.
  unfold Legacy.UserRepository.update_last_login.
  destruct fault; [reflexivity|].
  destruct (Legacy.UserRepository.first_by_email _ _); [discriminate | reflexivity].
Qed.

(** Second generation: when the table holds a row for the email, the
    handler evaluates [datetime.utcnow()], a name the module does not
    import, and answers 500. *)
Lemma backend_login_known_user_is_500 env db request user :
  Spec.provider_authenticated client
    (Backend.CognitoService.authenticate_params cfg
       (Backend.AuthSchemas.login_email request) (Backend.AuthSchemas.login_password request))
    access idt refresh expires ttype ->
  Backend.Session.select_user_by_email env 0 (Backend.AuthSchemas.login_email request) db
    = (Ok (Some user), db) ->
  Backend.AuthApi.login cfg client env request db =
    (Raise (HTTPException HTTP_500_INTERNAL_SERVER_ERROR
              (DetailStr "An error occurred during login") []), db).
Proof.
  intros (response & Hcall & Hno & Hres) Hselect.
  unfold Backend.AuthApi.login, Backend.CognitoService.authenticate_user.
  rewrite Hcall. cbn [mbind Py.result_bind]. rewrite Hno, Hres.
  cbn [item mbind Py.result_bind mret Py.result_ret negb
       Backend.CognitoService.token_dict AccessToken IdToken RefreshToken ExpiresIn TokenType].
  unfold Backend.AuthApi.guard, Backend.Session.catch.
  rewrite (dbm_bind_ok _ _ db (Some user) db Hselect).
  reflexivity.
Qed.

(** Second generation: a failure of the select is answered 500 too. *)
Lemma backend_login_database_failure_is_500 env db request msg :
  Spec.provider_authenticated client
    (Backend.CognitoService.authenticate_params cfg
       (Backend.AuthSchemas.login_email request) (Backend.AuthSchemas.login_password request))
    access idt refresh expires ttype ->
  Backend.Session.fault env 0%nat = Some msg ->
  Backend.AuthApi.login cfg client env request db =
    (Raise (HTTPException HTTP_500_INTERNAL_SERVER_ERROR
              (DetailStr "An error occurred during login") []), db).
Proof.
  intros (response & Hcall & Hno & Hres) Hfault.
  unfold Backend.AuthApi.login, Backend.CognitoService.authenticate_user.
  rewrite Hcall. cbn [mbind Py.result_bind]. rewrite Hno, Hres.
  cbn [item mbind Py.result_bind mret Py.result_ret negb
       Backend.CognitoService.token_dict AccessToken IdToken RefreshToken ExpiresIn TokenType].
  unfold Backend.Session.select_user_by_email. run_dbm. rewrite Hfault. reflexivity.
Qed.

End LoginBookkeeping.

(** C8 (second generation, at a concrete login).  The provider
    authenticates bob@example.com and the local table holds his row: the
    handler of [backend/app/api/v1/auth.py] answers 500 "An error occurred
    during login" and [last_login] stays unset; the name [datetime] is not
    bound in that module.  With no row for the email the same handler
    returns the bundle, and the handler of [src/api/auth.py] returns it in
    both situations and when the database fails. *)
Theorem backend_login_known_user_fails :
  let request := {| Backend.AuthSchemas.login_email := "bob@example.com";
                    Backend.AuthSchemas.login_password := "Valid123!" |} in
  let legacy_request := {| Legacy.AuthModels.login_email := "bob@example.com";
                           Legacy.AuthModels.login_password := "Valid123!" |} in
  let client := Fixtures.answering (Ok (Fixtures.authenticated Fixtures.tokens)) in
  Backend.AuthApi.global "datetime" = Raise (NameError "datetime")
  /\ Backend.AuthApi.login Fixtures.public client Fixtures.env0 request Fixtures.bob_db
     = (Raise (HTTPException 500 (DetailStr "An error occurred during login") []),
        Fixtures.bob_db)
  /\ Backend.AuthApi.status_of
       (Backend.AuthApi.login Fixtures.public client Fixtures.env0 request Fixtures.empty_db).1
     = 200
  /\ Legacy.AuthApi.status_of 200
       (Legacy.AuthApi.login Fixtures.public client None 1000 [Fixtures.legacy_bob]
          legacy_request).1 = 200
  /\ Legacy.AuthApi.status_of 200
       (Legacy.AuthApi.login Fixtures.public client None 1000 [] legacy_request).1 = 200
  /\ Legacy.AuthApi.status_of 200
       (Legacy.AuthApi.login Fixtures.public client (Some "connection refused") 1000
          [Fixtures.legacy_bob] legacy_request).1 = 200.
Proof. vm_compute. repeat split. Qed.

(** ** Token verification on the onboarding route *)

Section TokenVerifier.

Import Backend.Security Backend.Session Backend.Onboarding.

(** Whatever the provider's introspection raises, verification raises. *)
Lemma verify_token_fails_with_provider client token e :
  get_user client token = Raise e -> exists e', verify_token client token = Raise e'.
Proof.
  intros H. unfold verify_token. rewrite H. cbn.
  destruct e; eexists; reflexivity.
Qed.

Lemma get_current_user_rejects client token e :
  verify_token client token = Raise e ->
  get_current_user client token = Raise Spec.unauthenticated.
Proof. intros H. unfold get_current_user. rewrite H. reflexivity. Qed.

Lemma bearer_credential refusal authorization token :
  HTTPBearer refusal authorization = Ok token ->
  token <> "" /\ after_char " " <$> authorization = Some token.
Proof.
  unfold HTTPBearer, get_authorization_scheme_param.
  destruct authorization as [v|]; [|discriminate]. cbn [opt_truthy].
  destruct (str_truthy v) eqn:Hv; [|discriminate].
  destruct (str_truthy (before_char " " v)); [|discriminate].
  destruct (str_truthy (after_char " " v)) eqn:Hc; [|discriminate]. cbn [andb negb].
  destruct (String.eqb (lower (before_char " " v)) "bearer"); [|discriminate].
  cbn [negb]. intros [= <-]. split; [|reflexivity].
  intros E. rewrite E in Hc. discriminate.
Qed.

(** C9, amended.  Two requests to the onboarding route that carry a
    bearer credential whose verification fails, for whatever reasons, on
    whatever provider, request body and store, are rejected with one and
    the same outcome: 401 "Could not validate credentials" with the header
    WWW-Authenticate: Bearer; the error verification raised does not
    appear in it, and the store is not touched.  (A request without a
    bearer credential is not verified: the bearer scheme refuses it
    before, with another outcome.) *)
Theorem onboarding_rejection_is_uniform
    refusal client1 client2 authorization1 authorization2 token1 token2
    env1 env2 request1 request2 db1 db2 e1 e2 :
  HTTPBearer refusal authorization1 = Ok token1 ->
  HTTPBearer refusal authorization2 = Ok token2 ->
  verify_token client1 token1 = Raise e1 ->
  verify_token client2 token2 = Raise e2 ->
  onboarding_route refusal client1 env1 authorization1 request1 db1
  = (Raise Spec.unauthenticated, db1)
  /\ onboarding_route refusal client2 env2 authorization2 request2 db2
     = (Raise Spec.unauthenticated, db2)
  /\ (onboarding_route refusal client1 env1 authorization1 request1 db1).1
     = (onboarding_route refusal client2 env2 authorization2 request2 db2).1
  /\ put_onboarding client1 env1 token1 request1 db1 = (Raise Spec.unauthenticated, db1)
  /\ put_onboarding client2 env2 token2 request2 db2 = (Raise Spec.unauthenticated, db2).
Proof.
  intros Hb1 Hb2 H1 H2. unfold onboarding_route. rewrite Hb1, Hb2.
  unfold put_onboarding.
  rewrite (get_current_user_rejects _ _ _ H1), (get_current_user_rejects _ _ _ H2).
  repeat split.
Qed.

Lemma filter_none {A} (f : A -> bool) (l : list A) :
  (forall x, In x l -> f x = false) -> List.filter f l = [].
Proof.
  induction l as [|x l IH]; intros H; cbn; [reflexivity|].
  rewrite (H x (or_introl eq_refl)). apply IH. intros y Hy. apply H. right. exact Hy.
Qed.

(** C10.  A token that verifies, with a subject no local user carries as
    [cognito_id]: the route answers 404 "User not found" and the store is
    as it was; no user and no profile is created.  (The select must
    reach the database.) *)
Theorem onboarding_unknown_subject_is_404 client env token request current_user db :
  get_current_user client token = Ok current_user ->
  fault env 0%nat = None ->
  (forall u, In u (users db) -> cu_sub current_user <> Some (Backend.Models.cognito_id u)) ->
  put_onboarding client env token request db =
    (Raise (HTTPException HTTP_404_NOT_FOUND (DetailStr "User not found") []), db).
Proof.
  intros Hverified Hfault Hunknown. unfold put_onboarding. rewrite Hverified.
  unfold complete_onboarding, select_user_by_cognito_id.
  rewrite (dbm_bind_ok _ _ db None db); [reflexivity|].
  rewrite (dbm_bind_ok _ _ db () db (roundtrip_ok env 0 db Hfault)).
  unfold mbind, DbM_bind, get_db, lift.
  rewrite filter_none; [reflexivity|].
  intros u Hu. specialize (Hunknown u Hu).
  destruct (cu_sub current_user) as [c|]; [|reflexivity].
  destruct (String.eqb_spec (Backend.Models.cognito_id u) c); [|reflexivity].
  subst. contradiction.
Qed.

End TokenVerifier.

Lemma onboarding_rejection_is_uniform_witness :
  (Backend.Onboarding.onboarding_route Fixtures.forbidding Fixtures.expired Fixtures.env0
     (Some "Bearer expired-token") Fixtures.age_25 Fixtures.bob_db).1
  = (Backend.Onboarding.onboarding_route Fixtures.forbidding Fixtures.malformed Fixtures.env0
       (Some "bearer x") Fixtures.measurements Fixtures.empty_db).1.
Proof.
  apply (onboarding_rejection_is_uniform Fixtures.forbidding Fixtures.expired
           Fixtures.malformed (Some "Bearer expired-token") (Some "bearer x")
           "expired-token" "x"
           Fixtures.env0 Fixtures.env0 Fixtures.age_25 Fixtures.measurements
           Fixtures.bob_db Fixtures.empty_db
           (HTTPException 401 (DetailStr "Invalid authentication credentials") [])
           (OtherError "Parameter validation failed: Invalid length")); reflexivity.
Defined.

(** C9, as stated, fails on a missing token.  A request without an
    [Authorization] header, or with an empty credential, is refused by the
    bearer scheme with "Not authenticated", under either way releases of
    the framework refuse; a request whose token has expired is refused
    with "Could not validate credentials".  The two outcomes differ. *)
Lemma onboarding_missing_token_is_refused_differently :
  (Backend.Onboarding.onboarding_route Fixtures.forbidding Fixtures.expired Fixtures.env0
     None Fixtures.age_25 Fixtures.bob_db).1
  = Raise (HTTPException 403 (DetailStr "Not authenticated") [])
  /\ (Backend.Onboarding.onboarding_route Fixtures.challenging Fixtures.expired Fixtures.env0
        None Fixtures.age_25 Fixtures.bob_db).1
     = Raise (HTTPException 401 (DetailStr "Not authenticated") [("WWW-Authenticate", "Bearer")])
  /\ (Backend.Onboarding.onboarding_route Fixtures.challenging Fixtures.expired Fixtures.env0
        (Some "Bearer ") Fixtures.age_25 Fixtures.bob_db).1
     = Raise (HTTPException 401 (DetailStr "Not authenticated") [("WWW-Authenticate", "Bearer")])
  /\ (Backend.Onboarding.onboarding_route Fixtures.forbidding Fixtures.expired Fixtures.env0
        (Some "Bearer expired-token") Fixtures.age_25 Fixtures.bob_db).1
     = Raise Spec.unauthenticated
  /\ (Backend.Onboarding.onboarding_route Fixtures.forbidding Fixtures.expired Fixtures.env0
        None Fixtures.age_25 Fixtures.bob_db).1
     <> (Backend.Onboarding.onboarding_route Fixtures.forbidding Fixtures.expired Fixtures.env0
          (Some "Bearer expired-token") Fixtures.age_25 Fixtures.bob_db).1
  /\ (Backend.Onboarding.onboarding_route Fixtures.challenging Fixtures.expired Fixtures.env0
        None Fixtures.age_25 Fixtures.bob_db).1
     <> (Backend.Onboarding.onboarding_route Fixtures.challenging Fixtures.expired
          Fixtures.env0 (Some "Bearer expired-token") Fixtures.age_25 Fixtures.bob_db).1.
Proof. repeat split; discriminate. Qed.

Lemma onboarding_unknown_subject_is_404_witness :
  let client :=
    Fixtures.introspecting
      (Ok {| gu_Username := Some "carol";
             gu_UserAttributes := Some [("sub", "sub-carol"); ("email", "carol@example.com")] |}) in
  Backend.Onboarding.put_onboarding client Fixtures.env0 "carol-token" Fixtures.age_25
    Fixtures.bob_db
  = (Raise (HTTPException 404 (DetailStr "User not found") []), Fixtures.bob_db).
Proof.
  intros client.
  apply (onboarding_unknown_subject_is_404 client Fixtures.env0 "carol-token" Fixtures.age_25
           {| Backend.Security.cu_username := "carol";
              Backend.Security.cu_attributes :=
                <["email" := "carol@example.com"]> {[ "sub" := "sub-carol" ]};
              Backend.Security.cu_sub := Some "sub-carol" |}).
  - vm_compute. reflexivity.
  - reflexivity.
  - intros u [<-|[]]. discriminate.
Defined.

(** * Further properties of the first generation's repository *)

Section Repository.

Import Legacy.UserRepository.

Lemma existsb_false_forall {A} (f : A -> bool) (l : list A) :
  existsb f l = false -> forall x, In x l -> f x = false.
Proof.
  intros H x Hx. destruct (f x) eqn:E; [|reflexivity].
  assert (existsb f l = true) by (apply existsb_exists; eauto). congruence.
Qed.

Lemma not_in_map_of_existsb (g : User -> string) (db : Db) (v : string) :
  existsb (fun u => String.eqb (g u) v) db = false -> ~ In v (map g db).
Proof.
  intros H Hin. apply in_map_iff in Hin as (u & <- & Hu).
  apply (existsb_false_forall _ _ H) in Hu. rewrite String.eqb_refl in Hu. discriminate.
Qed.

Lemma NoDup_snoc {A} (l : list A) (x : A) : NoDup l -> ~ In x l -> NoDup (l ++ [x]).
Proof.
  intros Hl Hx. apply NoDup_app. split; [exact Hl|]. split.
  - intros y Hy Hin. apply list_elem_of_In in Hin. destruct Hin as [<-|[]].
    apply list_elem_of_In in Hy. contradiction.
  - apply NoDup_singleton.
Qed.

(** What a successful insertion knows about the table it extended. *)
Lemma commit_insert_ok fault db user db' :
  commit_insert fault db user = Ok db' ->
  fault = None /\ db' = (db ++ [user])%list
  /\ existsb (fun u => String.eqb (email u) (email user)) db = false
  /\ existsb (fun u => String.eqb (username u) (username user)) db = false
  /\ existsb (fun u => String.eqb (cognito_id u) (cognito_id user)) db = false
  /\ existsb (fun u => String.eqb (id u) (id user)) db = false.
Proof.
  unfold commit_insert. destruct fault; [discriminate|].
  destruct (existsb _ db) eqn:E1; [discriminate|].
  destruct (existsb (fun u => String.eqb (username u) _) db) eqn:E2; [discriminate|].
  destruct (existsb (fun u => String.eqb (cognito_id u) _) db) eqn:E3; [discriminate|].
  destruct (existsb (fun u => String.eqb (id u) _) db) eqn:E4; [discriminate|].
  intros [= <-]. repeat split.
Qed.

(** A call of [create_user] whose dictionary has no [error] key committed
    its row. *)
Lemma create_user_success fault new_id now db cognito_id_ email_ username_ fn ln meta :
  let r := create_user fault new_id now db cognito_id_ email_ username_ fn ln meta in
  r.1 !! "error" = None ->
  exists user,
    commit_insert fault db user = Ok r.2
    /\ id user = new_id /\ cognito_id user = cognito_id_ /\ email user = lower email_
    /\ username user = lower username_ /\ first_name user = fn /\ last_name user = ln
    /\ last_login user = None.
Proof.
  unfold create_user.
  destruct (commit_insert _ _ _) as [db'|e] eqn:Hcommit; cbn.
  - intros _. eexists. split; [exact Hcommit|]. repeat split.
  - intros Hnone. exfalso.
    destruct e;
      repeat match type of Hnone with
             | context [if ?b then _ else _] => destruct b
             end;
      vm_compute in Hnone; discriminate.
Qed.

Lemma find_none_of_existsb {A} (f : A -> bool) (l : list A) :
  existsb f l = false -> find f l = None.
Proof.
  intros H. destruct (find f l) as [x|] eqn:E; [|reflexivity].
  apply find_some in E as [Hin Hf]. rewrite (existsb_false_forall _ _ H x Hin) in Hf.
  discriminate.
Qed.

Lemma find_filter_kept {A} (f g : A -> bool) (l : list A) :
  (forall x, In x l -> f x = true -> g x = true) ->
  find f (List.filter g l) = find f l.
Proof.
  induction l as [|x l IH]; intros H; cbn; [reflexivity|].
  destruct (g x) eqn:Hg; cbn.
  - destruct (f x); [reflexivity|]. apply IH. intros y Hy. apply H. right. exact Hy.
  - destruct (f x) eqn:Hf.
    + rewrite (H x (or_introl eq_refl) Hf) in Hg. discriminate.
    + apply IH. intros y Hy. apply H. right. exact Hy.
Qed.

Lemma find_filter_dropped {A} (f g : A -> bool) (l : list A) :
  (forall x, In x l -> f x = true -> g x = false) ->
  find f (List.filter g l) = None.
Proof.
  induction l as [|x l IH]; intros H; cbn; [reflexivity|].
  destruct (g x) eqn:Hg; cbn.
  - destruct (f x) eqn:Hf.
    + rewrite (H x (or_introl eq_refl) Hf) in Hg. discriminate.
    + apply IH. intros y Hy. apply H. right. exact Hy.
  - apply IH. intros y Hy. apply H. right. exact Hy.
Qed.

Lemma NoDup_map_filter {A B} (g : A -> B) (p : A -> bool) (l : list A) :
  NoDup (map g l) -> NoDup (map g (List.filter p l)).
Proof.
  induction l as [|x l IH]; cbn; [intros H; exact H|].
  intros H. apply NoDup_cons in H as [Hx Hl].
  destruct (p x); cbn; [|apply IH; exact Hl].
  apply NoDup_cons. split; [|apply IH; exact Hl].
  intros Hin. apply Hx. apply list_elem_of_In in Hin. apply list_elem_of_In.
  apply in_map_iff in Hin as (y & Hy & Hin). apply in_map_iff. exists y. split; [exact Hy|].
  apply filter_In in Hin. tauto.
Qed.

(** In a table with unique keys a row is determined by its email, and by
    its primary key. *)
Lemma NoDup_map_inj {A B} (g : A -> B) (l : list A) (x y : A) :
  NoDup (map g l) -> In x l -> In y l -> g x = g y -> x = y.
Proof.
  induction l as [|z l IH]; cbn; [tauto|].
  intros H Hx Hy Hg. apply NoDup_cons in H as [Hz Hl].
  assert (Hmem : forall w, In w l -> g z <> g w).
  { intros w Hw E. apply Hz. apply list_elem_of_In. apply in_map_iff. eauto. }
  destruct Hx as [<-|Hx], Hy as [<-|Hy]; try reflexivity.
  - exfalso. exact (Hmem _ Hy Hg).
  - exfalso. exact (Hmem _ Hx (eq_sym Hg)).
  - apply IH; assumption.
Qed.

(** X1.  Insertion followed by lookup, on ASCII text.  When [create_user],
    given an email and a user name of ASCII characters, reports no error,
    the row it stored is found by [get_user_by_email] under any ASCII
    spelling of the email that differs from the given one only in case,
    and by [get_user_by_cognito_id]; it carries the lower-cased email and
    user name, the given identifiers and no last login. *)
Theorem legacy_create_then_lookup
    fault new_id now db cognito_id_ email_ username_ fn ln meta query :
  Invariants.ascii_text email_ = true ->
  Invariants.ascii_text username_ = true ->
  Invariants.ascii_text query = true ->
  let r := create_user fault new_id now db cognito_id_ email_ username_ fn ln meta in
  r.1 !! "error" = None ->
  lower query = lower email_ ->
  exists user,
    get_user_by_email None r.2 query = Some user
    /\ get_user_by_cognito_id None r.2 cognito_id_ = Some (user_dict user)
    /\ id user = new_id /\ cognito_id user = cognito_id_
    /\ email user = lower email_ /\ username user = lower username_
    /\ last_login user = None.
Proof.
  intros _ _ _ r Hok Hquery.
  destruct (create_user_success fault new_id now db cognito_id_ email_ username_ fn ln meta Hok)
    as (user & Hcommit & Hid & Hcid & Hemail & Huser & _ & _ & Hlast).
  fold r in Hcommit.
  apply commit_insert_ok in Hcommit as (_ & Hdb & Ee & _ & Ec & _).
  exists user. rewrite Hdb.
  unfold get_user_by_email, get_user_by_cognito_id, first_by_email.
  rewrite Hquery, <- Hemail, <- Hcid.
  rewrite !find_app_none by (apply find_none_of_existsb; assumption).
  cbn. rewrite !String.eqb_refl. repeat split; assumption.
Qed.

Lemma map_update_key (g : User -> string) (h : User -> User) (c : User -> bool) (db : Db) :
  (forall u, g (h u) = g u) ->
  map g (map (fun u => if c u then h u else u) db) = map g db.
Proof.
  intros Hg. rewrite map_map. apply map_ext. intros u. destruct (c u); [apply Hg | reflexivity].
Qed.

(** X2.  The repository keeps the table well formed: whatever its arguments
    and whether or not the database fails, [create_user],
    [update_last_login] and [delete_user] turn a table with unique keys
    and lower-cased emails and user names into another one. *)
Theorem legacy_repository_keeps_invariants db :
  Invariants.unique_keys db -> Invariants.lowercase_stored db ->
  (forall fault new_id now cognito_id_ email_ username_ fn ln meta,
     let db' := (create_user fault new_id now db cognito_id_ email_ username_ fn ln meta).2 in
     Invariants.unique_keys db' /\ Invariants.lowercase_stored db')
  /\ (forall fault now email_,
        let db' := (update_last_login fault now db email_).2 in
        Invariants.unique_keys db' /\ Invariants.lowercase_stored db')
  /\ (forall fault email_,
        let db' := (delete_user fault db email_).2 in
        Invariants.unique_keys db' /\ Invariants.lowercase_stored db').
Proof.
  intros (Hid & Hemail & Huser & Hcid) Hlow. split; [|split].
  - intros fault new_id now cognito_id_ email_ username_ fn ln meta db'.
    subst db'. unfold create_user.
    destruct (commit_insert _ _ _) as [db'|e] eqn:Hcommit.
    + cbn. apply commit_insert_ok in Hcommit as (_ & -> & Ee & Eu & Ec & Ei). split.
      * unfold Invariants.unique_keys. rewrite !map_app. cbn [map].
        repeat split; apply NoDup_snoc; try assumption;
          eapply (not_in_map_of_existsb _ db); eassumption.
      * apply Forall_app. split; [exact Hlow|].
        constructor; [|constructor]. cbn. rewrite !lower_idempotent. split; reflexivity.
    + assert (Hsame : forall (d : dict), (d, db).2 = db) by reflexivity.
      destruct e;
        repeat match goal with
               | |- context [if ?b then _ else _] => destruct b
               end;
        cbn; (split; [repeat split; assumption | exact Hlow]).
  - intros fault now email_ db'. subst db'. unfold update_last_login.
    destruct fault; [cbn; split; [repeat split; assumption | exact Hlow]|].
    destruct (first_by_email _ _) as [user|]; cbn; [|split; [repeat split; assumption | exact Hlow]].
    split.
    + unfold Invariants.unique_keys.
      rewrite !(map_update_key _ (set_last_login now)) by reflexivity.
      repeat split; assumption.
    + unfold Invariants.lowercase_stored in *. apply Forall_map.
      eapply Forall_impl; [exact Hlow|]. intros u Hu. cbn.
      destruct (String.eqb (id u) (id user)); exact Hu.
  - intros fault email_ db'. subst db'. unfold delete_user.
    destruct fault; [cbn; split; [repeat split; assumption | exact Hlow]|].
    destruct (first_by_email _ _) as [user|]; cbn; [|split; [repeat split; assumption | exact Hlow]].
    split.
    + unfold Invariants.unique_keys. repeat split; apply NoDup_map_filter; assumption.
    + unfold Invariants.lowercase_stored in *.
      apply Forall_forall. intros u Hu. apply list_elem_of_In in Hu.
      apply filter_In in Hu as [Hu _].
      rewrite Forall_forall in Hlow. apply Hlow. apply list_elem_of_In. exact Hu.
Qed.

(** X3.  Deletion, on ASCII text.  In a table with unique keys,
    [delete_user] of an email of ASCII characters succeeds exactly when a
    row holds the lower-cased email; afterwards no lookup by that email
    finds a row, and the lookup of any ASCII email that is another one
    after lower-casing gives what it gave before. *)
Theorem legacy_delete_user_removes_row db email_ :
  Invariants.ascii_text email_ = true ->
  Invariants.unique_keys db ->
  let r := delete_user None db email_ in
  (r.1 = true <-> exists user, In user db /\ email user = lower email_)
  /\ get_user_by_email None r.2 email_ = None
  /\ (forall other, Invariants.ascii_text other = true -> lower other <> lower email_ ->
      get_user_by_email None r.2 other = get_user_by_email None db other).
Proof.
  intros _ (Hid & Hemail & _ & _) r. subst r.
  unfold delete_user, get_user_by_email, first_by_email.
  destruct (find _ db) as [user|] eqn:Hfind; cbn.
  - apply find_some in Hfind as [Hin Heq]. apply String.eqb_eq in Heq.
    split; [split; [intros _; eauto | reflexivity]|]. split.
    + apply find_filter_dropped. intros u Hu Hu_email. apply String.eqb_eq in Hu_email.
      assert (u = user) by (apply (NoDup_map_inj email db); congruence).
      subst u. rewrite String.eqb_refl. reflexivity.
    + intros other _ Hother. apply find_filter_kept. intros u Hu Hu_email.
      apply String.eqb_eq in Hu_email.
      destruct (String.eqb_spec (id u) (id user)) as [E|E]; [|reflexivity].
      exfalso. assert (u = user) by (apply (NoDup_map_inj id db); assumption).
      subst u. apply Hother. congruence.
  - split; [|split; [exact Hfind | intros other _ _; reflexivity]].
    split; [discriminate|]. intros (u & Hu & Hu_email). exfalso.
    apply (find_none _ _ Hfind) in Hu. rewrite Hu_email, String.eqb_refl in Hu. discriminate.
Qed.

Lemma find_map_update (f : User -> bool) (c : User -> bool) (h : User -> User) (db : Db) :
  (forall u, f (h u) = f u) ->
  find f (map (fun u => if c u then h u else u) db)
  = (fun u => if c u then h u else u) <$> find f db.
Proof.
  intros Hf. induction db as [|u db IH]; cbn; [reflexivity|].
  destruct (c u) eqn:Hc.
  - rewrite Hf. destruct (f u); cbn; [rewrite Hc; reflexivity | exact IH].
  - destruct (f u); cbn; [rewrite Hc; reflexivity | exact IH].
Qed.

Lemma update_last_login_found now db email_ user :
  Invariants.unique_keys db ->
  get_user_by_email None db email_ = Some user ->
  let r := update_last_login None now db email_ in
  r.1 = true
  /\ get_user_by_email None r.2 email_ = Some (set_last_login now user)
  /\ (forall other, lower other <> lower email_ ->
      get_user_by_email None r.2 other = get_user_by_email None db other)
  /\ length r.2 = length db.
Proof.
  intros (Hid & _ & _ & _) Hfound r. subst r.
  unfold update_last_login, get_user_by_email, first_by_email in *.
  rewrite Hfound. cbn. split; [reflexivity|].
  pose proof Hfound as Hfound'. apply find_some in Hfound' as [Hin Heq].
  apply String.eqb_eq in Heq. split; [|split].
  - rewrite (find_map_update _ _ (set_last_login now)) by reflexivity.
    rewrite Hfound. cbn. rewrite String.eqb_refl. reflexivity.
  - intros other Hother.
    rewrite (find_map_update _ _ (set_last_login now)) by reflexivity.
    destruct (find (fun u => String.eqb (email u) (lower other)) db) as [u|] eqn:Hfind;
      [|reflexivity]. cbn.
    apply find_some in Hfind as [Hu Hu_email]. apply String.eqb_eq in Hu_email.
    destruct (String.eqb_spec (id u) (id user)) as [E|E]; [|reflexivity].
    exfalso. assert (u = user) by (apply (NoDup_map_inj id db); assumption).
    subst u. apply Hother. congruence.
  - apply length_map.
Qed.


End Repository.

Lemma legacy_bob_table_unique : Invariants.unique_keys [Fixtures.legacy_bob].
Proof. repeat split; apply NoDup_singleton. Qed.

Lemma legacy_create_then_lookup_witness :
  exists user,
    Legacy.UserRepository.get_user_by_email None
      (Legacy.UserRepository.create_user None "uuid-c" 1000 [Fixtures.legacy_bob] "sub-carol"
         "Carol@Example.com" "Carol" None None (Some false)).2 "CAROL@example.com" = Some user
    /\ Legacy.UserRepository.email user = "carol@example.com".
Proof.
  destruct (legacy_create_then_lookup None "uuid-c" 1000 [Fixtures.legacy_bob] "sub-carol"
              "Carol@Example.com" "Carol" None None (Some false) "CAROL@example.com")
    as (user & Hfound & _ & _ & _ & Hemail & _).
  - reflexivity.
  - reflexivity.
  - reflexivity.
  - reflexivity.
  - reflexivity.
  - exists user. split; [exact Hfound | exact Hemail].
Defined.

Lemma legacy_repository_keeps_invariants_witness :
  Invariants.unique_keys
    (Legacy.UserRepository.delete_user None [Fixtures.legacy_bob] "Bob@Example.com").2.
Proof.
  apply (legacy_repository_keeps_invariants [Fixtures.legacy_bob] legacy_bob_table_unique).
  constructor; [split; reflexivity | constructor].
Defined.

Lemma legacy_delete_user_removes_row_witness :
  Legacy.UserRepository.get_user_by_email None
    (Legacy.UserRepository.delete_user None [Fixtures.legacy_bob] "Bob@Example.com").2
    "Bob@Example.com" = None.
Proof.
  apply (legacy_delete_user_removes_row [Fixtures.legacy_bob] "Bob@Example.com"
           eq_refl legacy_bob_table_unique).
Defined.


(** * Further properties of the first generation's handlers *)

Section LegacyHandlers.

Variable cfg : Config.
Variable client : Provider.client.

Ltac split_codes :=
  repeat match goal with
         | |- context [String.eqb ?a ?b] => destruct (String.eqb_spec a b); subst
         end.

Ltac split_all := repeat match goal with |- _ /\ _ => split end.

(** One conjunct of a status statement, at a known exception. *)
Ltac settle recognised :=
  lazymatch goal with
  | |- forall _ _, _ = _ -> ~ _ -> _ =>
      let H := fresh in
      let Hnot := fresh in
      intros ? ? H Hnot;
      first [ discriminate H
            | inversion H; subst;
              first [ split_all; reflexivity
                    | exfalso; apply Hnot; unfold recognised; simpl; tauto ] ]
  | |- forall _, _ = _ -> _ =>
      let H := fresh in
      intros ? H;
      first [ discriminate H
            | exfalso; congruence
            | inversion H; subst; split_all; reflexivity ]
  | |- (forall _ _, _ = _ -> ~ _) -> _ =>
      let H := fresh in
      intros H;
      first [ reflexivity
            | exfalso; eapply H; [reflexivity | unfold recognised; simpl; tauto] ]
  | |- (forall _ _, _ <> _) -> _ =>
      let H := fresh in
      intros H;
      first [ split_all; reflexivity | exfalso; eapply H; reflexivity ]
  | |- _ => reflexivity
  end.

(** X5.  Registration refused by the provider: what the handler raises.
    Whatever [sign_up] raises, the handler raises an [HTTPException] whose
    detail is an error body carrying the same status code and the clock
    as a datetime, and the table is not touched: 409 and USER_EXISTS for
    UsernameExistsException, 400 with the provider's message for
    InvalidPasswordException and InvalidParameterException, 500 for every
    other error of the provider and for any other exception.  (This is
    the exception raised, not the response rendered from it.) *)
Theorem legacy_register_error_status fault new_id now db request e :
  sign_up client
    (Legacy.CognitoService.sign_up_params cfg
       (Legacy.AuthModels.reg_email request) (Legacy.AuthModels.reg_password request)
       (Legacy.AuthModels.reg_username request) (Legacy.AuthModels.reg_first_name request)
       (Legacy.AuthModels.reg_last_name request))
    = Raise e ->
  exists status body,
    Legacy.AuthApi.register cfg client fault new_id now db request
      = (Raise (HTTPException status (DetailDict body) []), db)
    /\ body !! "status_code" = Some (VInt status)
    /\ body !! "timestamp" = Some (VDatetime now)
    /\ (forall m, e = ClientError "UsernameExistsException" m ->
          status = 409 /\ body !! "error" = Some (VStr "USER_EXISTS"))
    /\ (forall m, e = ClientError "InvalidPasswordException" m ->
          status = 400 /\ body !! "error" = Some (VStr "INVALID_PASSWORD")
          /\ body !! "message" = Some (VStr m))
    /\ (forall m, e = ClientError "InvalidParameterException" m ->
          status = 400 /\ body !! "error" = Some (VStr "INVALID_PARAMETER")
          /\ body !! "message" = Some (VStr m))
    /\ ((forall code m, e = ClientError code m -> ~ In code Spec.recognised_register) ->
          status = 500).
Proof.
  intros Hcall.
  unfold Legacy.AuthApi.register, Legacy.CognitoService.register_user. rewrite Hcall.
  cbn [mbind Py.result_bind].
  destruct e as [| code m | | | | | |]; split_codes;
    (eexists _, _; split; [reflexivity|]; split; [reflexivity|]; split; [reflexivity|]);
    split_all; settle Spec.recognised_register.
Qed.

(** X6.  Login refused by the provider: what the handler raises.  Whatever
    [initiate_auth] raises, the handler raises an [HTTPException] whose
    detail is an error body carrying the same status code and the clock
    as a datetime, and the table is not touched: 401 INVALID_CREDENTIALS
    for NotAuthorizedException, 404 USER_NOT_FOUND for
    UserNotFoundException, 403 for UserNotConfirmedException and for
    PasswordResetRequiredException, 401 AUTH_FAILED for every other error
    of the provider, 500 INTERNAL_ERROR for any other exception.  (This
    is the exception raised, not the response rendered from it.) *)
Theorem legacy_login_error_status fault now db request e :
  initiate_auth client
    (Legacy.CognitoService.authenticate_params cfg
       (Legacy.AuthModels.login_email request) (Legacy.AuthModels.login_password request))
    = Raise e ->
  exists status body,
    Legacy.AuthApi.login cfg client fault now db request
      = (Raise (HTTPException status (DetailDict body) []), db)
    /\ body !! "status_code" = Some (VInt status)
    /\ body !! "timestamp" = Some (VDatetime now)
    /\ (forall m, e = ClientError "NotAuthorizedException" m ->
          status = 401 /\ body !! "error" = Some (VStr "INVALID_CREDENTIALS"))
    /\ (forall m, e = ClientError "UserNotFoundException" m ->
          status = 404 /\ body !! "error" = Some (VStr "USER_NOT_FOUND"))
    /\ (forall m, e = ClientError "UserNotConfirmedException" m ->
          status = 403 /\ body !! "error" = Some (VStr "USER_NOT_CONFIRMED"))
    /\ (forall m, e = ClientError "PasswordResetRequiredException" m ->
          status = 403 /\ body !! "error" = Some (VStr "PASSWORD_RESET_REQUIRED"))
    /\ (forall code m, e = ClientError code m -> ~ In code Spec.recognised_authenticate ->
          status = 401 /\ body !! "error" = Some (VStr "AUTH_FAILED"))
    /\ ((forall code m, e <> ClientError code m) ->
          status = 500 /\ body !! "error" = Some (VStr "INTERNAL_ERROR")).
Proof.
  intros Hcall.
  unfold Legacy.AuthApi.login, Legacy.CognitoService.authenticate_user. rewrite Hcall.
  cbn [mbind Py.result_bind].
  destruct e as [| code m | | | | | |]; split_codes;
    (eexists _, _; split; [reflexivity|]; split; [reflexivity|]; split; [reflexivity|]);
    split_all; settle Spec.recognised_authenticate.
Qed.

(** X7.  Refresh refused by the provider: what the handler raises.
    Whatever [initiate_auth] raises, the handler raises an [HTTPException]
    whose detail is an error body carrying the same status code and the
    clock as a datetime: 401 INVALID_REFRESH_TOKEN for
    NotAuthorizedException, 400 REFRESH_FAILED for every other error of
    the provider, 500 INTERNAL_ERROR for any other exception.  (This is
    the exception raised, not the response rendered from it.) *)
Theorem legacy_refresh_error_status now request e :
  initiate_auth client
    (Legacy.CognitoService.refresh_params cfg (Legacy.AuthModels.req_refresh_token request))
    = Raise e ->
  exists status body,
    Legacy.AuthApi.refresh_token cfg client now request
      = Raise (HTTPException status (DetailDict body) [])
    /\ body !! "status_code" = Some (VInt status)
    /\ body !! "timestamp" = Some (VDatetime now)
    /\ (forall m, e = ClientError "NotAuthorizedException" m ->
          status = 401 /\ body !! "error" = Some (VStr "INVALID_REFRESH_TOKEN"))
    /\ (forall code m, e = ClientError code m -> ~ In code Spec.recognised_refresh ->
          status = 400 /\ body !! "error" = Some (VStr "REFRESH_FAILED"))
    /\ ((forall code m, e <> ClientError code m) ->
          status = 500 /\ body !! "error" = Some (VStr "INTERNAL_ERROR")).
Proof.
  intros Hcall.
  unfold Legacy.AuthApi.refresh_token, Legacy.CognitoService.refresh_tokens. rewrite Hcall.
  cbn [mbind Py.result_bind].
  destruct e as [| code m | | | | | |]; split_codes;
    (eexists _, _; split; [reflexivity|]; split; [reflexivity|]; split; [reflexivity|]);
    split_all; settle Spec.recognised_refresh.
Qed.

(** X8.  Login records the last login, on ASCII text.  When the provider
    authenticates the credentials, the database answers and the table
    (with unique keys) holds a row for the email, an email of ASCII
    characters, the handler returns the bundle and that row carries the
    clock as last login afterwards; the lookup of any ASCII email that is
    another one after lower-casing gives the row it gave before. *)
Theorem legacy_login_records_last_login
    access idt refresh expires ttype now db request user :
  Invariants.ascii_text (Legacy.AuthModels.login_email request) = true ->
  Spec.provider_authenticated client
    (Legacy.CognitoService.authenticate_params cfg
       (Legacy.AuthModels.login_email request) (Legacy.AuthModels.login_password request))
    access idt refresh expires ttype ->
  Invariants.unique_keys db ->
  Legacy.UserRepository.get_user_by_email None db (Legacy.AuthModels.login_email request)
    = Some user ->
  let r := Legacy.AuthApi.login cfg client None now db request in
  r.1 = Ok (Legacy.AuthApi.Model
              {| Legacy.AuthModels.access_token := access; Legacy.AuthModels.id_token := idt;
                 Legacy.AuthModels.refresh_token := refresh;
                 Legacy.AuthModels.expires_in := expires;
                 Legacy.AuthModels.token_type := ttype |})
  /\ Legacy.UserRepository.get_user_by_email None r.2 (Legacy.AuthModels.login_email request)
     = Some (Legacy.UserRepository.set_last_login now user)
  /\ (forall other, Invariants.ascii_text other = true ->
      lower other <> lower (Legacy.AuthModels.login_email request) ->
      Legacy.UserRepository.get_user_by_email None r.2 other
      = Legacy.UserRepository.get_user_by_email None db other).
Proof.
  intros _ Hauth Hunique Hfound r.
  split; [apply (legacy_login_returns_tokens cfg client access idt refresh ttype expires);
          exact Hauth|].
  assert (Hdb : r.2 = (Legacy.UserRepository.update_last_login None now db
                         (Legacy.AuthModels.login_email request)).2).
  { subst r. destruct Hauth as (response & Hcall & Hno & Hres).
    unfold Legacy.AuthApi.login, Legacy.CognitoService.authenticate_user.
    rewrite Hcall. cbn [mbind Py.result_bind]. rewrite Hno, Hres.
    cbn [item mbind Py.result_bind mret Py.result_ret negb
         Legacy.CognitoService.token_dict AccessToken IdToken RefreshToken ExpiresIn TokenType].
    destruct (Legacy.UserRepository.update_last_login _ _ _ _) as [updated db']. reflexivity. }
  rewrite Hdb.
  destruct (update_last_login_found now db _ user Hunique Hfound) as (_ & H1 & H2 & _).
  split; [exact H1|]. intros other _ Hother. exact (H2 other Hother).
Qed.

(** X9.  Registration materialises the user, on ASCII text.  When the
    provider registers the identity, the database answers, the email and
    the user name of the request are of ASCII characters and no stored
    row holds the new primary key, the subject, the lower-cased email or
    the lower-cased user name, the handler answers with the provider's
    subject as user id and the email and user name as the request has
    them, and the table gains exactly one row: it carries the new primary
    key, the provider's subject, the lower-cased email and user name, the
    names of the request, no last login, and the confirmation flag of the
    provider as metadata. *)
Theorem legacy_register_materialises_user response sub new_id now db request :
  Invariants.ascii_text (Legacy.AuthModels.reg_email request) = true ->
  Invariants.ascii_text (Legacy.AuthModels.reg_username request) = true ->
  sign_up client
    (Legacy.CognitoService.sign_up_params cfg
       (Legacy.AuthModels.reg_email request) (Legacy.AuthModels.reg_password request)
       (Legacy.AuthModels.reg_username request) (Legacy.AuthModels.reg_first_name request)
       (Legacy.AuthModels.reg_last_name request))
    = Ok response ->
  UserSub response = Some sub ->
  (forall u, In u db ->
     Legacy.UserRepository.id u <> new_id
     /\ Legacy.UserRepository.cognito_id u <> sub
     /\ Legacy.UserRepository.email u <> lower (Legacy.AuthModels.reg_email request)
     /\ Legacy.UserRepository.username u <> lower (Legacy.AuthModels.reg_username request)) ->
  Legacy.AuthApi.register cfg client None new_id now db request =
    (Ok {| Legacy.AuthModels.user_id := sub;
           Legacy.AuthModels.resp_email := Legacy.AuthModels.reg_email request;
           Legacy.AuthModels.resp_username := Legacy.AuthModels.reg_username request;
           Legacy.AuthModels.created_at := now;
           Legacy.AuthModels.message := "User registered successfully" |},
     (db ++ [ {| Legacy.UserRepository.id := new_id;
                 Legacy.UserRepository.cognito_id := sub;
                 Legacy.UserRepository.email := lower (Legacy.AuthModels.reg_email request);
                 Legacy.UserRepository.username :=
                   lower (Legacy.AuthModels.reg_username request);
                 Legacy.UserRepository.first_name := Legacy.AuthModels.reg_first_name request;
                 Legacy.UserRepository.last_name := Legacy.AuthModels.reg_last_name request;
                 Legacy.UserRepository.u_created_at := now;
                 Legacy.UserRepository.u_updated_at := now;
                 Legacy.UserRepository.last_login := None;
                 Legacy.UserRepository.metadata :=
                   Some (Legacy.UserRepository.str_of_metadata
                           (default false (UserConfirmed response))) |} ])%list).
Proof.
  intros _ _ Hcall Hsub Hfresh.
  unfold Legacy.AuthApi.register, Legacy.CognitoService.register_user.
  rewrite Hcall. cbn [mbind Py.result_bind]. rewrite Hsub.
  cbn [item mbind Py.result_bind mret Py.result_ret negb].
  change (get _ "user_sub") with (VStr sub).
  change (get_or _ "user_confirmed" (VBool false))
    with (VBool (default false (UserConfirmed response))).
  cbv beta iota.
  unfold Legacy.UserRepository.create_user, Legacy.UserRepository.commit_insert.
  cbn [Legacy.UserRepository.email Legacy.UserRepository.username
       Legacy.UserRepository.cognito_id Legacy.UserRepository.id].
  assert (Hnone : forall (g : Legacy.UserRepository.User -> string) v,
             (forall u, In u db -> g u <> v) ->
             existsb (fun u => String.eqb (g u) v) db = false).
  { intros g v H. destruct (existsb _ db) eqn:E; [|reflexivity].
    apply existsb_exists in E as (u & Hu & Heq). apply String.eqb_eq in Heq.
    exfalso. exact (H u Hu Heq). }
  rewrite !Hnone by (intros u Hu; apply (Hfresh u Hu)).
  reflexivity.
Qed.

End LegacyHandlers.

(** ** The attributes of a user, as the provider lists them *)

Lemma find_app_some {A} (f : A -> bool) (l1 l2 : list A) (x : A) :
  find f l1 = Some x -> find f (l1 ++ l2) = Some x.
Proof.
  induction l1 as [|y l1 IH]; cbn; [discriminate|].
  destruct (f y); [intros H; exact H | exact IH].
Qed.

Lemma attributes_lookup (attrs : list (string * string)) (m0 : gmap string string) (k : string) :
  fold_left (fun m attr => <[attr.1 := attr.2]> m) attrs m0 !! k
  = match Invariants.last_value k attrs with
    | Some v => Some v
    | None => m0 !! k
    end.
Proof.
  unfold Invariants.last_value. revert m0.
  induction attrs as [|a attrs IH]; intros m0; cbn; [reflexivity|].
  rewrite IH.
  destruct (find (fun a0 => String.eqb a0.1 k) (rev attrs)) as [x|] eqn:Hfind.
  - rewrite (find_app_some _ _ _ _ Hfind). reflexivity.
  - rewrite (find_app_none _ _ _ Hfind). cbn.
    destruct (String.eqb_spec a.1 k) as [<-|Hne]; cbn.
    + apply lookup_insert_eq.
    + apply lookup_insert_ne. exact Hne.
Qed.


Lemma legacy_register_error_status_witness :
  exists body,
    Legacy.AuthApi.register Fixtures.public
      (Fixtures.signing_up (Raise (ClientError "UsernameExistsException" "exists")))
      None "uuid-r" 1000 [Fixtures.legacy_bob]
      {| Legacy.AuthModels.reg_email := "bob@example.com";
         Legacy.AuthModels.reg_password := "Valid123!";
         Legacy.AuthModels.reg_username := "bob";
         Legacy.AuthModels.reg_first_name := None;
         Legacy.AuthModels.reg_last_name := None |}
    = (Raise (HTTPException 409 (DetailDict body) []), [Fixtures.legacy_bob]).
Proof.
  destruct (legacy_register_error_status Fixtures.public
              (Fixtures.signing_up (Raise (ClientError "UsernameExistsException" "exists")))
              None "uuid-r" 1000 [Fixtures.legacy_bob]
              {| Legacy.AuthModels.reg_email := "bob@example.com";
                 Legacy.AuthModels.reg_password := "Valid123!";
                 Legacy.AuthModels.reg_username := "bob";
                 Legacy.AuthModels.reg_first_name := None;
                 Legacy.AuthModels.reg_last_name := None |}
              (ClientError "UsernameExistsException" "exists") eq_refl)
    as (status & body & Hrun & _ & _ & Hexists & _).
  destruct (Hexists "exists" eq_refl) as [-> _].
  exists body. exact Hrun.
Defined.

Lemma legacy_login_error_status_witness :
  exists body,
    Legacy.AuthApi.login Fixtures.public
      (Fixtures.answering (Raise (ClientError "UserNotFoundException" "no such user")))
      None 1000 [Fixtures.legacy_bob]
      {| Legacy.AuthModels.login_email := "carol@example.com";
         Legacy.AuthModels.login_password := "Valid123!" |}
    = (Raise (HTTPException 404 (DetailDict body) []), [Fixtures.legacy_bob]).
Proof.
  destruct (legacy_login_error_status Fixtures.public
              (Fixtures.answering (Raise (ClientError "UserNotFoundException" "no such user")))
              None 1000 [Fixtures.legacy_bob]
              {| Legacy.AuthModels.login_email := "carol@example.com";
                 Legacy.AuthModels.login_password := "Valid123!" |}
              (ClientError "UserNotFoundException" "no such user") eq_refl)
    as (status & body & Hrun & _ & _ & _ & Hmissing & _).
  destruct (Hmissing "no such user" eq_refl) as [-> _].
  exists body. exact Hrun.
Defined.

Lemma legacy_refresh_error_status_witness :
  exists body,
    Legacy.AuthApi.refresh_token Fixtures.public
      (Fixtures.answering (Raise (ClientError "TooManyRequestsException" "slow down")))
      1000 {| Legacy.AuthModels.req_refresh_token := "refresh-1" |}
    = Raise (HTTPException 400 (DetailDict body) []).
Proof.
  destruct (legacy_refresh_error_status Fixtures.public
              (Fixtures.answering (Raise (ClientError "TooManyRequestsException" "slow down")))
              1000 {| Legacy.AuthModels.req_refresh_token := "refresh-1" |}
              (ClientError "TooManyRequestsException" "slow down") eq_refl)
    as (status & body & Hrun & _ & _ & _ & Hother & _).
  destruct (Hother "TooManyRequestsException" "slow down" eq_refl) as [-> _].
  - intros [H|[]]. discriminate H.
  - exists body. exact Hrun.
Defined.

Lemma legacy_login_records_last_login_witness :
  Legacy.UserRepository.get_user_by_email None
    (Legacy.AuthApi.login Fixtures.public
       (Fixtures.answering (Ok (Fixtures.authenticated Fixtures.tokens)))
       None 1000 [Fixtures.legacy_bob]
       {| Legacy.AuthModels.login_email := "Bob@example.com";
          Legacy.AuthModels.login_password := "Valid123!" |}).2 "Bob@example.com"
  = Some (Legacy.UserRepository.set_last_login 1000 Fixtures.legacy_bob).
Proof.
  apply (legacy_login_records_last_login Fixtures.public
           (Fixtures.answering (Ok (Fixtures.authenticated Fixtures.tokens)))
           "access-1" "id-1" "refresh-1" 3600 "Bearer" 1000 [Fixtures.legacy_bob]
           {| Legacy.AuthModels.login_email := "Bob@example.com";
              Legacy.AuthModels.login_password := "Valid123!" |} Fixtures.legacy_bob).
  - reflexivity.
  - exists (Fixtures.authenticated Fixtures.tokens). repeat split.
  - exact legacy_bob_table_unique.
  - reflexivity.
Defined.

Lemma legacy_register_materialises_user_witness :
  exists row,
    Legacy.AuthApi.register Fixtures.public (Fixtures.signing_up (Ok Fixtures.signed_up))
      None "uuid-c" 1000 [Fixtures.legacy_bob]
      {| Legacy.AuthModels.reg_email := "Carol@example.com";
         Legacy.AuthModels.reg_password := "Valid123!";
         Legacy.AuthModels.reg_username := "carol";
         Legacy.AuthModels.reg_first_name := None;
         Legacy.AuthModels.reg_last_name := None |}
    = (Ok {| Legacy.AuthModels.user_id := "sub-1";
             Legacy.AuthModels.resp_email := "Carol@example.com";
             Legacy.AuthModels.resp_username := "carol";
             Legacy.AuthModels.created_at := 1000;
             Legacy.AuthModels.message := "User registered successfully" |},
       [Fixtures.legacy_bob; row])
    /\ Legacy.UserRepository.id row = "uuid-c"
    /\ Legacy.UserRepository.email row = "carol@example.com".
Proof.
  eexists. split.
  - apply (legacy_register_materialises_user Fixtures.public
             (Fixtures.signing_up (Ok Fixtures.signed_up)) Fixtures.signed_up "sub-1"
             "uuid-c" 1000 [Fixtures.legacy_bob]).
    + reflexivity.
    + reflexivity.
    + reflexivity.
    + reflexivity.
    + intros u [<-|[]]. repeat split; discriminate.
  - split; reflexivity.
Defined.

(** * Further properties of the second generation's handlers *)

Section BackendFailures.

Variable cfg : Config.
Variable client : Provider.client.

(** X11.  A provider call that fails.  Whatever the provider call raises,
    [register] answers 400, [login] 401 and [refresh_token] 401, and the
    store is not touched; the detail is a text, which for an error of the
    provider is the provider's own message and for an exception with a
    plain text is that text. *)
Theorem backend_provider_failure_status e :
  exists text,
    (forall code m, e = ClientError code m -> text = m)
    /\ (forall m, e = OtherError m -> text = m)
    /\ (forall env db request,
          sign_up client
            (Backend.CognitoService.sign_up_params cfg
               (Backend.AuthSchemas.reg_email request) (Backend.AuthSchemas.reg_password request)
               (Backend.AuthSchemas.reg_username request)
               (Backend.AuthSchemas.reg_first_name request)
               (Backend.AuthSchemas.reg_last_name request)) = Raise e ->
          Backend.AuthApi.register cfg client env request db
          = (Raise (HTTPException 400 (DetailStr text) []), db))
    /\ (forall env db request,
          initiate_auth client
            (Backend.CognitoService.authenticate_params cfg
               (Backend.AuthSchemas.login_email request)
               (Backend.AuthSchemas.login_password request)) = Raise e ->
          Backend.AuthApi.login cfg client env request db
          = (Raise (HTTPException 401 (DetailStr text) []), db))
    /\ (forall request,
          initiate_auth client
            (Backend.CognitoService.refresh_params cfg
               (Backend.AuthSchemas.req_refresh_token request)) = Raise e ->
          Backend.AuthApi.refresh_token cfg client request
          = Raise (HTTPException 401 (DetailStr text) [])).
Proof.
  exists (match e with ClientError _ m => m | _ => str_of_exn e end).
  split; [intros code m ->; reflexivity|].
  split; [intros m ->; reflexivity|].
  split; [|split].
  - intros env db request Hcall.
    unfold Backend.AuthApi.register, Backend.CognitoService.register_user. rewrite Hcall.
    destruct e; reflexivity.
  - intros env db request Hcall.
    unfold Backend.AuthApi.login, Backend.CognitoService.authenticate_user. rewrite Hcall.
    destruct e; reflexivity.
  - intros request Hcall.
    unfold Backend.AuthApi.refresh_token, Backend.CognitoService.refresh_tokens. rewrite Hcall.
    destruct e; reflexivity.
Qed.

(** X12.  An incomplete answer.  When the provider demands no challenge and its
    answer lacks [AuthenticationResult] or one of the five token fields,
    the reading of the missing key fails inside the gateway: the first
    generation's login answers 500 with INTERNAL_ERROR, the second
    generation's answers 401 and shows the quoted key; neither touches the
    store. *)
Theorem login_incomplete_provider_answer response key :
  opt_truthy (ChallengeName response) = false ->
  Invariants.first_missing_key response = Some key ->
  (forall fault now db request,
     initiate_auth client
       (Legacy.CognitoService.authenticate_params cfg
          (Legacy.AuthModels.login_email request)
          (Legacy.AuthModels.login_password request)) = Ok response ->
     exists body,
       Legacy.AuthApi.login cfg client fault now db request
       = (Raise (HTTPException 500 (DetailDict body) []), db)
       /\ body !! "error" = Some (VStr "INTERNAL_ERROR"))
  /\ (forall env db request,
        initiate_auth client
          (Backend.CognitoService.authenticate_params cfg
             (Backend.AuthSchemas.login_email request)
             (Backend.AuthSchemas.login_password request)) = Ok response ->
        Backend.AuthApi.login cfg client env request db
        = (Raise (HTTPException 401 (DetailStr ("'" ++ key ++ "'")) []), db)).
Proof.
  intros Hno Hmissing. unfold Invariants.first_missing_key in Hmissing. split.
  - intros fault now db request Hcall.
    unfold Legacy.AuthApi.login, Legacy.CognitoService.authenticate_user.
    rewrite Hcall. cbn [mbind Py.result_bind]. rewrite Hno.
    destruct (AuthenticationResult response) as [[[a|] [i|] [r|] [x|] [t|]]|];
      cbn in Hmissing; try discriminate; injection Hmissing as <-;
      (eexists; split; reflexivity).
  - intros env db request Hcall.
    unfold Backend.AuthApi.login, Backend.CognitoService.authenticate_user.
    rewrite Hcall. cbn [mbind Py.result_bind]. rewrite Hno.
    destruct (AuthenticationResult response) as [[[a|] [i|] [r|] [x|] [t|]]|];
      cbn in Hmissing; try discriminate; injection Hmissing as <-; reflexivity.
Qed.

(** X13.  Login of an email the store does not hold.  When the provider
    authenticates the credentials, the select reaches the database and no
    row has the email as the request spells it, the second generation's
    login returns the bundle and leaves the store as it was. *)
Theorem backend_login_unknown_email access idt refresh expires ttype env db request :
  Spec.provider_authenticated client
    (Backend.CognitoService.authenticate_params cfg
       (Backend.AuthSchemas.login_email request) (Backend.AuthSchemas.login_password request))
    access idt refresh expires ttype ->
  Backend.Session.fault env 0%nat = None ->
  (forall u, In u (Backend.Session.users db) ->
     Backend.Models.email u <> Backend.AuthSchemas.login_email request) ->
  Backend.AuthApi.login cfg client env request db
  = (Ok {| Backend.AuthSchemas.access_token := access; Backend.AuthSchemas.id_token := idt;
           Backend.AuthSchemas.refresh_token := refresh;
           Backend.AuthSchemas.expires_in := expires;
           Backend.AuthSchemas.token_type := ttype |}, db).
Proof.
  intros (response & Hcall & Hno & Hres) Hfault Hunknown.
  unfold Backend.AuthApi.login, Backend.CognitoService.authenticate_user.
  rewrite Hcall. cbn [mbind Py.result_bind]. rewrite Hno, Hres.
  cbn [item mbind Py.result_bind mret Py.result_ret negb
       Backend.CognitoService.token_dict AccessToken IdToken RefreshToken ExpiresIn TokenType].
  unfold Backend.AuthApi.guard, Backend.Session.catch.
  assert (Hselect : Backend.Session.select_user_by_email env 0
                      (Backend.AuthSchemas.login_email request) db = (Ok None, db)).
  { unfold Backend.Session.select_user_by_email.
    rewrite (dbm_bind_ok _ _ db () db (roundtrip_ok env 0 db Hfault)).
    unfold mbind, Backend.Session.DbM_bind, Backend.Session.get_db, Backend.Session.lift.
    rewrite filter_none; [reflexivity|].
    intros u Hu. destruct (String.eqb_spec (Backend.Models.email u)
                             (Backend.AuthSchemas.login_email request)) as [E|E];
      [exfalso; exact (Hunknown u Hu E) | reflexivity]. }
  rewrite (dbm_bind_ok _ _ db None db Hselect).
  reflexivity.
Qed.

End BackendFailures.

Lemma backend_provider_failure_status_witness :
  Backend.AuthApi.login Fixtures.public
    (Fixtures.answering (Raise (ClientError "UserNotFoundException" "User does not exist.")))
    Fixtures.env0
    {| Backend.AuthSchemas.login_email := "carol@example.com";
       Backend.AuthSchemas.login_password := "Valid123!" |} Fixtures.bob_db
  = (Raise (HTTPException 401 (DetailStr "User does not exist.") []), Fixtures.bob_db).
Proof.
  destruct (backend_provider_failure_status Fixtures.public
              (Fixtures.answering
                 (Raise (ClientError "UserNotFoundException" "User does not exist.")))
              (ClientError "UserNotFoundException" "User does not exist."))
    as (text & Htext & _ & _ & Hlogin & _).
  rewrite (Hlogin Fixtures.env0 Fixtures.bob_db _ eq_refl).
  rewrite (Htext _ _ eq_refl). reflexivity.
Defined.

Lemma login_incomplete_provider_answer_witness :
  let client := Fixtures.answering (Ok (Fixtures.authenticated Fixtures.refreshed)) in
  Backend.AuthApi.login Fixtures.public client Fixtures.env0
    {| Backend.AuthSchemas.login_email := "bob@example.com";
       Backend.AuthSchemas.login_password := "Valid123!" |} Fixtures.bob_db
  = (Raise (HTTPException 401 (DetailStr "'RefreshToken'") []), Fixtures.bob_db).
Proof.
  intros client.
  apply (login_incomplete_provider_answer Fixtures.public client
           (Fixtures.authenticated Fixtures.refreshed) "RefreshToken"); reflexivity.
Defined.

Lemma backend_login_unknown_email_witness :
  let client := Fixtures.answering (Ok (Fixtures.authenticated Fixtures.tokens)) in
  Backend.AuthApi.status_of
    (Backend.AuthApi.login Fixtures.public client Fixtures.env0
       {| Backend.AuthSchemas.login_email := "carol@example.com";
          Backend.AuthSchemas.login_password := "Valid123!" |} Fixtures.bob_db).1 = 200.
Proof.
  intros client.
  rewrite (backend_login_unknown_email Fixtures.public client
             "access-1" "id-1" "refresh-1" 3600 "Bearer").
  - reflexivity.
  - exists (Fixtures.authenticated Fixtures.tokens). repeat split.
  - reflexivity.
  - intros u [<-|[]]. discriminate.
Defined.

(** * Further properties of the second generation's writes *)

Section BackendWrites.

Import Backend.Models Backend.Session.

Lemma commit_user_ok env n user db :
  fault env n = None ->
  Invariants.user_keys_free db user ->
  commit_user env n user db
  = (Ok (), {| users := (users db ++ [user])%list; profiles := profiles db |}).
Proof.
  intros Hfault Hfree. unfold commit_user.
  rewrite (dbm_bind_ok _ _ db () db (roundtrip_ok env n db Hfault)).
  unfold mbind, DbM_bind, get_db.
  destruct (existsb _ (users db)) eqn:E; [|reflexivity].
  exfalso. apply existsb_exists in E as (u & Hu & Hor).
  destruct (Hfree u Hu) as (N1 & N2 & N3 & N4).
  repeat (apply orb_prop in Hor as [Hor|Hor]); apply String.eqb_eq in Hor; contradiction.
Qed.

Lemma commit_user_collision env n user db u :
  fault env n = None ->
  In u (users db) -> username u = username user ->
  commit_user env n user db
  = (Raise (IntegrityError "duplicate key value violates unique constraint"), db).
Proof.
  intros Hfault Hu Heq. unfold commit_user.
  rewrite (dbm_bind_ok _ _ db () db (roundtrip_ok env n db Hfault)).
  unfold mbind, DbM_bind, get_db.
  destruct (existsb _ (users db)) eqn:E; [reflexivity|].
  exfalso. apply (existsb_false_forall _ _ E) in Hu.
  rewrite Heq, String.eqb_refl, !orb_true_r in Hu. discriminate.
Qed.

Lemma select_user_by_email_none env n e db :
  fault env n = None ->
  (forall u, In u (users db) -> email u <> e) ->
  select_user_by_email env n e db = (Ok None, db).
Proof.
  intros Hfault Hunknown. unfold select_user_by_email.
  rewrite (dbm_bind_ok _ _ db () db (roundtrip_ok env n db Hfault)).
  unfold mbind, DbM_bind, get_db, lift.
  rewrite filter_none; [reflexivity|].
  intros u Hu. destruct (String.eqb_spec (email u) e) as [E|E];
    [exfalso; exact (Hunknown u Hu E) | reflexivity].
Qed.

Lemma select_user_by_email_new env n db user ps :
  fault env n = None ->
  (forall u, In u (users db) -> email u <> email user) ->
  select_user_by_email env n (email user) {| users := (users db ++ [user])%list; profiles := ps |}
  = (Ok (Some user), {| users := (users db ++ [user])%list; profiles := ps |}).
Proof.
  intros Hfault Hunknown. unfold select_user_by_email.
  rewrite (dbm_bind_ok _ _ _ () _ (roundtrip_ok env n _ Hfault)).
  unfold mbind, DbM_bind, get_db, lift. cbn [users].
  rewrite List.filter_app, filter_none; cbn; [rewrite String.eqb_refl; reflexivity|].
  intros u Hu. destruct (String.eqb_spec (email u) (email user)) as [E|E];
    [exfalso; exact (Hunknown u Hu E) | reflexivity].
Qed.

Section Google.

Variable cfg : Config.
Variable client : Provider.client.
Variable verify_oauth2_token : string -> result IdInfo.
Variable token : string.
Variable idinfo : IdInfo.
Variables email_ sub access idt refresh ttype : string.
Variable expires : Z.

Hypothesis token_verified : verify_oauth2_token token = Ok idinfo.
Hypothesis email_claim : g_email idinfo = Some email_.
Hypothesis sub_claim : g_sub idinfo = Some sub.
Hypothesis tokens_issued :
  Invariants.provider_issues client (Backend.CognitoService.google_params cfg email_ token)
    access idt refresh expires ttype.

Lemma google_gateway_result :
  Backend.CognitoService.authenticate_with_google cfg client verify_oauth2_token token
  = inl {| Backend.CognitoService.gr_email := email_;
           Backend.CognitoService.gr_given_name := default "" (g_given_name idinfo);
           Backend.CognitoService.gr_family_name := default "" (g_family_name idinfo);
           Backend.CognitoService.gr_user_sub := sub;
           Backend.CognitoService.gr_tokens :=
             {[ "access_token" := VStr access; "id_token" := VStr idt;
                "refresh_token" := VStr refresh; "expires_in" := VInt expires;
                "token_type" := VStr ttype ]} |}.
Proof.
  destruct tokens_issued as (response & Hcall & Hres).
  unfold Backend.CognitoService.authenticate_with_google.
  rewrite token_verified. cbn [mbind Py.result_bind]. rewrite email_claim.
  cbn [item mbind Py.result_bind]. rewrite Hcall. cbn [mbind Py.result_bind].
  rewrite Hres. cbn [item mbind Py.result_bind]. rewrite sub_claim. reflexivity.
Qed.

(** X14.  A first federated login creates the user once.  With the Google token
    verified, the tokens issued, the database answering and the keys of
    the new rows free (in particular no row with the email), [google_auth]
    returns the bundle and the store gains exactly one user, with the
    subject, the email and the local part of the email as user name, and
    one blank profile for it.  A second federated login with the same
    token then returns the bundle and changes nothing. *)
Theorem backend_google_auth_creates_once env db :
  let user :=
    new_User (user_uuid env) (now env) sub email_ (before_char "@" email_)
      (Some (default "" (g_given_name idinfo))) (Some (default "" (g_family_name idinfo))) in
  let profile := new_UserProfile (profile_uuid env) (user_uuid env) in
  let bundle :=
    {| Backend.AuthSchemas.access_token := access; Backend.AuthSchemas.id_token := idt;
       Backend.AuthSchemas.refresh_token := refresh;
       Backend.AuthSchemas.expires_in := expires;
       Backend.AuthSchemas.token_type := ttype |} in
  let db1 := {| users := (users db ++ [user])%list;
                profiles := (profiles db ++ [profile])%list |} in
  (forall n, fault env n = None) ->
  Invariants.user_keys_free db user ->
  Invariants.profile_keys_free db profile ->
  Backend.AuthApi.google_auth cfg client verify_oauth2_token env
    {| Backend.AuthSchemas.google_id_token := token |} db = (Ok bundle, db1)
  /\ (forall env2, fault env2 0%nat = None ->
      Backend.AuthApi.google_auth cfg client verify_oauth2_token env2
        {| Backend.AuthSchemas.google_id_token := token |} db1 = (Ok bundle, db1)).
Proof.
  intros user profile bundle db1 Hdb Hufree Hpfree.
  assert (Hemail : forall u, In u (users db) -> email u <> email_).
  { intros u Hu. apply (Hufree u Hu). }
  split.
  - unfold Backend.AuthApi.google_auth. cbn [Backend.AuthSchemas.google_id_token].
    rewrite google_gateway_result.
    cbn [Backend.CognitoService.gr_email Backend.CognitoService.gr_given_name
         Backend.CognitoService.gr_family_name Backend.CognitoService.gr_user_sub
         Backend.CognitoService.gr_tokens].
    unfold Backend.AuthApi.guard, catch.
    rewrite (dbm_bind_ok _ _ db None db (select_user_by_email_none env 0 email_ db (Hdb _) Hemail)).
    fold user. fold profile.
    assert (Hcreate :
      (commit_user env 1 user ≫= λ _, roundtrip env 2 ≫= λ _,
         commit_profile env 3 (new_UserProfile (profile_uuid env) (id user))) db
      = (Ok (), db1)).
    { rewrite (dbm_bind_ok _ _ _ _ _ (commit_user_ok env 1 user db (Hdb _) Hufree)).
      rewrite (dbm_bind_ok _ _ _ _ _ (roundtrip_ok env 2 _ (Hdb _))).
      apply commit_profile_ok; [apply Hdb | exact Hpfree |].
      exists user. split; [cbn; apply in_or_app; right; left; reflexivity | reflexivity]. }
    rewrite (dbm_bind_ok _ _ _ _ _ Hcreate). reflexivity.
  - intros env2 Hfault2.
    unfold Backend.AuthApi.google_auth. cbn [Backend.AuthSchemas.google_id_token].
    rewrite google_gateway_result.
    cbn [Backend.CognitoService.gr_email Backend.CognitoService.gr_given_name
         Backend.CognitoService.gr_family_name Backend.CognitoService.gr_user_sub
         Backend.CognitoService.gr_tokens].
    unfold Backend.AuthApi.guard, catch.
    rewrite (dbm_bind_ok _ _ db1 (Some user) db1
               (select_user_by_email_new env2 0 db user _ Hfault2 Hemail)).
    reflexivity.
Qed.

(** X15.  A federated login whose derived user name is taken.  With the Google
    token verified and the tokens issued, when no row has the email but a
    row already has the local part of the email as user name, the
    insertion violates the unique constraint: [google_auth] answers 500
    and stores nothing. *)
Theorem backend_google_auth_username_taken env db holder :
  fault env 0%nat = None -> fault env 1%nat = None ->
  (forall u, In u (users db) -> email u <> email_) ->
  In holder (users db) -> username holder = before_char "@" email_ ->
  Backend.AuthApi.google_auth cfg client verify_oauth2_token env
    {| Backend.AuthSchemas.google_id_token := token |} db
  = (Raise (HTTPException 500
              (DetailStr "An error occurred during Google authentication") []), db).
Proof.
  intros Hf0 Hf1 Hemail Hholder Hname.
  unfold Backend.AuthApi.google_auth. cbn [Backend.AuthSchemas.google_id_token].
  rewrite google_gateway_result.
  cbn [Backend.CognitoService.gr_email Backend.CognitoService.gr_given_name
       Backend.CognitoService.gr_family_name Backend.CognitoService.gr_user_sub
       Backend.CognitoService.gr_tokens].
  unfold Backend.AuthApi.guard, catch.
  rewrite (dbm_bind_ok _ _ db None db (select_user_by_email_none env 0 email_ db Hf0 Hemail)).
  unfold mbind at 1. unfold DbM_bind at 1. unfold mbind at 1. unfold DbM_bind at 1.
  erewrite commit_user_collision; [reflexivity | exact Hf1 | exact Hholder | exact Hname].
Qed.

End Google.

(** X16.  A federated login that fails.  Every failure inside the gateway (the
    Google token refused, a claim missing, the provider raising, a token
    field missing) is reported under the one code GOOGLE_AUTH_FAILED, and
    [google_auth] then answers 401 showing the gateway's message and
    leaves the store as it was; the gateway succeeds only when the token
    is verified with an email and a subject and the provider returns the
    five token fields. *)
Theorem backend_google_auth_failure cfg client verify_oauth2_token token :
  match Backend.CognitoService.authenticate_with_google cfg client verify_oauth2_token token with
  | inl r =>
      exists idinfo,
        verify_oauth2_token token = Ok idinfo
        /\ g_email idinfo = Some (Backend.CognitoService.gr_email r)
        /\ g_sub idinfo = Some (Backend.CognitoService.gr_user_sub r)
        /\ exists access idt refresh expires ttype,
             Invariants.provider_issues client
               (Backend.CognitoService.google_params cfg (Backend.CognitoService.gr_email r)
                  token)
               access idt refresh expires ttype
  | inr d =>
      d !! "error" = Some (VStr "GOOGLE_AUTH_FAILED")
      /\ exists text,
           d !! "message" = Some (VStr text)
           /\ forall env db,
                Backend.AuthApi.google_auth cfg client verify_oauth2_token env
                  {| Backend.AuthSchemas.google_id_token := token |} db
                = (Raise (HTTPException 401 (DetailStr text) []), db)
  end.
Proof.
  unfold Backend.AuthApi.google_auth. cbn [Backend.AuthSchemas.google_id_token].
  unfold Backend.CognitoService.authenticate_with_google, Invariants.provider_issues.
  destruct (verify_oauth2_token token) as [idinfo|e] eqn:Hverify; cbn [mbind Py.result_bind];
    [|split; [reflexivity | eexists; split; [reflexivity | reflexivity]]].
  destruct (g_email idinfo) as [email_|] eqn:Hemail; cbn [item mbind Py.result_bind];
    [|split; [reflexivity | eexists; split; [reflexivity | reflexivity]]].
  destruct (initiate_auth client _) as [response|e] eqn:Hcall; cbn [mbind Py.result_bind];
    [|split; [reflexivity | eexists; split; [reflexivity | reflexivity]]].
  destruct (AuthenticationResult response) as [a|] eqn:Hres; cbn [item mbind Py.result_bind];
    [|split; [reflexivity | eexists; split; [reflexivity | reflexivity]]].
  destruct (g_sub idinfo) as [sub|] eqn:Hsub; cbn [item mbind Py.result_bind];
    [|split; [reflexivity | eexists; split; [reflexivity | reflexivity]]].
  destruct a as [[access|] [idt|] [refresh|] [expires|] [ttype|]];
    cbn [Backend.CognitoService.token_dict item mbind Py.result_bind mret Py.result_ret
         AccessToken IdToken RefreshToken ExpiresIn TokenType];
    try (split; [reflexivity | eexists; split; [reflexivity | reflexivity]]).
  cbn [Backend.CognitoService.gr_email Backend.CognitoService.gr_user_sub].
  exists idinfo. split; [reflexivity|]. split; [exact Hemail|]. split; [exact Hsub|].
  exists access, idt, refresh, expires, ttype, response. split; [exact Hcall | exact Hres].
Qed.

Section Registration.

Variable cfg : Config.
Variable client : Provider.client.
Variable response : SignUpResponse.
Variable sub : string.
Variable request : Backend.AuthSchemas.UserRegistrationRequest.

Hypothesis provider_registered :
  sign_up client
    (Backend.CognitoService.sign_up_params cfg
       (Backend.AuthSchemas.reg_email request) (Backend.AuthSchemas.reg_password request)
       (Backend.AuthSchemas.reg_username request) (Backend.AuthSchemas.reg_first_name request)
       (Backend.AuthSchemas.reg_last_name request)) = Ok response.
Hypothesis subject_issued : UserSub response = Some sub.

Lemma register_runs_to_commit env db :
  Backend.AuthApi.register cfg client env request db
  = Backend.AuthApi.guard "An error occurred during registration"
      (let user :=
         new_User (user_uuid env) (now env) sub (Backend.AuthSchemas.reg_email request)
           (Backend.AuthSchemas.reg_username request)
           (Backend.AuthSchemas.reg_first_name request)
           (Backend.AuthSchemas.reg_last_name request) in
       _ ← commit_user env 0 user;
       _ ← roundtrip env 1;
       _ ← commit_profile env 2 (new_UserProfile (profile_uuid env) (id user));
       mret {| Backend.AuthSchemas.user_id := id user;
               Backend.AuthSchemas.resp_email := email user;
               Backend.AuthSchemas.resp_username := username user;
               Backend.AuthSchemas.created_at := created_at user;
               Backend.AuthSchemas.message := "User registered successfully" |}) db.
Proof.
  unfold Backend.AuthApi.register, Backend.CognitoService.register_user.
  rewrite provider_registered. cbn [mbind Py.result_bind]. rewrite subject_issued.
  reflexivity.
Qed.

(** X17.  Registration in the second generation.  When the provider registers
    the identity, the database answers and the keys of the new rows are
    free, [register] returns the local identifier, the email and user name
    of the request and the clock, and the store gains exactly one user with
    the provider's subject and one blank profile for it. *)
Theorem backend_register_creates_user_and_profile env db :
  let user :=
    new_User (user_uuid env) (now env) sub (Backend.AuthSchemas.reg_email request)
      (Backend.AuthSchemas.reg_username request) (Backend.AuthSchemas.reg_first_name request)
      (Backend.AuthSchemas.reg_last_name request) in
  let profile := new_UserProfile (profile_uuid env) (user_uuid env) in
  (forall n, fault env n = None) ->
  Invariants.user_keys_free db user ->
  Invariants.profile_keys_free db profile ->
  Backend.AuthApi.register cfg client env request db
  = (Ok {| Backend.AuthSchemas.user_id := user_uuid env;
           Backend.AuthSchemas.resp_email := Backend.AuthSchemas.reg_email request;
           Backend.AuthSchemas.resp_username := Backend.AuthSchemas.reg_username request;
           Backend.AuthSchemas.created_at := now env;
           Backend.AuthSchemas.message := "User registered successfully" |},
     {| users := (users db ++ [user])%list; profiles := (profiles db ++ [profile])%list |}).
Proof.
  intros user profile Hdb Hufree Hpfree.
  rewrite register_runs_to_commit. cbv zeta. fold user.
  unfold Backend.AuthApi.guard, catch.
  rewrite (dbm_bind_ok _ _ _ _ _ (commit_user_ok env 0 user db (Hdb _) Hufree)).
  rewrite (dbm_bind_ok _ _ _ _ _ (roundtrip_ok env 1 _ (Hdb _))).
  assert (Hprofile :
    commit_profile env 2 (new_UserProfile (profile_uuid env) (id user))
      {| users := (users db ++ [user])%list; profiles := profiles db |}
    = (Ok (), {| users := (users db ++ [user])%list;
                 profiles := (profiles db ++ [profile])%list |})).
  { erewrite commit_profile_ok;
      [reflexivity | apply Hdb | intros q Hq; exact (Hpfree q Hq) |].
    exists user. split; [cbn; apply in_or_app; right; left; reflexivity | reflexivity]. }
  rewrite (dbm_bind_ok _ _ _ _ _ Hprofile). reflexivity.
Qed.

(** X18.  A registration that loses its profile, and its repair.  When the
    commit of the profile fails after the user was committed, [register]
    answers 500 although the user row is stored, without a profile.  A
    later onboarding call of that user (token verified, database
    answering, fresh identifier) then creates the profile and completes. *)
Theorem backend_register_profile_failure_is_repaired env db msg :
  let user :=
    new_User (user_uuid env) (now env) sub (Backend.AuthSchemas.reg_email request)
      (Backend.AuthSchemas.reg_username request) (Backend.AuthSchemas.reg_first_name request)
      (Backend.AuthSchemas.reg_last_name request) in
  let db1 := {| users := (users db ++ [user])%list; profiles := profiles db |} in
  fault env 0%nat = None -> fault env 1%nat = None -> fault env 2%nat = Some msg ->
  Invariants.user_keys_free db user ->
  (forall p, In p (profiles db) -> user_id p <> user_uuid env) ->
  Backend.AuthApi.register cfg client env request db
  = (Raise (HTTPException 500 (DetailStr "An error occurred during registration") []), db1)
  /\ profile_of db1 user = None
  /\ (forall env2 current_user onboarding,
        (forall n, fault env2 n = None) ->
        Backend.Security.cu_sub current_user = Some sub ->
        (forall p, In p (profiles db) -> p_id p <> profile_uuid env2) ->
        exists after db2,
          Backend.Onboarding.complete_onboarding env2 onboarding current_user db1
          = (Ok (Backend.Onboarding.response_of user after), db2)
          /\ profile_of db2 user = Some after
          /\ has_completed_onboarding after = true).
Proof.
  intros user db1 Hf0 Hf1 Hf2 Hufree Hnoprofile.
  assert (Hnone : profile_of db1 user = None).
  { unfold profile_of, db1. cbn [profiles].
    apply find_none_of_existsb. destruct (existsb _ (profiles db)) eqn:E; [|reflexivity].
    exfalso. apply existsb_exists in E as (p & Hp & Heq). apply String.eqb_eq in Heq.
    exact (Hnoprofile p Hp Heq). }
  split; [|split; [exact Hnone|]].
  - rewrite register_runs_to_commit. cbv zeta. fold user.
    unfold Backend.AuthApi.guard, catch.
    rewrite (dbm_bind_ok _ _ _ _ _ (commit_user_ok env 0 user db Hf0 Hufree)).
    rewrite (dbm_bind_ok _ _ _ _ _ (roundtrip_ok env 1 _ Hf1)).
    unfold commit_profile, roundtrip. rewrite Hf2. reflexivity.
  - intros env2 current_user onboarding Hdb2 Hsub Hfresh.
    destruct (complete_onboarding_runs env2 db1 current_user user onboarding Hdb2)
      as (db2 & Hrun & _ & Hstored).
    + rewrite Hsub. unfold select_user_by_cognito_id.
      rewrite (dbm_bind_ok _ _ _ () _ (roundtrip_ok env2 0 _ (Hdb2 _))).
      unfold mbind, DbM_bind, get_db, lift. unfold db1. cbn [users].
      rewrite List.filter_app, filter_none; cbn; [rewrite String.eqb_refl; reflexivity|].
      intros u Hu. destruct (String.eqb_spec (cognito_id u) sub) as [E|E]; [|reflexivity].
      exfalso. destruct (Hufree u Hu) as (_ & Hc & _). exact (Hc E).
    + intros _ p Hp. apply Hfresh. exact Hp.
    + eexists _, db2. split; [exact Hrun|]. split; [exact Hstored | reflexivity].
Qed.

End Registration.

End BackendWrites.

Lemma backend_google_auth_creates_once_witness :
  let client := Fixtures.answering (Ok (Fixtures.authenticated Fixtures.tokens)) in
  map Backend.Models.username
    (Backend.Session.users
       (Backend.AuthApi.google_auth Fixtures.public client (fun _ => Ok Fixtures.carol_idinfo)
          Fixtures.env0 {| Backend.AuthSchemas.google_id_token := "google-token" |}
          Fixtures.bob_db).2)
  = ["bob"; "carol"].
Proof.
  intros client.
  destruct (backend_google_auth_creates_once Fixtures.public client
              (fun _ => Ok Fixtures.carol_idinfo) "google-token" Fixtures.carol_idinfo
              "carol@example.com" "google-sub-carol" "access-1" "id-1" "refresh-1" "Bearer" 3600
              eq_refl eq_refl eq_refl) with (env := Fixtures.env0) (db := Fixtures.bob_db)
    as [Hfirst _].
  - exists (Fixtures.authenticated Fixtures.tokens). split; reflexivity.
  - reflexivity.
  - intros u [<-|[]]. repeat split; discriminate.
  - intros p [].
  - rewrite Hfirst. reflexivity.
Defined.

Lemma backend_google_auth_username_taken_witness :
  let client := Fixtures.answering (Ok (Fixtures.authenticated Fixtures.tokens)) in
  let idinfo := {| g_email := Some "bob@gmail.com"; g_given_name := None;
                   g_family_name := None; g_sub := Some "google-sub-bob" |} in
  Backend.AuthApi.status_of
    (Backend.AuthApi.google_auth Fixtures.public client (fun _ => Ok idinfo)
       Fixtures.env0 {| Backend.AuthSchemas.google_id_token := "google-token" |}
       Fixtures.bob_db).1 = 500.
Proof.
  intros client idinfo.
  rewrite (backend_google_auth_username_taken Fixtures.public client (fun _ => Ok idinfo)
             "google-token" idinfo "bob@gmail.com" "google-sub-bob"
             "access-1" "id-1" "refresh-1" "Bearer" 3600 eq_refl eq_refl eq_refl)
    with (holder := Fixtures.bob).
  - reflexivity.
  - exists (Fixtures.authenticated Fixtures.tokens). split; reflexivity.
  - reflexivity.
  - reflexivity.
  - intros u [<-|[]]. discriminate.
  - left. reflexivity.
  - reflexivity.
Defined.

Lemma backend_register_creates_user_and_profile_witness :
  let client := Fixtures.signing_up (Ok Fixtures.signed_up) in
  length (Backend.Session.profiles
            (Backend.AuthApi.register Fixtures.public client Fixtures.env0
               Fixtures.carol_registration Fixtures.bob_db).2) = 1%nat.
Proof.
  intros client.
  rewrite (backend_register_creates_user_and_profile Fixtures.public client
             Fixtures.signed_up "sub-1" Fixtures.carol_registration eq_refl eq_refl).
  - reflexivity.
  - reflexivity.
  - intros u [<-|[]]. repeat split; discriminate.
  - intros p [].
Defined.

Lemma backend_register_profile_failure_is_repaired_witness :
  let client := Fixtures.signing_up (Ok Fixtures.signed_up) in
  Backend.AuthApi.status_of
    (Backend.AuthApi.register Fixtures.public client Fixtures.env_profile_commit_fails
       Fixtures.carol_registration Fixtures.bob_db).1 = 500.
Proof.
  intros client.
  destruct (backend_register_profile_failure_is_repaired Fixtures.public client
              Fixtures.signed_up "sub-1" Fixtures.carol_registration eq_refl eq_refl
              Fixtures.env_profile_commit_fails Fixtures.bob_db "connection lost")
    as [Hrun _].
  - reflexivity.
  - reflexivity.
  - reflexivity.
  - intros u [<-|[]]. repeat split; discriminate.
  - intros p [].
  - rewrite Hrun. reflexivity.
Defined.

(** * Further properties of onboarding *)

Section OnboardingMore.

Import Backend.Models Backend.Session Backend.Security Backend.Onboarding.
Import Backend.ProfileSchemas (UserProfileUpdateRequest, model_dump_exclude_unset).

(** Applying a request to a profile that already took it changes nothing. *)
Lemma apply_request_idempotent request p :
  let apply q := set_completed (fold_left setattr (model_dump_exclude_unset request) q) in
  apply (apply p) = apply p.
Proof.
  destruct request as [f1 f2 f3 f4 f5 f6 f7 f8], p.
  destruct f1, f2, f3, f4, f5, f6, f7, f8; reflexivity.
Qed.

Lemma find_snoc_false {A} (f : A -> bool) (l : list A) (x : A) :
  f x = false -> find f (l ++ [x]) = find f l.
Proof.
  intros Hx. induction l as [|y l IH]; cbn; [rewrite Hx; reflexivity|].
  destruct (f y); [reflexivity | exact IH].
Qed.

Lemma find_map_replace (f : UserProfile -> bool) (final : UserProfile) (l : list UserProfile) :
  (forall q, In q l -> p_id q = p_id final -> f q = false) ->
  f final = false ->
  find f (map (fun q => if String.eqb (p_id q) (p_id final) then final else q) l) = find f l.
Proof.
  intros Hl Hfinal. induction l as [|q l IH]; cbn; [reflexivity|].
  assert (IH' : find f (map (fun q => if String.eqb (p_id q) (p_id final) then final else q) l)
                = find f l) by (apply IH; intros r Hr; apply Hl; right; exact Hr).
  destruct (String.eqb_spec (p_id q) (p_id final)) as [E|E].
  - rewrite Hfinal, (Hl q (or_introl eq_refl) E). exact IH'.
  - destruct (f q); [reflexivity | exact IH'].
Qed.

Section Run.

Variable env : Env.
Variable db : Db.
Variable current_user : CurrentUser.
Variable user : User.
Variable request : UserProfileUpdateRequest.

Hypothesis database_answers : forall n, fault env n = None.
Hypothesis subject_matches :
  select_user_by_cognito_id env 0 (cu_sub current_user) db = (Ok (Some user), db).
Hypothesis fresh_uuid :
  profile_of db user = None ->
  forall p, In p (profiles db) -> p_id p <> profile_uuid env.

(** The store an onboarding call leaves, spelled out. *)
Lemma complete_onboarding_store :
  let before := Spec.profile_before env db user in
  let final := set_completed (fold_left setattr (model_dump_exclude_unset request) before) in
  complete_onboarding env request current_user db
  = (Ok (response_of user final),
     {| users := users db;
        profiles :=
          map (fun q => if String.eqb (p_id q) (p_id final) then final else q)
              (match profile_of db user with
               | Some _ => profiles db
               | None => (profiles db ++ [before])%list
               end) |}).
Proof.
  intros before final. subst final before. unfold Spec.profile_before.
  unfold complete_onboarding.
  rewrite (dbm_bind_ok _ _ db (Some user) db subject_matches).
  rewrite (dbm_bind_ok get_db _ db db db eq_refl).
  destruct (profile_of db user) as [p0|] eqn:Hp; cbn [default].
  - rewrite (dbm_bind_ok (mret p0) _ db p0 db eq_refl).
    rewrite (dbm_bind_ok _ _ _ _ _ (commit_profile_update_ok env 3 _ db (database_answers 3%nat))).
    rewrite (dbm_bind_ok _ _ _ _ _ (roundtrip_ok env 4 _ (database_answers 4%nat))).
    reflexivity.
  - set (created := new_UserProfile (profile_uuid env) (id user)).
    assert (Hcommit : commit_profile env 1 created db =
              (Ok (), {| users := users db; profiles := (profiles db ++ [created])%list |})).
    { apply commit_profile_ok; [apply database_answers | | ].
      - intros q Hq. split; [exact (fresh_uuid eq_refl q Hq)|].
        unfold profile_of in Hp. apply (find_none _ _ Hp) in Hq.
        intros E. cbn in E. rewrite E, String.eqb_refl in Hq. discriminate.
      - exists user. split;
          [apply (user_in_table env db current_user user database_answers subject_matches)
          | reflexivity]. }
    rewrite (dbm_bind_ok _ _ db created _
               (eq_trans (dbm_bind_ok _ _ _ _ _ Hcommit)
                  (eq_trans (dbm_bind_ok _ _ _ _ _
                               (roundtrip_ok env 2 _ (database_answers 2%nat))) eq_refl))).
    rewrite (dbm_bind_ok _ _ _ _ _ (commit_profile_update_ok env 3 _ _ (database_answers 3%nat))).
    rewrite (dbm_bind_ok _ _ _ _ _ (roundtrip_ok env 4 _ (database_answers 4%nat))).
    reflexivity.
Qed.

End Run.


(** Replacing, in a table where a primary key has one owner, the rows with
    one key by a row with that key and that owner keeps the owners. *)
Lemma profile_keys_replace (final : UserProfile) (l : list UserProfile) :
  (forall p q, In p l -> In q l -> p_id p = p_id q -> user_id p = user_id q) ->
  (forall q, In q l -> p_id q = p_id final -> user_id q = user_id final) ->
  forall p q,
    In p (map (fun q => if String.eqb (p_id q) (p_id final) then final else q) l) ->
    In q (map (fun q => if String.eqb (p_id q) (p_id final) then final else q) l) ->
    p_id p = p_id q -> user_id p = user_id q.
Proof.
  intros Hkeys Hfinal p q Hp Hq E.
  apply in_map_iff in Hp as (p0 & <- & Hp0). apply in_map_iff in Hq as (q0 & <- & Hq0).
  revert E.
  destruct (String.eqb_spec (p_id p0) (p_id final)) as [Ep|Ep];
    destruct (String.eqb_spec (p_id q0) (p_id final)) as [Eq|Eq]; intros E.
  - reflexivity.
  - symmetry in E. contradiction.
  - contradiction.
  - exact (Hkeys p0 q0 Hp0 Hq0 E).
Qed.

Lemma apply_request_keeps_keys request p :
  let final := set_completed (fold_left setattr (model_dump_exclude_unset request) p) in
  p_id final = p_id p /\ user_id final = user_id p.
Proof.
  destruct (setattr_loop request p) as (H1 & H2 & _). cbn. split; assumption.
Qed.

(** X19.  The second of two onboarding calls with one body changes nothing.
    When the first call succeeds (the token verifies, its subject selects
    a local user, the database answers), a second call with the same
    token and the same body, whatever identifier and clock it draws,
    returns the same response and leaves the store exactly as the first
    call left it. *)
Theorem onboarding_is_idempotent client token env db current_user user request :
  get_current_user client token = Ok current_user ->
  (forall n, fault env n = None) ->
  select_user_by_cognito_id env 0 (cu_sub current_user) db = (Ok (Some user), db) ->
  (profile_of db user = None ->
   forall p, In p (profiles db) -> p_id p <> profile_uuid env) ->
  exists response db1,
    put_onboarding client env token request db = (Ok response, db1)
    /\ forall env2, (forall n, fault env2 n = None) ->
         put_onboarding client env2 token request db1 = (Ok response, db1).
Proof.
  intros Hverified Hdb Huser Hfresh. unfold put_onboarding. rewrite Hverified.
  destruct (complete_onboarding_runs env db current_user user request Hdb Huser Hfresh)
    as (db1 & Hrun & Husers & Hstored).
  pose proof (complete_onboarding_store env db current_user user request Hdb Huser Hfresh)
    as Hstore.
  cbv zeta in Hstore. rewrite Hrun in Hstore. injection Hstore as Hdb1.
  eexists _, db1. split; [exact Hrun|]. intros env2 Hdb2.
  assert (Huser1 : select_user_by_cognito_id env2 0 (cu_sub current_user) db1
                   = (Ok (Some user), db1)).
  { apply (select_user_reads_users env2 0%nat _ db db1); [symmetry; exact Husers|].
    unfold select_user_by_cognito_id, roundtrip in *.
    rewrite Hdb in Huser. rewrite Hdb2. exact Huser. }
  assert (Hfresh1 : profile_of db1 user = None ->
                    forall p, In p (profiles db1) -> p_id p <> profile_uuid env2).
  { rewrite Hstored. discriminate. }
  assert (Hbefore1 : Spec.profile_before env2 db1 user
                     = set_completed
                         (fold_left setattr (model_dump_exclude_unset request)
                            (Spec.profile_before env db user)))
    by (unfold Spec.profile_before at 1; rewrite Hstored; reflexivity).
  rewrite (complete_onboarding_store env2 db1 current_user user request Hdb2 Huser1 Hfresh1).
  rewrite Hstored, Hbefore1.
  rewrite (apply_request_idempotent request (Spec.profile_before env db user)).
  f_equal. rewrite Hdb1. cbn [users profiles p_id set_completed]. f_equal.
  rewrite map_map. apply map_ext. intros q.
  set (key := p_id (fold_left setattr (model_dump_exclude_unset request)
                      (Spec.profile_before env db user))).
  destruct (String.eqb_spec (p_id q) key) as [E|E]; cbn [p_id set_completed]; fold key.
  - rewrite String.eqb_refl. reflexivity.
  - destruct (String.eqb_spec (p_id q) key); [contradiction | reflexivity].
Qed.

(** X20.  An onboarding call touches one row.  In a store where a profile key
    has one owner, a successful call leaves the users table as it was and
    the profile of every other user as it was, and in the store it leaves
    a profile key still has one owner. *)
Theorem onboarding_leaves_other_rows client token env db current_user user request :
  get_current_user client token = Ok current_user ->
  (forall n, fault env n = None) ->
  select_user_by_cognito_id env 0 (cu_sub current_user) db = (Ok (Some user), db) ->
  (profile_of db user = None ->
   forall p, In p (profiles db) -> p_id p <> profile_uuid env) ->
  Invariants.profile_keys db ->
  exists response db',
    put_onboarding client env token request db = (Ok response, db')
    /\ users db' = users db
    /\ (forall other, id other <> id user -> profile_of db' other = profile_of db other)
    /\ Invariants.profile_keys db'.
Proof.
  intros Hverified Hdb Huser Hfresh Hkeys. unfold put_onboarding. rewrite Hverified.
  rewrite (complete_onboarding_store env db current_user user request Hdb Huser Hfresh).
  destruct (apply_request_keeps_keys request (Spec.profile_before env db user))
    as [Hpid Huid]. cbv zeta in Hpid, Huid.
  set (final := set_completed
                  (fold_left setattr (model_dump_exclude_unset request)
                     (Spec.profile_before env db user))) in *.
  set (rows := match profile_of db user with
               | Some _ => profiles db
               | None => (profiles db ++ [Spec.profile_before env db user])%list
               end).
  assert (Hbefore : user_id (Spec.profile_before env db user) = id user).
  { unfold Spec.profile_before, profile_of.
    destruct (find (fun p => String.eqb (user_id p) (id user)) (profiles db)) as [p0|] eqn:Hp.
    - apply find_some in Hp as [_ Hp]. apply String.eqb_eq in Hp. exact Hp.
    - reflexivity. }
  assert (Hrows : forall p q, In p rows -> In q rows -> p_id p = p_id q ->
                              user_id p = user_id q).
  { subst rows. destruct (profile_of db user) as [p0|] eqn:Hp; [exact Hkeys|].
    assert (Hnew : Spec.profile_before env db user
                   = new_UserProfile (profile_uuid env) (id user))
      by (unfold Spec.profile_before; rewrite Hp; reflexivity).
    intros p q Hp' Hq' E.
    apply in_app_or in Hp' as [Hp'|[<-|[]]]; apply in_app_or in Hq' as [Hq'|[<-|[]]].
    - exact (Hkeys p q Hp' Hq' E).
    - exfalso. apply (Hfresh eq_refl p Hp'). rewrite E, Hnew. reflexivity.
    - exfalso. apply (Hfresh eq_refl q Hq'). rewrite <- E, Hnew. reflexivity.
    - reflexivity. }
  assert (Hin : In (Spec.profile_before env db user) rows).
  { subst rows. unfold Spec.profile_before, profile_of.
    destruct (find (fun p => String.eqb (user_id p) (id user)) (profiles db)) as [p0|] eqn:Hp.
    - apply find_some in Hp as [Hp _]. exact Hp.
    - apply in_or_app. right. left. reflexivity. }
  assert (Howner : forall q, In q rows -> p_id q = p_id final -> user_id q = id user).
  { intros q Hq E. rewrite <- Hbefore. apply (Hrows q _ Hq Hin). rewrite E. exact Hpid. }
  eexists _, _. split; [reflexivity|]. split; [reflexivity|]. split.
  - intros other Hother. unfold profile_of. cbn [profiles].
    rewrite find_map_replace.
    + subst rows. destruct (profile_of db user) as [p0|]; [reflexivity|].
      apply find_snoc_false. rewrite Hbefore.
      destruct (String.eqb_spec (id user) (id other)); [congruence | reflexivity].
    + intros q Hq E. rewrite (Howner q Hq E).
      destruct (String.eqb_spec (id user) (id other)); [congruence | reflexivity].
    + rewrite Huid, Hbefore.
      destruct (String.eqb_spec (id user) (id other)); [congruence | reflexivity].
  - unfold Invariants.profile_keys. cbn [profiles].
    apply profile_keys_replace; [exact Hrows|].
    intros q Hq E. rewrite (Howner q Hq E), Huid, Hbefore. reflexivity.
Qed.

(** X21.  The bounds of the body carry over to the stored profile.  When the
    body passed the bounds of its schema and the profile the call starts
    from has its age, height and weight within those bounds, so has the
    profile the call stores. *)
Theorem onboarding_keeps_bounds client token env db current_user user request :
  get_current_user client token = Ok current_user ->
  (forall n, fault env n = None) ->
  select_user_by_cognito_id env 0 (cu_sub current_user) db = (Ok (Some user), db) ->
  (profile_of db user = None ->
   forall p, In p (profiles db) -> p_id p <> profile_uuid env) ->
  Backend.ProfileSchemas.validate request = Ok request ->
  Invariants.within_bounds (Spec.profile_before env db user) ->
  exists after db',
    put_onboarding client env token request db = (Ok (response_of user after), db')
    /\ profile_of db' user = Some after
    /\ Invariants.within_bounds after.
Proof.
  intros Hverified Hdb Huser Hfresh Hvalid Hbounds. unfold put_onboarding. rewrite Hverified.
  destruct (complete_onboarding_runs env db current_user user request Hdb Huser Hfresh)
    as (db' & Hrun & _ & Hstored).
  eexists _, db'. split; [exact Hrun|]. split; [exact Hstored|].
  destruct (setattr_loop request (Spec.profile_before env db user))
    as (_ & _ & _ & _ & _ & _ & Ha & Hh & Hw & _).
  destruct Hbounds as (Ba & Bh & Bw).
  unfold Backend.ProfileSchemas.validate in Hvalid.
  destruct (Backend.ProfileSchemas.within _ (Backend.ProfileSchemas.age request)) eqn:Va;
    [|discriminate].
  destruct (Backend.ProfileSchemas.within _ (Backend.ProfileSchemas.height_cm request)) eqn:Vh;
    [|discriminate].
  destruct (Backend.ProfileSchemas.within _ (Backend.ProfileSchemas.weight_kg request)) eqn:Vw;
    [|discriminate].
  clear Hvalid. unfold Invariants.within_bounds. cbn [age height_cm weight_kg set_completed].
  rewrite Ha, Hh, Hw. unfold Spec.merge. split; [|split].
  - intros a. destruct (Backend.ProfileSchemas.age request) as [|[a0|]];
      [apply Ba | | discriminate].
    intros [= <-]. cbn in Va. lia.
  - intros h. destruct (Backend.ProfileSchemas.height_cm request) as [|[h0|]];
      [apply Bh | | discriminate].
    intros [= <-]. cbn in Vh. apply andb_prop in Vh as [V1 V2].
    split; apply Qle_bool_iff; assumption.
  - intros w. destruct (Backend.ProfileSchemas.weight_kg request) as [|[w0|]];
      [apply Bw | | discriminate].
    intros [= <-]. cbn in Vw. apply andb_prop in Vw as [V1 V2].
    split; apply Qle_bool_iff; assumption.
Qed.

(** X22.  A database failure in the onboarding handler is not handled.  If the
    first round trip fails, the error is raised as it is and the store is
    untouched.  If the user has no profile and the final commit fails, the
    error is raised as it is and the store keeps the blank profile the
    handler had committed before: the user has a profile, not completed,
    with no field of the body in it. *)
Theorem onboarding_database_failure client token env db current_user user request msg :
  get_current_user client token = Ok current_user ->
  (fault env 0%nat = Some msg ->
   put_onboarding client env token request db = (Raise (OperationalError msg), db))
  /\ (fault env 0%nat = None -> fault env 1%nat = None -> fault env 2%nat = None ->
      fault env 3%nat = Some msg ->
      select_user_by_cognito_id env 0 (cu_sub current_user) db = (Ok (Some user), db) ->
      profile_of db user = None ->
      (forall p, In p (profiles db) -> p_id p <> profile_uuid env) ->
      let blank := new_UserProfile (profile_uuid env) (id user) in
      let db' := {| users := users db; profiles := (profiles db ++ [blank])%list |} in
      put_onboarding client env token request db = (Raise (OperationalError msg), db')
      /\ profile_of db' user = Some blank
      /\ has_completed_onboarding blank = false).
Proof.
  intros Hverified. unfold put_onboarding. rewrite Hverified. split.
  - intros H0. unfold complete_onboarding, select_user_by_cognito_id, roundtrip.
    rewrite H0. reflexivity.
  - intros H0 H1 H2 H3 Huser Hnone Hfresh.
    set (blank := new_UserProfile (profile_uuid env) (id user)).
    set (db' := {| users := users db; profiles := (profiles db ++ [blank])%list |}).
    assert (Hin : In user (users db)).
    { unfold select_user_by_cognito_id in Huser.
      rewrite (dbm_bind_ok _ _ db () db (roundtrip_ok env 0 db H0)) in Huser.
      unfold mbind, DbM_bind, get_db, lift in Huser. injection Huser as Huser.
      apply scalar_one_inv in Huser.
      assert (Hin : In user (List.filter (fun u => match cu_sub current_user with
                                               | Some c' => String.eqb (cognito_id u) c'
                                               | None => false
                                               end) (users db))).
      { rewrite Huser. left. reflexivity. }
      apply filter_In in Hin. tauto. }
    assert (Hcommit : commit_profile env 1 blank db = (Ok (), db')).
    { apply commit_profile_ok; [exact H1 | | ].
      - intros q Hq. split; [exact (Hfresh q Hq)|].
        unfold profile_of in Hnone. apply (find_none _ _ Hnone) in Hq.
        intros E. cbn in E. rewrite E, String.eqb_refl in Hq. discriminate.
      - exists user. split; [exact Hin | reflexivity]. }
    split; [|split; [|reflexivity]].
    + unfold complete_onboarding.
      rewrite (dbm_bind_ok _ _ db (Some user) db Huser).
      rewrite (dbm_bind_ok get_db _ db db db eq_refl). rewrite Hnone.
      rewrite (dbm_bind_ok _ _ db blank db'
                 (eq_trans (dbm_bind_ok _ _ _ _ _ Hcommit)
                    (eq_trans (dbm_bind_ok _ _ _ _ _ (roundtrip_ok env 2 _ H2)) eq_refl))).
      unfold commit_profile_update, roundtrip. rewrite H3. reflexivity.
    + unfold profile_of, db'. cbn [profiles].
      unfold profile_of in Hnone. rewrite (find_app_none _ _ _ Hnone).
      cbn. rewrite String.eqb_refl. reflexivity.
Qed.

End OnboardingMore.

Lemma onboarding_is_idempotent_witness :
  exists response db1,
    Backend.Onboarding.put_onboarding Fixtures.bob_provider Fixtures.env0 "bob-token"
      Fixtures.measurements Fixtures.bob_db = (Ok response, db1)
    /\ Backend.Onboarding.put_onboarding Fixtures.bob_provider Fixtures.env_final_commit_fails
         "bob-token" Fixtures.measurements Fixtures.bob_db <> (Ok response, db1)
    /\ Backend.Onboarding.put_onboarding Fixtures.bob_provider
         {| Backend.Session.fault := Fixtures.no_fault; Backend.Session.user_uuid := "uuid-v";
            Backend.Session.profile_uuid := "uuid-q"; Backend.Session.now := 2000 |}
         "bob-token" Fixtures.measurements db1 = (Ok response, db1).
Proof.
  destruct (onboarding_is_idempotent Fixtures.bob_provider "bob-token" Fixtures.env0
              Fixtures.bob_db Fixtures.bob_token Fixtures.bob Fixtures.measurements)
    as (response & db1 & Hrun & Hagain).
  - vm_compute. reflexivity.
  - reflexivity.
  - reflexivity.
  - intros _ p [].
  - exists response, db1. split; [exact Hrun|]. split; [discriminate|].
    apply Hagain. reflexivity.
Defined.

Lemma onboarding_leaves_other_rows_witness :
  exists response db',
    Backend.Onboarding.put_onboarding Fixtures.bob_provider Fixtures.env0 "bob-token"
      Fixtures.measurements Fixtures.bob_and_dana_db = (Ok response, db')
    /\ Backend.Session.profile_of db' Fixtures.dana = Some Fixtures.dana_profile.
Proof.
  destruct (onboarding_leaves_other_rows Fixtures.bob_provider "bob-token" Fixtures.env0
              Fixtures.bob_and_dana_db Fixtures.bob_token Fixtures.bob Fixtures.measurements)
    as (response & db' & Hrun & _ & Hother & _).
  - vm_compute. reflexivity.
  - reflexivity.
  - reflexivity.
  - intros _ p [<-|[]]. discriminate.
  - intros p q [<-|[]] [<-|[]] _. reflexivity.
  - exists response, db'. split; [exact Hrun|].
    rewrite (Hother Fixtures.dana); [reflexivity | discriminate].
Defined.

Lemma onboarding_keeps_bounds_witness :
  exists after db',
    Backend.Onboarding.put_onboarding Fixtures.bob_provider Fixtures.env0 "bob-token"
      Fixtures.measurements Fixtures.bob_with_profile_db
      = (Ok (Backend.Onboarding.response_of Fixtures.bob after), db')
    /\ Invariants.within_bounds after.
Proof.
  destruct (onboarding_keeps_bounds Fixtures.bob_provider "bob-token" Fixtures.env0
              Fixtures.bob_with_profile_db Fixtures.bob_token Fixtures.bob
              Fixtures.measurements)
    as (after & db' & Hrun & _ & Hbounds).
  - vm_compute. reflexivity.
  - reflexivity.
  - reflexivity.
  - discriminate.
  - reflexivity.
  - repeat split; discriminate.
  - exists after, db'. split; assumption.
Defined.

Lemma onboarding_database_failure_witness :
  Backend.Onboarding.put_onboarding Fixtures.bob_provider Fixtures.env_final_commit_fails
    "bob-token" Fixtures.age_25 Fixtures.bob_db
  = (Raise (OperationalError "connection lost"),
     {| Backend.Session.users := [Fixtures.bob];
        Backend.Session.profiles := [Backend.Models.new_UserProfile "uuid-p" "uuid-bob"] |})
  /\ Backend.Onboarding.put_onboarding Fixtures.bob_provider
       {| Backend.Session.fault := fun _ => Some "connection lost";
          Backend.Session.user_uuid := "uuid-u"; Backend.Session.profile_uuid := "uuid-p";
          Backend.Session.now := 1000 |}
       "bob-token" Fixtures.age_25 Fixtures.bob_db
     = (Raise (OperationalError "connection lost"), Fixtures.bob_db).
Proof.
  split.
  - destruct (onboarding_database_failure Fixtures.bob_provider "bob-token"
                Fixtures.env_final_commit_fails Fixtures.bob_db Fixtures.bob_token
                Fixtures.bob Fixtures.age_25 "connection lost") as [_ Hlate].
    + vm_compute. reflexivity.
    + apply Hlate; try reflexivity. intros p [].
  - destruct (onboarding_database_failure Fixtures.bob_provider "bob-token"
                {| Backend.Session.fault := fun _ => Some "connection lost";
                   Backend.Session.user_uuid := "uuid-u";
                   Backend.Session.profile_uuid := "uuid-p"; Backend.Session.now := 1000 |}
                Fixtures.bob_db Fixtures.bob_token Fixtures.bob Fixtures.age_25
                "connection lost") as [Hearly _].
    + vm_compute. reflexivity.
    + apply Hearly. reflexivity.
Defined.

(** * The token verifier and the validators *)

(** X23.  [verify_token] of the second generation.  It returns exactly when the
    provider answers with an attribute list and a user name; every
    attribute then has the value of its last entry in the list, and the
    subject is the attribute "sub" (none when the list has no such entry).
    An error of the provider becomes 401 "Invalid authentication
    credentials"; a missing key or any other failure is raised as it is.
    [get_current_user] passes the result on and turns every failure into
    the one 401 with the Bearer challenge. *)
Theorem backend_verify_token_outcomes client token :
  match Backend.Security.verify_token client token with
  | Ok cu =>
      (exists response attrs,
         get_user client token = Ok response
         /\ gu_Username response = Some (Backend.Security.cu_username cu)
         /\ gu_UserAttributes response = Some attrs
         /\ (forall k, Backend.Security.cu_attributes cu !! k = Invariants.last_value k attrs)
         /\ Backend.Security.cu_sub cu = Invariants.last_value "sub" attrs)
      /\ Backend.Security.get_current_user client token = Ok cu
  | Raise e =>
      Backend.Security.get_current_user client token = Raise Spec.unauthenticated
      /\ (forall code m, get_user client token = Raise (ClientError code m) ->
          e = HTTPException HTTP_401_UNAUTHORIZED
                (DetailStr "Invalid authentication credentials") [])
      /\ (forall e0, get_user client token = Raise e0 ->
          (forall code m, e0 <> ClientError code m) -> e = e0)
      /\ (forall response, get_user client token = Ok response ->
          (gu_UserAttributes response = None /\ e = KeyError "UserAttributes")
          \/ (gu_UserAttributes response <> None /\ gu_Username response = None
              /\ e = KeyError "Username"))
  end.
Proof.
  unfold Backend.Security.get_current_user, Backend.Security.verify_token.
  destruct (get_user client token) as [response|e0]; cbn [mbind Py.result_bind try_except].
  - destruct response as [[username|] [attrs|]]; cbn.
    + split; [|reflexivity]. eexists _, attrs. split; [reflexivity|]. split; [reflexivity|].
      split; [reflexivity|].
      assert (Hk : forall k,
                 fold_left (fun m attr => <[attr.1 := attr.2]> m) attrs
                   (∅ : gmap string string) !! k = Invariants.last_value k attrs).
      { intros k. rewrite attributes_lookup.
        destruct (Invariants.last_value k attrs); [reflexivity | apply lookup_empty]. }
      split; [exact Hk | apply Hk].
    + split; [reflexivity|]. split; [discriminate|]. split; [discriminate|].
      intros r [= <-]. left. split; reflexivity.
    + split; [reflexivity|]. split; [discriminate|]. split; [discriminate|].
      intros r [= <-]. right. split; [discriminate|]. split; reflexivity.
    + split; [reflexivity|]. split; [discriminate|]. split; [discriminate|].
      intros r [= <-]. left. split; reflexivity.
  - destruct e0 as [| code m | | | | | |]; cbn;
      (split; [reflexivity|]); (split; [|split; [|discriminate]]);
      try discriminate; try (intros e1 [= <-] _; reflexivity).
    + intros _ _ _. reflexivity.
    + intros e1 [= <-] Hne. exfalso. exact (Hne code m eq_refl).
Qed.

(** ** User names *)

Lemma remove_separators_alnum (v : string) :
  all_chars isalnum_c (remove_char "-" (remove_char "_" v))
  = all_chars Invariants.username_char v.
Proof.
  induction v as [|c v IH]; [reflexivity|]. cbn [remove_char all_chars].
  unfold Invariants.username_char at 1.
  destruct (Ascii.eqb_spec "_" c) as [<-|H1].
  - rewrite IH. reflexivity.
  - cbn [remove_char]. destruct (Ascii.eqb_spec "-" c) as [<-|H2].
    + rewrite IH. reflexivity.
    + cbn [all_chars]. rewrite IH.
      destruct (Ascii.eqb_spec c "_") as [E|_]; [symmetry in E; contradiction|].
      destruct (Ascii.eqb_spec c "-") as [E|_]; [symmetry in E; contradiction|].
      rewrite !orb_false_r. reflexivity.
Qed.

Lemma remove_separators_empty (v : string) :
  all_chars Invariants.username_char v = true ->
  (remove_char "-" (remove_char "_" v) = "" <-> any_char isalnum_c v = false).
Proof.
  induction v as [|c v IH]; [intros _; split; reflexivity|].
  cbn [all_chars any_char remove_char]. intros H. apply andb_prop in H as [Hc Hv].
  destruct (Ascii.eqb_spec "_" c) as [<-|H1]; [exact (IH Hv)|].
  cbn [remove_char]. destruct (Ascii.eqb_spec "-" c) as [<-|H2]; [exact (IH Hv)|].
  unfold Invariants.username_char in Hc.
  destruct (Ascii.eqb_spec c "_") as [E|_]; [symmetry in E; contradiction|].
  destruct (Ascii.eqb_spec c "-") as [E|_]; [symmetry in E; contradiction|].
  rewrite !orb_false_r in Hc. rewrite Hc. split; discriminate.
Qed.

Lemma isalnum_all_chars (s : string) :
  isalnum s = all_chars isalnum_c s && negb (String.eqb s "").
Proof. destruct s; [reflexivity|]. cbn. rewrite andb_true_r. reflexivity. Qed.

Lemma username_check (v : string) :
  isalnum (remove_char "-" (remove_char "_" v))
  = all_chars Invariants.username_char v && any_char isalnum_c v.
Proof.
  rewrite isalnum_all_chars, remove_separators_alnum.
  destruct (all_chars Invariants.username_char v) eqn:Hall; [|reflexivity].
  cbn [andb]. pose proof (remove_separators_empty v Hall) as Hempty.
  destruct (String.eqb_spec (remove_char "-" (remove_char "_" v)) "") as [E|E].
  - rewrite (proj1 Hempty E). reflexivity.
  - destruct (any_char isalnum_c v); [reflexivity|].
    exfalso. apply E, Hempty. reflexivity.
Qed.

Lemma lower_c_keeps_classes (c : ascii) :
  Invariants.username_char (lower_c c) = Invariants.username_char c
  /\ isalnum_c (lower_c c) = isalnum_c c
  /\ isupper_c (lower_c c) = false.
Proof. destruct c as [[] [] [] [] [] [] [] []]; repeat split. Qed.

Lemma lower_keeps_classes (v : string) :
  all_chars Invariants.username_char (lower v) = all_chars Invariants.username_char v
  /\ any_char isalnum_c (lower v) = any_char isalnum_c v
  /\ any_char isupper_c (lower v) = false.
Proof.
  induction v as [|c v (IH1 & IH2 & IH3)]; [repeat split|].
  destruct (lower_c_keeps_classes c) as (H1 & H2 & H3).
  cbn [lower all_chars any_char]. rewrite IH1, IH2, IH3, H1, H2, H3. repeat split.
Qed.

Lemma lower_c_ascii (c : ascii) :
  (nat_of_ascii (lower_c c) <? 128)%nat = (nat_of_ascii c <? 128)%nat.
Proof. destruct c as [[] [] [] [] [] [] [] []]; reflexivity. Qed.

Lemma lower_ascii_text (v : string) :
  Invariants.ascii_text (lower v) = Invariants.ascii_text v.
Proof.
  unfold Invariants.ascii_text. induction v as [|c v IH]; [reflexivity|].
  cbn [lower all_chars]. rewrite IH, lower_c_ascii. reflexivity.
Qed.

Lemma validate_username_shape (v u : string) :
  Backend.AuthSchemas.validate_username v = Ok u ->
  u = lower v /\ any_char isupper_c u = false
  /\ all_chars Invariants.username_char u = true
  /\ Backend.AuthSchemas.validate_username u = Ok u.
Proof.
  unfold Backend.AuthSchemas.validate_username. rewrite username_check.
  destruct (all_chars Invariants.username_char v) eqn:Hall;
    destruct (any_char isalnum_c v) eqn:Hany; cbn [andb negb]; try discriminate.
  intros [= <-]. destruct (lower_keeps_classes v) as (H1 & H2 & H3).
  split; [reflexivity|]. split; [exact H3|]. split; [rewrite H1; exact Hall|].
  rewrite username_check, H1, H2, Hall, Hany. cbn. rewrite lower_idempotent. reflexivity.
Qed.

(** X24.  The user-name validator, of both generations, on ASCII text.  A
    name of ASCII characters is accepted exactly when each of its
    characters is a letter, a digit, an underscore or a hyphen and at
    least one is a letter or a digit (a name of separators only is
    refused); the validated name is the lower-cased input, holds no
    upper-case letter, and is accepted unchanged when validated again.
    The two generations validate alike. *)
Theorem validate_username_characterised (v : string) :
  Invariants.ascii_text v = true ->
  Backend.AuthSchemas.validate_username v = Legacy.AuthModels.validate_username v
  /\ (Backend.AuthSchemas.validate_username v = Ok (lower v)
      <-> all_chars Invariants.username_char v = true /\ any_char isalnum_c v = true)
  /\ (Backend.AuthSchemas.validate_username v = Raise (ValidationError "username")
      <-> all_chars Invariants.username_char v = false \/ any_char isalnum_c v = false)
  /\ (forall u, Backend.AuthSchemas.validate_username v = Ok u ->
      u = lower v /\ Invariants.ascii_text u = true /\ any_char isupper_c u = false
      /\ Backend.AuthSchemas.validate_username u = Ok u).
Proof.
  intros Hascii. split; [reflexivity|].
  assert (Hshape : forall u, Backend.AuthSchemas.validate_username v = Ok u ->
            u = lower v /\ Invariants.ascii_text u = true /\ any_char isupper_c u = false
            /\ Backend.AuthSchemas.validate_username u = Ok u).
  { intros u Hu. destruct (validate_username_shape v u Hu) as (-> & H1 & _ & H2).
    split; [reflexivity|]. split; [rewrite lower_ascii_text; exact Hascii|].
    split; assumption. }
  split; [|split; [|exact Hshape]]; clear Hshape;
    unfold Backend.AuthSchemas.validate_username; rewrite username_check;
    destruct (all_chars Invariants.username_char v) eqn:Hall;
    destruct (any_char isalnum_c v) eqn:Hany; cbn [andb negb].
  all: split;
    [ intros H; try discriminate H;
      first [ split; reflexivity | left; reflexivity | right; reflexivity ]
    | first [ intros [H1 H2]; try discriminate H1; try discriminate H2; reflexivity
            | intros [H|H]; try discriminate H; reflexivity ] ].
Qed.

Lemma validate_username_characterised_witness :
  Backend.AuthSchemas.validate_username "Carol_K-9" = Ok "carol_k-9"
  /\ Backend.AuthSchemas.validate_username "carol_k-9" = Ok "carol_k-9"
  /\ Backend.AuthSchemas.validate_username "_-_" = Raise (ValidationError "username")
  /\ Backend.AuthSchemas.validate_username "carol k" = Raise (ValidationError "username").
Proof.
  destruct (validate_username_characterised "Carol_K-9" eq_refl) as (_ & [_ Hok] & _ & Hagain).
  destruct (validate_username_characterised "_-_" eq_refl) as (_ & _ & [_ Hseparators] & _).
  destruct (validate_username_characterised "carol k" eq_refl) as (_ & _ & [_ Hspace] & _).
  split; [apply Hok; split; reflexivity|].
  split; [apply (Hagain "carol_k-9"), Hok; split; reflexivity|].
  split; [apply Hseparators; right; reflexivity | apply Hspace; left; reflexivity].
Defined.

(** ** The fields of a registration body *)

Lemma lower_length (s : string) : String.length (lower s) = String.length s.
Proof. induction s as [|c s IH]; [reflexivity|]. cbn. rewrite IH. reflexivity. Qed.

Lemma check_length_inv field lo hi v r :
  Legacy.AuthModels.check_length field lo hi v = Ok r -> r = v /\ lo <= len v <= hi.
Proof.
  unfold Legacy.AuthModels.check_length.
  destruct (lo <=? len v) eqn:H1; destruct (len v <=? hi) eqn:H2; cbn; try discriminate.
  intros [= <-]. split; [reflexivity | lia].
Qed.

Lemma check_length_ok field lo hi v :
  lo <= len v <= hi -> Legacy.AuthModels.check_length field lo hi v = Ok v.
Proof.
  intros H. unfold Legacy.AuthModels.check_length.
  destruct (Z.leb_spec lo (len v)); [|lia]. destruct (Z.leb_spec (len v) hi); [|lia].
  reflexivity.
Qed.

Lemma validate_password_inv v r :
  Backend.AuthSchemas.validate_password v = Ok r ->
  r = v
  /\ any_char isupper_c v = true /\ any_char islower_c v = true
  /\ any_char isdigit_c v = true
  /\ any_char (char_in Backend.AuthSchemas.special_characters) v = true.
Proof.
  unfold Backend.AuthSchemas.validate_password.
  destruct (any_char isupper_c v); [|discriminate].
  destruct (any_char islower_c v); [|discriminate].
  destruct (any_char isdigit_c v); [|discriminate].
  destruct (any_char (char_in Backend.AuthSchemas.special_characters) v); [|discriminate].
  cbn. intros [= <-]. repeat split.
Qed.

(** X25.  The password and the user name of a registration body, on ASCII
    text.  A password of ASCII characters that passes its field is
    returned as given, has 8 to 128 characters and holds an upper-case
    letter, a lower-case letter, a digit and a special character.  A user
    name of ASCII characters that passes its field comes back lower-cased
    and still has 3 to 50 characters.  Both results pass their field
    again unchanged, and the fields of the first generation give the same
    results. *)
Theorem registration_fields_normal_form password username p u :
  Invariants.ascii_text password = true ->
  Invariants.ascii_text username = true ->
  Backend.AuthSchemas.password_field password = Ok p ->
  Backend.AuthSchemas.username_field username = Ok u ->
  (p = password /\ 8 <= len p <= 128
   /\ any_char isupper_c p = true /\ any_char islower_c p = true
   /\ any_char isdigit_c p = true
   /\ any_char (char_in Backend.AuthSchemas.special_characters) p = true
   /\ Backend.AuthSchemas.password_field p = Ok p
   /\ Legacy.AuthModels.password_field password = Ok p)
  /\ (u = lower username /\ 3 <= len u <= 50
      /\ Invariants.ascii_text u = true
      /\ any_char isupper_c u = false
      /\ all_chars Invariants.username_char u = true
      /\ Backend.AuthSchemas.username_field u = Ok u
      /\ Legacy.AuthModels.username_field username = Ok u).
Proof.
  intros _ Hascii Hpassword Husername. split.
  - assert (Hlegacy : Legacy.AuthModels.password_field password = Ok p) by exact Hpassword.
    unfold Backend.AuthSchemas.password_field in *.
    destruct (Legacy.AuthModels.check_length "password" 8 128 password) as [p0|] eqn:Hp;
      [|discriminate].
    apply check_length_inv in Hp as [-> Hlen]. cbn [mbind Py.result_bind] in Hpassword.
    pose proof Hpassword as Hv.
    apply validate_password_inv in Hv as (-> & Hup & Hlo & Hdi & Hsp).
    split; [reflexivity|]. split; [exact Hlen|]. split; [exact Hup|]. split; [exact Hlo|].
    split; [exact Hdi|]. split; [exact Hsp|]. split; [|exact Hlegacy].
    rewrite (check_length_ok "password" 8 128 password Hlen). exact Hpassword.
  - assert (Hlegacy : Legacy.AuthModels.username_field username = Ok u) by exact Husername.
    unfold Backend.AuthSchemas.username_field in *.
    destruct (Legacy.AuthModels.check_length "username" 3 50 username) as [u0|] eqn:Hu;
      [|discriminate].
    apply check_length_inv in Hu as [-> Hlen]. cbn [mbind Py.result_bind] in Husername.
    destruct (validate_username_shape username u Husername) as (-> & Hnoupper & Hchars & Hagain).
    assert (Hlower : len (lower username) = len username)
      by (unfold len; rewrite lower_length; reflexivity).
    split; [reflexivity|]. split; [rewrite Hlower; exact Hlen|].
    split; [rewrite lower_ascii_text; exact Hascii|].
    split; [exact Hnoupper|]. split; [exact Hchars|]. split; [|exact Hlegacy].
    rewrite (check_length_ok "username" 3 50 (lower username)) by (rewrite Hlower; exact Hlen).
    exact Hagain.
Qed.

Lemma registration_fields_normal_form_witness :
  Backend.AuthSchemas.password_field "Valid123!" = Ok "Valid123!"
  /\ Backend.AuthSchemas.username_field "Carol_K" = Ok "carol_k"
  /\ Backend.AuthSchemas.username_field "carol_k" = Ok "carol_k".
Proof.
  destruct (registration_fields_normal_form "Valid123!" "Carol_K" "Valid123!" "carol_k"
              eq_refl eq_refl eq_refl eq_refl)
    as ((_ & _ & _ & _ & _ & _ & Hpassword & _) & (_ & _ & _ & _ & _ & Husername & _)).
  split; [exact Hpassword|]. split; [reflexivity | exact Husername].
Defined.

(** ** The shape of the secret hash *)

Lemma b64encode_of_digest (bs : list byte) :
  length bs = 32%nat ->
  String.length (Crypto.b64encode bs) = 44%nat
  /\ String.get 43 (Crypto.b64encode bs) = Some "="%char.
Proof.
  intros H.
  do 32 (destruct bs as [|? bs]; [discriminate H|]).
  destruct bs; [|discriminate H].
  split; reflexivity.
Qed.

(** X26.  [_get_secret_hash], of both generations.  Without a client secret, or
    with an empty one, there is no hash.  Otherwise the hash is a text of
    44 characters, the last one the padding sign: the base64 of a digest
    of 32 bytes.  The two generations compute the same value. *)
Theorem secret_hash_shape cfg username :
  Legacy.CognitoService._get_secret_hash cfg username
  = Backend.CognitoService._get_secret_hash cfg username
  /\ match Backend.CognitoService._get_secret_hash cfg username with
     | None => client_secret cfg = None \/ client_secret cfg = Some ""
     | Some h =>
         (exists secret,
            client_secret cfg = Some secret /\ secret <> ""
            /\ h = Spec.keyed_hash secret (client_id cfg) username)
         /\ String.length h = 44%nat
         /\ String.get 43 h = Some "="%char
     end.
Proof.
  split; [reflexivity|].
  unfold Backend.CognitoService._get_secret_hash.
  destruct (client_secret cfg) as [secret|]; [|left; reflexivity].
  unfold str_truthy. destruct (String.eqb_spec secret "") as [->|Hne]; cbn [negb].
  - right. reflexivity.
  - split; [exists secret; repeat split; assumption|].
    apply b64encode_of_digest, hmac_sha256_length.
Qed.
